(** * tscinit: a TypeScript project scaffolder (main.py)

    Shallow embedding of [main.py] and of the parts of the Python
    standard library and of the POSIX file system it calls.

    Modelling choices.
    - A Python [str] is a [string]; a character is a code point below 256.
    - The file system is a finite map from locations (lists of names, the
      root being the empty list) to nodes.  There are no symbolic links,
      no permissions, no quota and no length limits: the only errors are
      the structural ones (ENOENT, ENOTDIR, EISDIR, EEXIST) and the
      [ValueError] Python raises for a path with an embedded NUL.
    - Code runs in a state-and-exception monad over the world (file
      system, working directory, standard output). *)

From Stdlib Require Import ZArith Ascii String List.
From stdpp Require Import gmap strings list.

Local Open Scope string_scope.
Local Open Scope list_scope.
#[local] Arguments String.append !_ _ / : simpl nomatch.
Local Open Scope Z_scope.

(** ** Characters and string primitives *)

Definition sep : ascii := "/"%char.
Definition nl : string := String "010"%char EmptyString.
Definition dq : string := String "034"%char EmptyString.

Fixpoint str_take (n : nat) (s : string) : string :=
  match n, s with
  | S n', String c r => String c (str_take n' r)
  | _, _ => EmptyString
  end.

Fixpoint str_drop (n : nat) (s : string) : string :=
  match n, s with
  | S n', String _ r => str_drop n' r
  | _, _ => s
  end.

(** [s.rfind(c)]: the highest index holding [c], or [-1]. *)
Fixpoint rfind (c : ascii) (s : string) : Z :=
  match s with
  | EmptyString => -1
  | String a r =>
      let k := rfind c r in
      if 0 <=? k then k + 1 else if Ascii.eqb a c then 0 else -1
  end.

(** [s.startswith(c)] and [s.endswith(c)] for a one-character [c]. *)
Definition startswith (c : ascii) (s : string) : bool :=
  match s with
  | String a _ => Ascii.eqb a c
  | EmptyString => false
  end.

Fixpoint endswith (c : ascii) (s : string) : bool :=
  match s with
  | EmptyString => false
  | String a EmptyString => Ascii.eqb a c
  | String _ r => endswith c r
  end.

(** [s == c * len(s)] *)
Fixpoint all_char (c : ascii) (s : string) : bool :=
  match s with
  | EmptyString => true
  | String a r => Ascii.eqb a c && all_char c r
  end.

(** [s.rstrip(c)] *)
Fixpoint rstrip (c : ascii) (s : string) : string :=
  match s with
  | EmptyString => EmptyString
  | String a r =>
      match rstrip c r with
      | EmptyString => if Ascii.eqb a c then EmptyString else String a EmptyString
      | r' => String a r'
      end
  end.

Definition is_empty (s : string) : bool :=
  match s with EmptyString => true | _ => false end.

(** ** posixpath *)

Module posixpath.

(** [i = p.rfind(sep) + 1; return p[i:]] *)
Definition basename (p : string) : string :=
  let i := rfind sep p + 1 in
  str_drop (Z.to_nat i) p.

(** [head, tail = p[:i], p[i:]]; trailing separators are stripped from
    [head] unless it consists of separators only. *)
Definition split (p : string) : string * string :=
  let i := rfind sep p + 1 in
  let head := str_take (Z.to_nat i) p in
  let tail := str_drop (Z.to_nat i) p in
  let head :=
    if negb (is_empty head) && negb (all_char sep head)
    then rstrip sep head else head in
  (head, tail).

Definition isabs (s : string) : bool := startswith sep s.

(** [join(a, b)] with a single [b]. *)
Definition join (a b : string) : string :=
  if startswith sep b then b
  else if is_empty a || endswith sep a then a +:+ b
  else a +:+ String sep b.

End posixpath.

(** ** JSON documents and [json.dump(obj, f, indent=2)] *)

#[warnings="-register-all"]
Inductive json : Type :=
| JStr (s : string)
| JBool (b : bool)
| JList (l : list json)
| JDict (d : list (string * json)).

Module json_encoder.

Definition hex_digit (n : N) : ascii :=
  if (n <? 10)%N then ascii_of_N (48 + n) else ascii_of_N (87 + n).

(** ['\\u{0:04x}'.format(n)] for [n < 0x10000] *)
Definition u_escape (n : N) : string :=
  String "\"%char (String "u"%char
    (String (hex_digit (N.shiftr n 12 mod 16))
    (String (hex_digit (N.shiftr n 8 mod 16))
    (String (hex_digit (N.shiftr n 4 mod 16))
    (String (hex_digit (n mod 16)) EmptyString))))).

Definition bs : string := String "\"%char EmptyString.

(** The replacement of one character: [ESCAPE_DCT] first, then the
    [\uXXXX] form for whatever else lies outside [' '..'~']. *)
Definition escape_char (c : ascii) : string :=
  let n := N_of_ascii c in
  if (n =? 92)%N then bs +:+ bs
  else if (n =? 34)%N then bs +:+ dq
  else if (n =? 8)%N then bs +:+ "b"
  else if (n =? 12)%N then bs +:+ "f"
  else if (n =? 10)%N then bs +:+ "n"
  else if (n =? 13)%N then bs +:+ "r"
  else if (n =? 9)%N then bs +:+ "t"
  else if (32 <=? n)%N && (n <=? 126)%N then String c EmptyString
  else u_escape n.

Fixpoint escape (s : string) : string :=
  match s with
  | EmptyString => EmptyString
  | String c r => escape_char c +:+ escape r
  end.

(** [py_encode_basestring_ascii] *)
Definition encode_basestring_ascii (s : string) : string :=
  dq +:+ escape s +:+ dq.

(** ['\n' + _indent * level] with [_indent = ' ' * 2] *)
Fixpoint spaces (n : nat) : string :=
  match n with
  | O => EmptyString
  | S n' => String " "%char (spaces n')
  end.

Definition newline_indent (level : nat) : string :=
  nl +:+ spaces (2 * level).

(** [_iterencode], the chunks concatenated.  [level] is
    [_current_indent_level]. *)
Fixpoint iterencode (o : json) (level : nat) {struct o} : string :=
  match o with
  | JStr s => encode_basestring_ascii s
  | JBool true => "true"
  | JBool false => "false"
  | JList [] => "[]"
  | JList (v :: vs) =>
      let level' := S level in
      let separator := "," +:+ newline_indent level' in
      "[" +:+ newline_indent level' +:+ iterencode v level'
      +:+ (fix items (l : list json) : string :=
             match l with
             | [] => EmptyString
             | x :: l' => separator +:+ iterencode x level' +:+ items l'
             end) vs
      +:+ newline_indent level +:+ "]"
  | JDict [] => "{}"
  | JDict ((k, v) :: kvs) =>
      let level' := S level in
      let item_separator := "," +:+ newline_indent level' in
      "{" +:+ newline_indent level'
      +:+ encode_basestring_ascii k +:+ ": " +:+ iterencode v level'
      +:+ (fix items (l : list (string * json)) : string :=
             match l with
             | [] => EmptyString
             | (k', x) :: l' =>
                 item_separator +:+ encode_basestring_ascii k' +:+ ": "
                 +:+ iterencode x level' +:+ items l'
             end) kvs
      +:+ newline_indent level +:+ "}"
  end.

Definition dumps (o : json) : string := iterencode o 0.

End json_encoder.

(** ** The file system *)

Inductive node : Type :=
| File (content : string)
| Dir.

(** A location is the list of names leading from the root to a node. *)
Abbreviation loc := (list string).

(** The exceptions the modelled calls can raise.  [OutOfFuel] is the
    recursion bound of [makedirs_fuel]; [os_makedirs_total] shows it is
    never reached. *)
Inductive exn : Type :=
| FileNotFoundError
| NotADirectoryError
| IsADirectoryError
| FileExistsError
| ValueError
| OutOfFuel.

Inductive result (A : Type) : Type :=
| Ok (a : A)
| Raise (e : exn).
Arguments Ok {A} a.
Arguments Raise {A} e.

Module vfs.

(** The root always exists and is a directory. *)
Definition node_at (fs : gmap loc node) (l : loc) : option node :=
  match l with
  | [] => Some Dir
  | _ => fs !! l
  end.

(** [s.split('/')] *)
Fixpoint split_sep (s : string) : list string :=
  match s with
  | EmptyString => [EmptyString]
  | String c r =>
      if Ascii.eqb c sep then EmptyString :: split_sep r
      else match split_sep r with
           | h :: t => String c h :: t
           | [] => [String c EmptyString]
           end
  end.

(** The names of a path: empty pieces (repeated, leading and trailing
    separators) are dropped. *)
Definition components (p : string) : list string :=
  List.filter (fun c => negb (is_empty c)) (split_sep p).

Fixpoint has_nul (s : string) : bool :=
  match s with
  | EmptyString => false
  | String c r => Ascii.eqb c "000"%char || has_nul r
  end.

Definition is_dot (c : string) : bool := String.eqb c ".".
Definition is_dotdot (c : string) : bool := String.eqb c "..".

(** Entering a name from a directory. *)
Definition enter (l : loc) (c : string) : loc :=
  if is_dot c then l
  else if is_dotdot c then removelast l
  else l ++ [c].

(** A name can only be looked up in an existing directory. *)
Definition check_dir (fs : gmap loc node) (l : loc) : result unit :=
  match node_at fs l with
  | None => Raise FileNotFoundError
  | Some (File _) => Raise NotADirectoryError
  | Some Dir => Ok tt
  end.

Fixpoint walk (fs : gmap loc node) (l : loc) (cs : list string) : result loc :=
  match cs with
  | [] => Ok l
  | c :: cs' =>
      match check_dir fs l with
      | Raise e => Raise e
      | Ok _ => walk fs (enter l c) cs'
      end
  end.

(** The outcome of resolving all names of a path but the last: the
    directory reached, the last name (none when the path is the root),
    and whether the path ends in a separator. *)
Record nameidata : Type := Nameidata {
  nd_parent : loc;
  nd_last : option string;
  nd_slash : bool
}.

Definition namei (fs : gmap loc node) (cwd : loc) (p : string) : result nameidata :=
  if has_nul p then Raise ValueError
  else if is_empty p then Raise FileNotFoundError
  else
    let start := if posixpath.isabs p then [] else cwd in
    let cs := components p in
    match last cs with
    | None => Ok (Nameidata start None (endswith sep p))
    | Some c =>
        match walk fs start (removelast cs) with
        | Raise e => Raise e
        | Ok parent =>
            match check_dir fs parent with
            | Raise e => Raise e
            | Ok _ => Ok (Nameidata parent (Some c) (endswith sep p))
            end
        end
    end.

(** [stat(2)] *)
Definition stat (fs : gmap loc node) (cwd : loc) (p : string) : result node :=
  match namei fs cwd p with
  | Raise e => Raise e
  | Ok nd =>
      match nd_last nd with
      | None => Ok Dir
      | Some c =>
          match node_at fs (enter (nd_parent nd) c) with
          | None => Raise FileNotFoundError
          | Some (File s) =>
              if nd_slash nd then Raise NotADirectoryError else Ok (File s)
          | Some Dir => Ok Dir
          end
      end
  end.

(** [mkdir(2)]: the last name must be a new, ordinary name. *)
Definition mkdir (fs : gmap loc node) (cwd : loc) (p : string)
  : result (gmap loc node) :=
  match namei fs cwd p with
  | Raise e => Raise e
  | Ok nd =>
      match nd_last nd with
      | None => Raise FileExistsError
      | Some c =>
          if is_dot c || is_dotdot c then Raise FileExistsError
          else
            let l := nd_parent nd ++ [c] in
            match node_at fs l with
            | Some _ => Raise FileExistsError
            | None => Ok (<[l := Dir]> fs)
            end
      end
  end.

(** [open(2)] with [O_WRONLY|O_CREAT|O_TRUNC], that is [creat(2)], as
    [open(path, "w")] issues it: the file is created or emptied; the
    location opened is returned. *)
Definition creat (fs : gmap loc node) (cwd : loc) (p : string)
  : result (loc * gmap loc node) :=
  match namei fs cwd p with
  | Raise e => Raise e
  | Ok nd =>
      match nd_last nd with
      | None => Raise IsADirectoryError
      | Some c =>
          if nd_slash nd || is_dot c || is_dotdot c then Raise IsADirectoryError
          else
            let l := nd_parent nd ++ [c] in
            match node_at fs l with
            | Some Dir => Raise IsADirectoryError
            | _ => Ok (l, <[l := File EmptyString]> fs)
            end
      end
  end.

(** Appending to an open file. *)
Definition append (fs : gmap loc node) (l : loc) (s : string) : gmap loc node :=
  match fs !! l with
  | Some (File c) => <[l := File (c +:+ s)]> fs
  | _ => fs
  end.

(** The text of a path, for the working directory. *)
Definition path_of_loc (l : loc) : string :=
  match l with
  | [] => "/"
  | _ => fold_right (fun c acc => String sep c +:+ acc) EmptyString l
  end.

End vfs.

(** ** The world and the monad of effects *)

Record world : Type := World {
  w_fs : gmap loc node;
  w_cwd : loc;
  w_stdout : string
}.

Definition M (A : Type) : Type := world -> result A * world.

Definition ret {A} (a : A) : M A := fun w => (Ok a, w).
Definition raise {A} (e : exn) : M A := fun w => (Raise e, w).
Definition bind {A B} (m : M A) (k : A -> M B) : M B :=
  fun w =>
    match m w with
    | (Ok a, w') => k a w'
    | (Raise e, w') => (Raise e, w')
    end.

(** [try: m except FileExistsError: pass] *)
Definition except_FileExistsError_pass (m : M unit) : M unit :=
  fun w =>
    match m w with
    | (Raise FileExistsError, w') => (Ok tt, w')
    | r => r
    end.

Declare Scope py_scope.
Delimit Scope py_scope with py.
Notation "'let*' x ':=' m 'in' k" := (bind m (fun x => k))
  (at level 10, x name, m at level 100, k at level 200) : py_scope.
Notation "m ';;' k" := (bind m (fun _ => k))
  (at level 100, k at level 200, right associativity) : py_scope.
Local Open Scope py_scope.

(** Lifting the file-system calls. *)
Definition set_fs (fs : gmap loc node) (w : world) : world :=
  World fs (w_cwd w) (w_stdout w).

Definition os_getcwd : M string :=
  fun w => (Ok (vfs.path_of_loc (w_cwd w)), w).

Definition os_stat (p : string) : M node :=
  fun w => (vfs.stat (w_fs w) (w_cwd w) p, w).

(** [genericpath.exists]: [os.stat] in a [try], any error is [False]. *)
Definition os_path_exists (p : string) : M bool :=
  fun w =>
    match os_stat p w with
    | (Ok _, w') => (Ok true, w')
    | (Raise _, w') => (Ok false, w')
    end.

(** [genericpath.isfile]: as above, then [S_ISREG]. *)
Definition os_path_isfile (p : string) : M bool :=
  fun w =>
    match os_stat p w with
    | (Ok (File _), w') => (Ok true, w')
    | (Ok Dir, w') => (Ok false, w')
    | (Raise _, w') => (Ok false, w')
    end.

Definition os_mkdir (p : string) : M unit :=
  fun w =>
    match vfs.mkdir (w_fs w) (w_cwd w) p with
    | Ok fs' => (Ok tt, set_fs fs' w)
    | Raise e => (Raise e, w)
    end.

(** [os.makedirs(name)] with [exist_ok=False]; [n] bounds the recursion. *)
Fixpoint makedirs_fuel (n : nat) (name : string) : M unit :=
  match n with
  | O => raise OutOfFuel
  | S n' =>
      let '(head, tail) := posixpath.split name in
      let '(head, tail) :=
        if is_empty tail then posixpath.split head else (head, tail) in
      let* proceed :=
        (if negb (is_empty head) && negb (is_empty tail) then
           let* ex := os_path_exists head in
           if negb ex then
             except_FileExistsError_pass (makedirs_fuel n' head) ;;
             ret (negb (String.eqb tail "."))
           else ret true
         else ret true) in
      if proceed : bool then os_mkdir name else ret tt
  end.

Definition os_makedirs (name : string) : M unit :=
  makedirs_fuel (S (String.length name)) name.

(** [open(path, "w")]: the file object is the location opened. *)
Definition open_w (p : string) : M loc :=
  fun w =>
    match vfs.creat (w_fs w) (w_cwd w) p with
    | Ok (l, fs') => (Ok l, set_fs fs' w)
    | Raise e => (Raise e, w)
    end.

Definition f_write (f : loc) (s : string) : M unit :=
  fun w => (Ok tt, set_fs (vfs.append (w_fs w) f s) w).

(** [json.dump(obj, f, indent=2)] *)
Definition json_dump (obj : json) (f : loc) : M unit :=
  f_write f (json_encoder.dumps obj).

(** [print(s)] *)
Definition print (s : string) : M unit :=
  fun w => (Ok tt, World (w_fs w) (w_cwd w) (w_stdout w +:+ s +:+ nl)).

(** ** The program: main.py *)

Definition package_data (project_path : string) : json :=
  JDict [
    ("name", JStr (posixpath.basename project_path));
    ("version", JStr "1.0.0");
    ("main", JStr "index.js");
    ("scripts", JDict [
      ("build", JStr "tsc");
      ("start", JStr "node build/index.js");
      ("build:start", JStr "npm run build && npm run start")
    ]);
    ("devDependencies", JDict [
      ("typescript", JStr "latest")
    ]);
    ("_moduleAliases", JDict [
      ("@", JStr "build")
    ])
  ].

Definition generate_package_json (project_path : string) : M unit :=
  let package_json_path := posixpath.join project_path "package.json" in
  let* f := open_w package_json_path in
  json_dump (package_data project_path) f.

Definition tsconfig_data : json :=
  JDict [
    ("compilerOptions", JDict [
      ("target", JStr "ES2020");
      ("module", JStr "commonjs");
      ("outDir", JStr "./build");
      ("rootDir", JStr "./src");
      ("strict", JBool true);
      ("esModuleInterop", JBool true);
      ("skipLibCheck", JBool true);
      ("forceConsistentCasingInFileNames", JBool true);
      ("baseUrl", JStr ".");
      ("paths", JDict [
        ("@/*", JList [JStr "src/*"]);
        ("!/*", JList [JStr "./*"])
      ])
    ]);
    ("include", JList [JStr "src/**/*.ts"]);
    ("exclude", JList [JStr "node_modules"])
  ].

Definition generate_tsconfig_json (project_path : string) : M unit :=
  let tsconfig_json_path := posixpath.join project_path "tsconfig.json" in
  let* f := open_w tsconfig_json_path in
  json_dump tsconfig_data f.

Definition ensure_src_index_ts (project_path : string) : M unit :=
  let src_path := posixpath.join project_path "src" in
  let index_path := posixpath.join src_path "index.ts" in
  let* ex := os_path_exists src_path in
  (if negb ex then os_makedirs src_path else ret tt) ;;
  let* isf := os_path_isfile index_path in
  (if negb isf then
     let* f := open_w index_path in
     f_write f ("import { hello } from " +:+ dq +:+ "./module" +:+ dq +:+ ";" +:+ nl +:+ nl) ;;
     f_write f ("hello();" +:+ nl)
   else ret tt) ;;
  let module_path := posixpath.join src_path "module.ts" in
  let* isf := os_path_isfile module_path in
  if negb isf then
    let* f := open_w module_path in
    f_write f ("export function hello() {" +:+ nl) ;;
    f_write f ("  console.log(" +:+ dq +:+ "Hello from a separate module!" +:+ dq +:+ ");" +:+ nl) ;;
    f_write f ("}" +:+ nl)
  else ret tt.

(** The first part of [main]: the project path from [sys.argv]. *)
Definition resolve_project_path (argv : list string) : M string :=
  if (1 <? length argv)%nat then
    let project_name := nth 1 argv EmptyString in
    if posixpath.isabs project_name then ret project_name
    else
      let* cwd := os_getcwd in
      ret (posixpath.join cwd project_name)
  else os_getcwd.

Definition main (argv : list string) : M unit :=
  let* project_path := resolve_project_path argv in
  let* ex := os_path_exists project_path in
  (if negb ex then os_makedirs project_path else ret tt) ;;
  print ("Initializing TypeScript project in: " +:+ project_path) ;;
  generate_package_json project_path ;;
  generate_tsconfig_json project_path ;;
  ensure_src_index_ts project_path ;;
  print "Success! The following files have been created/updated:" ;;
  print ("  - " +:+ posixpath.join project_path "package.json") ;;
  print ("  - " +:+ posixpath.join project_path "tsconfig.json") ;;
  print ("  - " +:+ posixpath.join project_path "src/index.ts") ;;
  print (nl +:+ "Next steps:") ;;
  print "  1. cd into your project directory." ;;
  print "  2. Run `npm install` to install local dev dependencies (TypeScript)." ;;
  print "  3. Run `npm run build` to compile TypeScript => JavaScript in build/." ;;
  print "  4. Run `npm run start` to execute the compiled JS from build/." ;;
  print (nl +:+ "Now your ESM imports in the compiled code will have '.js' appended automatically!").

(** ** The stages of [main]

    [main] is a straight line of six stages; they are named here so that
    the properties can speak of them ([main_stages] shows the two
    readings agree). *)

Definition ensure_project_dir (project_path : string) : M unit :=
  let* ex := os_path_exists project_path in
  if negb ex then os_makedirs project_path else ret tt.

Definition announce (project_path : string) : M unit :=
  print ("Initializing TypeScript project in: " +:+ project_path).

Definition report (project_path : string) : M unit :=
  print "Success! The following files have been created/updated:" ;;
  print ("  - " +:+ posixpath.join project_path "package.json") ;;
  print ("  - " +:+ posixpath.join project_path "tsconfig.json") ;;
  print ("  - " +:+ posixpath.join project_path "src/index.ts") ;;
  print (nl +:+ "Next steps:") ;;
  print "  1. cd into your project directory." ;;
  print "  2. Run `npm install` to install local dev dependencies (TypeScript)." ;;
  print "  3. Run `npm run build` to compile TypeScript => JavaScript in build/." ;;
  print "  4. Run `npm run start` to execute the compiled JS from build/." ;;
  print (nl +:+ "Now your ESM imports in the compiled code will have '.js' appended automatically!").

Definition main_stages (project_path : string) : list (M unit) :=
  [ ensure_project_dir project_path;
    announce project_path;
    generate_package_json project_path;
    generate_tsconfig_json project_path;
    ensure_src_index_ts project_path;
    report project_path ].

Fixpoint run_stages (l : list (M unit)) : M unit :=
  match l with
  | [] => ret tt
  | m :: l' => m ;; run_stages l'
  end.

(** ** Observations used to state the properties *)

(** What the program's own presence test sees at a path. *)
Definition exists_at (w : world) (p : string) : bool :=
  match vfs.stat (w_fs w) (w_cwd w) p with
  | Ok _ => true
  | Raise _ => false
  end.

Definition isfile_at (w : world) (p : string) : bool :=
  match vfs.stat (w_fs w) (w_cwd w) p with
  | Ok (File _) => true
  | _ => false
  end.

Definition isdir_at (w : world) (p : string) : bool :=
  match vfs.stat (w_fs w) (w_cwd w) p with
  | Ok Dir => true
  | _ => false
  end.

(** The content of the regular file at a path, if there is one. *)
Definition read_file (w : world) (p : string) : option string :=
  match vfs.stat (w_fs w) (w_cwd w) p with
  | Ok (File s) => Some s
  | _ => None
  end.

(** The path [main] works on: a function of the arguments and of the
    working directory alone. *)
Definition project_path_of (argv : list string) (w : world) : string :=
  match resolve_project_path argv w with
  | (Ok p, _) => p
  | (Raise _, _) => EmptyString
  end.

Definition package_json_path (p : string) : string := posixpath.join p "package.json".
Definition tsconfig_json_path (p : string) : string := posixpath.join p "tsconfig.json".
Definition src_path (p : string) : string := posixpath.join p "src".
Definition index_path (p : string) : string := posixpath.join (src_path p) "index.ts".
Definition module_path (p : string) : string := posixpath.join (src_path p) "module.ts".

(** The two starter sources, as the writes of [ensure_src_index_ts]
    leave them. *)
Definition index_ts_body : string :=
  ("import { hello } from " +:+ dq +:+ "./module" +:+ dq +:+ ";" +:+ nl +:+ nl)
  +:+ ("hello();" +:+ nl).

Definition module_ts_body : string :=
  ("export function hello() {" +:+ nl)
  +:+ ("  console.log(" +:+ dq +:+ "Hello from a separate module!" +:+ dq +:+ ");" +:+ nl)
  +:+ ("}" +:+ nl).

(** The directory a path names, when it names one: every name is
    entered from an existing directory and the result is a directory. *)
Definition lookup_dir (fs : gmap loc node) (cwd : loc) (p : string) : result loc :=
  if vfs.has_nul p then Raise ValueError
  else
    match vfs.walk fs (if posixpath.isabs p then [] else cwd) (vfs.components p) with
    | Raise e => Raise e
    | Ok d =>
        match vfs.check_dir fs d with
        | Raise e => Raise e
        | Ok _ => Ok d
        end
    end.

(** An ordinary file name: not empty, not [.] or [..], free of
    separators and of NUL. *)
Fixpoint has_char (c : ascii) (s : string) : bool :=
  match s with
  | EmptyString => false
  | String a r => Ascii.eqb a c || has_char c r
  end.

Definition simple_name (n : string) : bool :=
  negb (is_empty n) && negb (has_char sep n) && negb (vfs.has_nul n)
  && negb (vfs.is_dot n) && negb (vfs.is_dotdot n).

(** Writing a whole file [n] in the directory [X]: what opening
    [join(X, n)] for writing and writing [s] to it amount to. *)
Definition put_file (X n s : string) : M unit :=
  fun w =>
    match lookup_dir (w_fs w) (w_cwd w) X with
    | Raise e => (Raise e, w)
    | Ok d =>
        match w_fs w !! (d ++ [n]) with
        | Some Dir => (Raise IsADirectoryError, w)
        | _ => (Ok tt, set_fs (<[d ++ [n] := File s]> (w_fs w)) w)
        end
    end.

(** How a file system may change during a run: a node is kept, or a
    directory appears where nothing was, or a regular file is written
    where no directory was; [W] tells where files may be written. *)
Definition evolves_on (W : loc -> Prop) (fs fs' : gmap loc node) : Prop :=
  forall l : loc,
    fs' !! l = fs !! l
    \/ (fs !! l = None /\ fs' !! l = Some Dir)
    \/ (W l /\ fs !! l <> Some Dir /\ exists s, fs' !! l = Some (File s)).

(** Only directories appear. *)
Definition grows (fs fs' : gmap loc node) : Prop :=
  evolves_on (fun _ => False) fs fs'.

(** The locations whose last name is one of [names]. *)
Definition named (names : list string) (l : loc) : Prop :=
  exists c, last l = Some c /\ In c names.

(** A step of a run: the working directory stays, the file system
    evolves (the output may grow). *)
Definition world_evolves (W : loc -> Prop) (w w' : world) : Prop :=
  w_cwd w' = w_cwd w /\ evolves_on W (w_fs w) (w_fs w').

(** A computation all of whose runs are such steps; a silent one
    prints nothing either. *)
Definition steps {A} (W : loc -> Prop) (m : M A) : Prop :=
  forall w r w', m w = (r, w') -> world_evolves W w w'.

Definition silent {A} (W : loc -> Prop) (m : M A) : Prop :=
  forall w r w', m w = (r, w') ->
    world_evolves W w w' /\ w_stdout w' = w_stdout w.

(** A property of the world that every run of [m] keeps, whether it
    ends well or not. *)
Definition preserves {A} (I : world -> Prop) (m : M A) : Prop :=
  forall w r w', I w -> m w = (r, w') -> I w'.

(** The content of the regular file at a location, [dflt] when there is
    none. *)
Definition content_or (fs : gmap loc node) (l : loc) (dflt : string) : string :=
  match fs !! l with
  | Some (File c) => c
  | _ => dflt
  end.

(** Writing [body] to the file [n] of [X] unless a regular file is
    there; then the three stages of [ensure_src_index_ts]. *)
Definition ensure_file (X n body : string) : M unit :=
  let* isf := os_path_isfile (posixpath.join X n) in
  if negb isf then put_file X n body else ret tt.

Definition ensure_src_dir (project_path : string) : M unit :=
  let* ex := os_path_exists (src_path project_path) in
  if negb ex then os_makedirs (src_path project_path) else ret tt.

Definition ensure_index_ts (project_path : string) : M unit :=
  ensure_file (src_path project_path) "index.ts" index_ts_body.

Definition ensure_module_ts (project_path : string) : M unit :=
  ensure_file (src_path project_path) "module.ts" module_ts_body.

(** The project a successful run leaves in the directory [dP]: the two
    configuration files with their fixed text, the source directory, and
    the two sources, each with the content it had before the run when it
    was a regular file then, and with its starter text otherwise. *)
Definition scaffolded (P : string) (w w' : world) (dP : loc) : Prop :=
  w_cwd w' = w_cwd w
  /\ lookup_dir (w_fs w') (w_cwd w') P = Ok dP
  /\ w_fs w' !! (dP ++ ["package.json"])
     = Some (File (json_encoder.dumps (package_data P)))
  /\ w_fs w' !! (dP ++ ["tsconfig.json"])
     = Some (File (json_encoder.dumps tsconfig_data))
  /\ w_fs w' !! (dP ++ ["src"]) = Some Dir
  /\ w_fs w' !! ((dP ++ ["src"]) ++ ["index.ts"])
     = Some (File (content_or (w_fs w) ((dP ++ ["src"]) ++ ["index.ts"]) index_ts_body))
  /\ w_fs w' !! ((dP ++ ["src"]) ++ ["module.ts"])
     = Some (File (content_or (w_fs w) ((dP ++ ["src"]) ++ ["module.ts"]) module_ts_body))
  /\ evolves_on (named ["package.json"; "tsconfig.json"; "index.ts"; "module.ts"])
       (w_fs w) (w_fs w').

(** A path none of whose names is [.] or [..]. *)
Definition dot_free (p : string) : bool :=
  forallb (fun c => negb (vfs.is_dot c || vfs.is_dotdot c)) (vfs.components p).

(** A run of [m] from [w] that ends well and leaves every file and
    directory as it was. *)
Definition settled (m : M unit) (w : world) : Prop :=
  exists w', m w = (Ok tt, w') /\ w_fs w' = w_fs w /\ w_cwd w' = w_cwd w.

(** The project as a run leaves it, whatever the sources hold. *)
Definition project_in (P : string) (w : world) (dP : loc) : Prop :=
  lookup_dir (w_fs w) (w_cwd w) P = Ok dP
  /\ w_fs w !! (dP ++ ["package.json"])
     = Some (File (json_encoder.dumps (package_data P)))
  /\ w_fs w !! (dP ++ ["tsconfig.json"])
     = Some (File (json_encoder.dumps tsconfig_data))
  /\ w_fs w !! (dP ++ ["src"]) = Some Dir
  /\ (exists ci, w_fs w !! ((dP ++ ["src"]) ++ ["index.ts"]) = Some (File ci))
  /\ (exists cm, w_fs w !! ((dP ++ ["src"]) ++ ["module.ts"]) = Some (File cm)).

(** An empty working directory: its names are ordinary, it exists in a
    well-formed file system, and nothing lies in it. *)
Definition in_empty_directory (w : world) : Prop :=
  forallb simple_name (w_cwd w) = true
  /\ (forall (l : loc) (c : string) (n : node),
        w_fs w !! (l ++ [c]) = Some n -> vfs.node_at (w_fs w) l = Some Dir)
  /\ vfs.node_at (w_fs w) (w_cwd w) = Some Dir
  /\ forall c : string, w_fs w !! (w_cwd w ++ [c]) = None.

(** The file system a first run leaves in an empty directory [cwd]. *)
Definition new_project_fs (fs : gmap loc node) (cwd : loc) (P : string) : gmap loc node :=
  <[((cwd ++ ["myapp"]) ++ ["src"]) ++ ["module.ts"] := File module_ts_body]>
  (<[((cwd ++ ["myapp"]) ++ ["src"]) ++ ["index.ts"] := File index_ts_body]>
  (<[(cwd ++ ["myapp"]) ++ ["src"] := Dir]>
  (<[(cwd ++ ["myapp"]) ++ ["tsconfig.json"] := File (json_encoder.dumps tsconfig_data)]>
  (<[(cwd ++ ["myapp"]) ++ ["package.json"] := File (json_encoder.dumps (package_data P))]>
  (<[cwd ++ ["myapp"] := Dir]> fs))))).

(** A computation that never runs out of the recursion bound. *)
Definition fuelled {A} (m : M A) : Prop :=
  forall w, fst (m w) <> Raise OutOfFuel.

(** Every node lies in a directory. *)
Definition well_formed (fs : gmap loc node) : Prop :=
  forall (l : loc) (c : string) (n : node),
    fs !! (l ++ [c]) = Some n -> vfs.node_at fs l = Some Dir.

(** ** The final path segment, as the specification words it *)

(** The last name of a path, whether or not separators follow it; empty
    when the path has no name at all. *)
Definition final_segment (p : string) : string :=
  match last (vfs.components p) with
  | Some c => c
  | None => EmptyString
  end.

(** A directory [/t] holding a directory [x] and a regular file [f],
    to compare the calls of the model with what a POSIX system does. *)
Definition probe_fs : gmap loc node :=
  <[ ["t"; "f"] := File "data" ]> (<[ ["t"; "x"] := Dir ]> (<[ ["t"] := Dir ]> ∅)).

Definition probe_world : world := World probe_fs [] EmptyString.

(** ** The two documents, as the specification lists them

    The field sets of section 6 of the specification.  The
    specification names neither the key of the module-alias table of
    the manifest nor the keys under which the compiler options and the
    path-alias table stand; they are the program's ([_moduleAliases],
    [compilerOptions], [paths]). *)

Definition manifest_of_spec (name : string) : json :=
  JDict [
    ("name", JStr name);
    ("version", JStr "1.0.0");
    ("main", JStr "index.js");
    ("scripts", JDict [
      ("build", JStr "tsc");
      ("start", JStr "node build/index.js");
      ("build:start", JStr "npm run build && npm run start")
    ]);
    ("devDependencies", JDict [("typescript", JStr "latest")]);
    ("_moduleAliases", JDict [("@", JStr "build")])
  ].

Definition compiler_configuration_of_spec : json :=
  JDict [
    ("compilerOptions", JDict [
      ("target", JStr "ES2020");
      ("module", JStr "commonjs");
      ("outDir", JStr "./build");
      ("rootDir", JStr "./src");
      ("strict", JBool true);
      ("esModuleInterop", JBool true);
      ("skipLibCheck", JBool true);
      ("forceConsistentCasingInFileNames", JBool true);
      ("baseUrl", JStr ".");
      ("paths", JDict [
        ("@/*", JList [JStr "src/*"]);
        ("!/*", JList [JStr "./*"])
      ])
    ]);
    ("include", JList [JStr "src/**/*.ts"]);
    ("exclude", JList [JStr "node_modules"])
  ].

(** The entry source and the sibling module, as the specification
    prints them. *)
Definition entry_source_of_spec : string :=
  "import { hello } from " +:+ dq +:+ "./module" +:+ dq +:+ ";" +:+ nl
  +:+ nl
  +:+ "hello();" +:+ nl.

Definition sibling_module_of_spec : string :=
  "export function hello() {" +:+ nl
  +:+ "  console.log(" +:+ dq +:+ "Hello from a separate module!" +:+ dq +:+ ");" +:+ nl
  +:+ "}" +:+ nl.

(** ** Sample worlds

    A home directory [/home/u], empty, as the working directory; the
    worlds below are built from it. *)

Definition home_fs : gmap loc node :=
  <[ ["home"; "u"] := Dir ]> (<[ ["home"] := Dir ]> ∅).

Definition home_world : world := World home_fs ["home"; "u"] EmptyString.

(** The same with a project [myapp] whose sources were edited by hand
    and whose [package.json] holds something else. *)
Definition edited_fs : gmap loc node :=
  <[ ["home"; "u"; "myapp"; "src"; "index.ts"] := File "console.log(1);" ]>
  (<[ ["home"; "u"; "myapp"; "src"] := Dir ]>
  (<[ ["home"; "u"; "myapp"; "package.json"] := File "{}" ]>
  (<[ ["home"; "u"; "myapp"] := Dir ]>
   home_fs))).

Definition edited_world : world := World edited_fs ["home"; "u"] EmptyString.

(** A project whose [tsconfig.json] is a directory, and one whose [src]
    is a regular file. *)
Definition blocked_fs : gmap loc node :=
  <[ ["home"; "u"; "myapp"; "tsconfig.json"] := Dir ]>
  (<[ ["home"; "u"; "myapp"] := Dir ]> home_fs).

Definition blocked_world : world := World blocked_fs ["home"; "u"] EmptyString.

Definition src_file_fs : gmap loc node :=
  <[ ["home"; "u"; "myapp"; "src"] := File "notes" ]>
  (<[ ["home"; "u"; "myapp"] := Dir ]> home_fs).

Definition src_file_world : world := World src_file_fs ["home"; "u"] EmptyString.

(** ** Reading a JSON text back

    What "parses as JSON" means in the properties below: a reader for
    the JSON grammar (RFC 8259) restricted to the values of [json]:
    strings, booleans, arrays and objects.  It is no part of the
    program. *)

Module json_decoder.

Definition is_ws (c : ascii) : bool :=
  let n := N_of_ascii c in
  (n =? 32)%N || (n =? 10)%N || (n =? 13)%N || (n =? 9)%N.

Fixpoint skip_ws (s : string) : string :=
  match s with
  | String c r => if is_ws c then skip_ws r else s
  | EmptyString => s
  end.

Definition hex_value (c : ascii) : option N :=
  let n := N_of_ascii c in
  if (48 <=? n)%N && (n <=? 57)%N then Some (n - 48)%N
  else if (97 <=? n)%N && (n <=? 102)%N then Some (n - 87)%N
  else if (65 <=? n)%N && (n <=? 70)%N then Some (n - 55)%N
  else None.

(** The character a [\uXXXX] escape denotes, when it is below 256. *)
Definition unescape_u (a b c d : ascii) : option ascii :=
  match hex_value a, hex_value b, hex_value c, hex_value d with
  | Some x, Some y, Some z, Some t =>
      let n := (x * 4096 + y * 256 + z * 16 + t)%N in
      if (n <? 256)%N then Some (ascii_of_N n) else None
  | _, _, _, _ => None
  end.

Definition unescape_simple (c : ascii) : option ascii :=
  let n := N_of_ascii c in
  if (n =? 34)%N then Some "034"%char
  else if (n =? 92)%N then Some "\"%char
  else if (n =? 47)%N then Some "/"%char
  else if (n =? 98)%N then Some "008"%char
  else if (n =? 102)%N then Some "012"%char
  else if (n =? 110)%N then Some "010"%char
  else if (n =? 114)%N then Some "013"%char
  else if (n =? 116)%N then Some "009"%char
  else None.

(** The characters of a string after its opening quote, up to the
    closing one, and the text that follows. *)
Fixpoint string_body (s : string) : option (string * string) :=
  match s with
  | EmptyString => None
  | String c r =>
      if (N_of_ascii c =? 34)%N then Some (EmptyString, r)
      else if (N_of_ascii c =? 92)%N then
        match r with
        | String e r1 =>
            if (N_of_ascii e =? 117)%N then
              match r1 with
              | String a (String b (String c' (String d r2))) =>
                  match unescape_u a b c' d, string_body r2 with
                  | Some x, Some (body, rest) => Some (String x body, rest)
                  | _, _ => None
                  end
              | _ => None
              end
            else
              match unescape_simple e, string_body r1 with
              | Some x, Some (body, rest) => Some (String x body, rest)
              | _, _ => None
              end
        | EmptyString => None
        end
      else if (N_of_ascii c <? 32)%N then None
      else
        match string_body r with
        | Some (body, rest) => Some (String c body, rest)
        | None => None
        end
  end.

Definition expect (c : ascii) (s : string) : option string :=
  match s with
  | String a r => if Ascii.eqb a c then Some r else None
  | EmptyString => None
  end.

Fixpoint literal (lit s : string) : option string :=
  match lit with
  | EmptyString => Some s
  | String a lit' =>
      match s with
      | String b s' => if Ascii.eqb a b then literal lit' s' else None
      | EmptyString => None
      end
  end.

(** A value, then the elements of an array after its first one, then
    the members of an object after its first one; [fuel] bounds the
    depth of the calls. *)
Fixpoint value (fuel : nat) (s : string) : option (json * string) :=
  match fuel with
  | O => None
  | S fuel' =>
      match skip_ws s with
      | String c r =>
          let n := N_of_ascii c in
          if (n =? 34)%N then
            match string_body r with
            | Some (x, rest) => Some (JStr x, rest)
            | None => None
            end
          else if (n =? 116)%N then
            match literal "rue" r with
            | Some rest => Some (JBool true, rest)
            | None => None
            end
          else if (n =? 102)%N then
            match literal "alse" r with
            | Some rest => Some (JBool false, rest)
            | None => None
            end
          else if (n =? 91)%N then
            match expect "]" (skip_ws r) with
            | Some rest => Some (JList [], rest)
            | None =>
                match elements fuel' r with
                | Some (l, rest) => Some (JList l, rest)
                | None => None
                end
            end
          else if (n =? 123)%N then
            match expect "}" (skip_ws r) with
            | Some rest => Some (JDict [], rest)
            | None =>
                match members fuel' r with
                | Some (d, rest) => Some (JDict d, rest)
                | None => None
                end
            end
          else None
      | EmptyString => None
      end
  end
with elements (fuel : nat) (s : string) : option (list json * string) :=
  match fuel with
  | O => None
  | S fuel' =>
      match value fuel' s with
      | Some (v, rest) =>
          match skip_ws rest with
          | String c r =>
              if Ascii.eqb c "]" then Some ([v], r)
              else if Ascii.eqb c "," then
                match elements fuel' r with
                | Some (l, rest') => Some (v :: l, rest')
                | None => None
                end
              else None
          | EmptyString => None
          end
      | None => None
      end
  end
with members (fuel : nat) (s : string) : option (list (string * json) * string) :=
  match fuel with
  | O => None
  | S fuel' =>
      match expect "034" (skip_ws s) with
      | Some r =>
          match string_body r with
          | Some (k, rest) =>
              match expect ":" (skip_ws rest) with
              | Some rest1 =>
                  match value fuel' rest1 with
                  | Some (v, rest2) =>
                      match skip_ws rest2 with
                      | String c r2 =>
                          if Ascii.eqb c "}" then Some ([(k, v)], r2)
                          else if Ascii.eqb c "," then
                            match members fuel' r2 with
                            | Some (d, rest') => Some ((k, v) :: d, rest')
                            | None => None
                            end
                          else None
                      | EmptyString => None
                      end
                  | None => None
                  end
              | None => None
              end
          | None => None
          end
      | None => None
      end
  end.

(** [loads]: one value, then nothing but white space. *)
Definition loads (s : string) : option json :=
  match value (S (String.length s)) s with
  | Some (v, rest) => if is_empty (skip_ws rest) then Some v else None
  | None => None
  end.

End json_decoder.

(** A bound on the depth of the calls reading the text of a value
    takes. *)
Fixpoint weight (o : json) : nat :=
  match o with
  | JStr _ => 1
  | JBool _ => 1
  | JList l => S (list_sum (map (fun x => S (weight x)) l))
  | JDict d => S (list_sum (map (fun kv => S (weight (snd kv))) d))
  end.

(** The text of the elements of an array after the first and of the
    members of an object after the first, as [iterencode] lays them
    out. *)
Section Items.

Variable enc : json -> string.
Variable separator : string.

Fixpoint list_items (l : list json) : string :=
  match l with
  | [] => EmptyString
  | x :: l' => separator +:+ enc x +:+ list_items l'
  end.

Fixpoint dict_items (l : list (string * json)) : string :=
  match l with
  | [] => EmptyString
  | (k, x) :: l' =>
      separator +:+ json_encoder.encode_basestring_ascii k +:+ ": "
      +:+ enc x +:+ dict_items l'
  end.

End Items.

(** The text of a value starts with a character that is neither white
    space nor a closing bracket. *)
Definition opens_value (s : string) : Prop :=
  exists c r, s = String c r /\ json_decoder.is_ws c = false
    /\ Ascii.eqb c "]" = false /\ Ascii.eqb c "}" = false.

(** What reading a value back must give, as the induction carries it. *)
Definition reads_back (o : json) : Prop :=
  forall level rest fuel, (weight o < fuel)%nat ->
    json_decoder.value fuel (json_encoder.iterencode o level +:+ rest) = Some (o, rest).

(** [d[k]] on a parsed object. *)
Fixpoint assoc (k : string) (d : list (string * json)) : option json :=
  match d with
  | [] => None
  | (k', v) :: d' => if String.eqb k' k then Some v else assoc k d'
  end.

Definition json_get (k : string) (o : json) : option json :=
  match o with
  | JDict d => assoc k d
  | _ => None
  end.

(** ** Further observations and sample worlds *)



(** A project whose [package.json] is a directory, and one whose
    [src/index.ts] is. *)
Definition manifest_dir_fs : gmap loc node :=
  <[ ["home"; "u"; "myapp"; "package.json"] := Dir ]>
  (<[ ["home"; "u"; "myapp"] := Dir ]> home_fs).

Definition manifest_dir_world : world := World manifest_dir_fs ["home"; "u"] EmptyString.

Definition index_dir_fs : gmap loc node :=
  <[ ["home"; "u"; "myapp"; "src"; "index.ts"] := Dir ]>
  (<[ ["home"; "u"; "myapp"; "src"] := Dir ]>
  (<[ ["home"; "u"; "myapp"] := Dir ]> home_fs)).

Definition index_dir_world : world := World index_dir_fs ["home"; "u"] EmptyString.




(** A line feed or a printable ASCII character; a text made of such. *)
Definition printable (c : ascii) : bool :=
  let n := N_of_ascii c in
  (n =? 10)%N || ((32 <=? n)%N && (n <=? 126)%N).

Fixpoint all_printable (s : string) : bool :=
  match s with
  | EmptyString => true
  | String c r => printable c && all_printable r
  end.

(** The same world seen from another working directory. *)
Definition set_cwd (c : loc) (w : world) : world :=
  World (w_fs w) c (w_stdout w).

(** A computation in which the working directory plays no part. *)
Definition cwd_free {A} (m : M A) : Prop :=
  forall (w : world) (c : loc),
    m (set_cwd c w) = (fst (m w), set_cwd c (snd (m w))).

(** ** Proof automation *)

(** A location whose last name is [n] is none of those named by a list
    that lacks [n]. *)
Ltac not_named :=
  let c := fresh "c" in
  let Hl := fresh "Hl" in
  let Hc := fresh "Hc" in
  unfold named; intros (c & Hl & Hc);
  rewrite last_snoc in Hl; injection Hl as <-;
  simpl in Hc; intuition discriminate.

(** The locations named by a list are named by a longer one. *)
Ltac named_sub :=
  let c := fresh "c" in
  let Hl := fresh "Hl" in
  let Hc := fresh "Hc" in
  unfold named; intros ? (c & Hl & Hc); exists c;
  split; [exact Hl | simpl in *; intuition].

(** Two locations differ by their last names or by their lengths. *)
Ltac loc_neq :=
  let E := fresh "E" in
  intros E;
  first
    [ apply app_inj_tail in E as [_ E]; discriminate
    | repeat match goal with x := _ : list string |- _ => progress unfold x in E end;
      apply (f_equal (@length string)) in E;
      repeat rewrite length_app in E; simpl in E; lia ].

(** * Properties *)

(** ** Strings *)

Section StringFacts.

Lemma append_empty_r (s : string) : s +:+ EmptyString = s.
Proof. induction s as [|a s IH]; simpl; [reflexivity | now rewrite IH]. Qed.

Lemma append_assoc (a b c : string) : (a +:+ b) +:+ c = a +:+ (b +:+ c).
Proof. induction a as [|x a IH]; simpl; [reflexivity | now rewrite IH]. Qed.

Lemma is_empty_true (s : string) : is_empty s = true <-> s = EmptyString.
Proof. destruct s; simpl; split; congruence. Qed.

Lemma is_empty_append (a b : string) :
  is_empty (a +:+ b) = is_empty a && is_empty b.
Proof. destruct a; simpl; reflexivity. Qed.

Lemma endswith_snoc (c : ascii) (s : string) :
  endswith c s = true -> exists s', s = s' +:+ String c EmptyString.
Proof.
  induction s as [|a r IH]; simpl; [discriminate|].
  destruct r as [|b r'].
  - intros H. apply Ascii.eqb_eq in H. subst a. now exists EmptyString.
  - intros H. destruct (IH H) as [s' Hs']. exists (String a s').
    simpl. now rewrite Hs'.
Qed.

Lemma endswith_append_cons (c : ascii) (a : string) (x : ascii) (b : string) :
  endswith c (a +:+ String x b) = endswith c (String x b).
Proof.
  induction a as [|y a IH]; [reflexivity|].
  change (String y a +:+ String x b) with (String y (a +:+ String x b)).
  cbn [endswith]. rewrite IH.
  destruct (a +:+ String x b) eqn:E; [|reflexivity].
  destruct a; discriminate.
Qed.

Lemma has_char_append (c : ascii) (a b : string) :
  has_char c (a +:+ b) = has_char c a || has_char c b.
Proof.
  induction a as [|x a IH]; simpl; [reflexivity|].
  rewrite IH. now rewrite orb_assoc.
Qed.

Lemma has_nul_has_char (s : string) : vfs.has_nul s = has_char "000"%char s.
Proof. induction s as [|x s IH]; simpl; [reflexivity | now rewrite IH]. Qed.

Lemma has_nul_append (a b : string) :
  vfs.has_nul (a +:+ b) = vfs.has_nul a || vfs.has_nul b.
Proof. rewrite !has_nul_has_char. apply has_char_append. Qed.

(** A name free of separators ends in no separator. *)
Lemma endswith_no_char (c : ascii) (s : string) :
  has_char c s = false -> endswith c s = false.
Proof.
  induction s as [|a r IH]; simpl; [reflexivity|].
  intros H. apply orb_false_iff in H as [Ha Hr].
  destruct r; [exact Ha | now apply IH].
Qed.

End StringFacts.

(** ** Paths and their names *)

Section PathFacts.

Import vfs.

Lemma split_sep_nonempty (s : string) : split_sep s <> [].
Proof.
  induction s as [|a r IH]; simpl; [discriminate|].
  destruct (Ascii.eqb a sep); [discriminate|].
  destruct (split_sep r); [contradiction | discriminate].
Qed.

Lemma split_sep_app_sep (a b : string) :
  split_sep (a +:+ String sep b) = split_sep a ++ split_sep b.
Proof.
  induction a as [|x a IH]; simpl.
  - reflexivity.
  - rewrite IH. destruct (Ascii.eqb x sep); [reflexivity|].
    destruct (split_sep a) eqn:E; [now apply split_sep_nonempty in E|].
    reflexivity.
Qed.

Lemma split_sep_no_sep (n : string) :
  has_char sep n = false -> split_sep n = [n].
Proof.
  induction n as [|x n IH]; simpl; [reflexivity|].
  intros H. apply orb_false_iff in H as [Hx Hn].
  rewrite Hx, (IH Hn). reflexivity.
Qed.

Lemma components_app_sep (a b : string) :
  components (a +:+ String sep b) = components a ++ components b.
Proof. unfold components. rewrite split_sep_app_sep. apply List.filter_app. Qed.

Lemma components_name (n : string) :
  is_empty n = false -> has_char sep n = false -> components n = [n].
Proof.
  intros Hne Hns. unfold components. rewrite (split_sep_no_sep n Hns).
  simpl. now rewrite Hne.
Qed.

Lemma components_empty : components EmptyString = [].
Proof. reflexivity. Qed.

Lemma simple_name_spec (n : string) :
  simple_name n = true ->
  is_empty n = false /\ has_char sep n = false /\ has_nul n = false
  /\ is_dot n = false /\ is_dotdot n = false.
Proof.
  unfold simple_name. rewrite !andb_true_iff, !negb_true_iff. tauto.
Qed.

Lemma startswith_simple (n : string) :
  simple_name n = true -> startswith sep n = false.
Proof.
  intros H. apply simple_name_spec in H as (Hne & Hns & _).
  destruct n as [|x n]; [reflexivity|]. simpl in *.
  now apply orb_false_iff in Hns as [? _].
Qed.

(** The three shapes [join] gives for an ordinary name. *)
Lemma join_simple (X n : string) :
  simple_name n = true ->
  posixpath.join X n =
    if is_empty X || endswith sep X then X +:+ n else X +:+ String sep n.
Proof.
  intros H. unfold posixpath.join. now rewrite (startswith_simple n H).
Qed.

Lemma components_join (X n : string) :
  simple_name n = true ->
  components (posixpath.join X n) = components X ++ [n].
Proof.
  intros H. rewrite (join_simple X n H).
  apply simple_name_spec in H as (Hne & Hns & _).
  destruct (is_empty X) eqn:HX.
  - apply is_empty_true in HX. subst X. simpl.
    now rewrite (components_name n Hne Hns).
  - simpl. destruct (endswith sep X) eqn:HE.
    + destruct (endswith_snoc _ _ HE) as [X' ->].
      rewrite append_assoc. simpl.
      rewrite !components_app_sep, (components_name n Hne Hns).
      now rewrite components_empty, app_nil_r.
    + now rewrite components_app_sep, (components_name n Hne Hns).
Qed.

Lemma isabs_join (X n : string) :
  simple_name n = true ->
  posixpath.isabs (posixpath.join X n) = posixpath.isabs X.
Proof.
  intros H. rewrite (join_simple X n H).
  pose proof (startswith_simple n H) as Hs.
  destruct X as [|x X]; [exact Hs|].
  cbn [is_empty orb]. destruct (endswith sep (String x X)); reflexivity.
Qed.

Lemma has_nul_join (X n : string) :
  simple_name n = true ->
  has_nul (posixpath.join X n) = has_nul X.
Proof.
  intros H. rewrite (join_simple X n H).
  apply simple_name_spec in H as (_ & _ & Hnul & _).
  destruct (is_empty X || endswith sep X).
  - now rewrite has_nul_append, Hnul, orb_false_r.
  - rewrite has_nul_append. simpl. now rewrite Hnul, orb_false_r.
Qed.

Lemma is_empty_join (X n : string) :
  simple_name n = true -> is_empty (posixpath.join X n) = false.
Proof.
  intros H. rewrite (join_simple X n H).
  apply simple_name_spec in H as (Hne & _).
  destruct (is_empty X || endswith sep X).
  - now rewrite is_empty_append, Hne, andb_false_r.
  - now rewrite is_empty_append, andb_false_r.
Qed.

Lemma endswith_join (X n : string) :
  simple_name n = true -> endswith sep (posixpath.join X n) = false.
Proof.
  intros H. rewrite (join_simple X n H).
  apply simple_name_spec in H as (Hne & Hns & _).
  pose proof (endswith_no_char sep n Hns) as He.
  destruct n as [|x n]; [discriminate|].
  destruct (is_empty X || endswith sep X).
  - now rewrite endswith_append_cons.
  - now rewrite endswith_append_cons.
Qed.

End PathFacts.

(** ** Path resolution in the file system *)

Section ResolutionFacts.

Import vfs.

Variable fs : gmap loc node.
Variable cwd : loc.

Lemma node_at_snoc (l : loc) (c : string) : node_at fs (l ++ [c]) = fs !! (l ++ [c]).
Proof. destruct l; reflexivity. Qed.

Lemma check_dir_Ok (l : loc) (u : unit) :
  check_dir fs l = Ok u <-> node_at fs l = Some Dir.
Proof.
  unfold check_dir. destruct (node_at fs l) as [[|]|]; destruct u; split; congruence.
Qed.

Lemma walk_app (l : loc) (cs : list string) (c : string) :
  walk fs l (cs ++ [c]) =
    match walk fs l cs with
    | Raise e => Raise e
    | Ok p =>
        match check_dir fs p with
        | Raise e => Raise e
        | Ok _ => Ok (enter p c)
        end
    end.
Proof.
  revert l. induction cs as [|x cs IH]; intros l; simpl.
  - destruct (check_dir fs l); reflexivity.
  - destruct (check_dir fs l); [apply IH | reflexivity].
Qed.

Lemma enter_simple (l : loc) (n : string) :
  simple_name n = true -> enter l n = l ++ [n].
Proof.
  intros H. apply simple_name_spec in H as (_ & _ & _ & Hd & Hdd).
  unfold enter. now rewrite Hd, Hdd.
Qed.

Lemma last_snoc_list {A} (l : list A) (x : A) : last (l ++ [x]) = Some x.
Proof. apply last_snoc. Qed.

Lemma namei_join (X n : string) :
  simple_name n = true ->
  namei fs cwd (posixpath.join X n) =
    match lookup_dir fs cwd X with
    | Raise e => Raise e
    | Ok d => Ok (Nameidata d (Some n) false)
    end.
Proof.
  intros H. unfold namei, lookup_dir.
  rewrite (has_nul_join X n H), (is_empty_join X n H), (isabs_join X n H),
    (components_join X n H), (endswith_join X n H).
  destruct (has_nul X); [reflexivity|].
  rewrite last_snoc_list, removelast_last.
  destruct (walk fs _ (components X)) as [p|e]; [|reflexivity].
  destruct (check_dir fs p); reflexivity.
Qed.

Lemma stat_join (X n : string) :
  simple_name n = true ->
  stat fs cwd (posixpath.join X n) =
    match lookup_dir fs cwd X with
    | Raise e => Raise e
    | Ok d =>
        match fs !! (d ++ [n]) with
        | None => Raise FileNotFoundError
        | Some nd => Ok nd
        end
    end.
Proof.
  intros H. unfold stat. rewrite (namei_join X n H).
  destruct (lookup_dir fs cwd X) as [d|e]; [|reflexivity].
  cbn [nd_last nd_parent nd_slash].
  rewrite (enter_simple d n H), node_at_snoc.
  destruct (fs !! (d ++ [n])) as [[|]|]; reflexivity.
Qed.

Lemma lookup_dir_join (X n : string) :
  simple_name n = true ->
  lookup_dir fs cwd (posixpath.join X n) =
    match lookup_dir fs cwd X with
    | Raise e => Raise e
    | Ok d =>
        match check_dir fs (d ++ [n]) with
        | Raise e => Raise e
        | Ok _ => Ok (d ++ [n])
        end
    end.
Proof.
  intros H. unfold lookup_dir.
  rewrite (has_nul_join X n H), (isabs_join X n H), (components_join X n H).
  destruct (has_nul X); [reflexivity|].
  rewrite walk_app.
  destruct (walk fs _ (components X)) as [p|e]; [|reflexivity].
  destruct (check_dir fs p); [|reflexivity].
  now rewrite (enter_simple p n H).
Qed.

Lemma creat_join (X n : string) :
  simple_name n = true ->
  vfs.creat fs cwd (posixpath.join X n) =
    match lookup_dir fs cwd X with
    | Raise e => Raise e
    | Ok d =>
        match fs !! (d ++ [n]) with
        | Some Dir => Raise IsADirectoryError
        | _ => Ok (d ++ [n], <[d ++ [n] := File EmptyString]> fs)
        end
    end.
Proof.
  intros H. unfold vfs.creat. rewrite (namei_join X n H).
  destruct (lookup_dir fs cwd X) as [d|e]; [|reflexivity].
  cbn [nd_last nd_parent nd_slash].
  pose proof (simple_name_spec n H) as (_ & _ & _ & Hd & Hdd).
  rewrite Hd, Hdd. cbn [orb]. now rewrite node_at_snoc.
Qed.

(** A directory found by [lookup_dir] is one [stat] sees. *)
Lemma lookup_dir_stat (X : string) (d : loc) :
  is_empty X = false ->
  lookup_dir fs cwd X = Ok d -> stat fs cwd X = Ok Dir.
Proof.
  intros HX. unfold lookup_dir, stat, namei. rewrite HX.
  destruct (has_nul X); [discriminate|].
  destruct (last (components X)) as [c|] eqn:Hl.
  - apply last_Some in Hl as [cs Hcs]. rewrite Hcs, walk_app, removelast_last.
    destruct (walk fs _ cs) as [p|e]; [|discriminate].
    destruct (check_dir fs p); [|discriminate].
    cbn [nd_last nd_parent nd_slash].
    destruct (check_dir fs (enter p c)) as [u|e] eqn:Hc; [|discriminate].
    apply check_dir_Ok in Hc. intros _. now rewrite Hc.
  - reflexivity.
Qed.

End ResolutionFacts.

(** ** How runs change the file system *)

Section EvolutionFacts.

Import vfs.

Lemma evolves_on_refl (W : loc -> Prop) (fs : gmap loc node) : evolves_on W fs fs.
Proof. intros l. now left. Qed.

Lemma evolves_on_mono (W W' : loc -> Prop) (fs fs' : gmap loc node) :
  (forall l, W l -> W' l) -> evolves_on W fs fs' -> evolves_on W' fs fs'.
Proof.
  intros HW H l. destruct (H l) as [E|[E|(Hw & Hn & s & E)]]; eauto 8.
Qed.

Lemma evolves_on_trans (W : loc -> Prop) (fs1 fs2 fs3 : gmap loc node) :
  evolves_on W fs1 fs2 -> evolves_on W fs2 fs3 -> evolves_on W fs1 fs3.
Proof.
  intros H12 H23 l.
  destruct (H12 l) as [E|[[E1 E2]|(Hw & Hn & s & E)]];
    destruct (H23 l) as [F|[[F1 F2]|(Hw' & Hn' & s' & F)]].
  - left. congruence.
  - right. left. split; congruence.
  - right. right. repeat split; [assumption | congruence | eauto].
  - right. left. split; congruence.
  - congruence.
  - congruence.
  - right. right. repeat split; [assumption | assumption |]. exists s. congruence.
  - congruence.
  - right. right. repeat split; [assumption | assumption | eauto].
Qed.

Lemma evolves_on_insert_dir (W : loc -> Prop) (fs : gmap loc node) (l : loc) :
  fs !! l = None -> evolves_on W fs (<[l := Dir]> fs).
Proof.
  intros Hl l'. destruct (decide (l = l')) as [<-|Hne].
  - right. left. split; [assumption | apply lookup_insert_eq].
  - left. now apply lookup_insert_ne.
Qed.

Lemma evolves_on_insert_file (W : loc -> Prop) (fs : gmap loc node) (l : loc) (s : string) :
  W l -> fs !! l <> Some Dir -> evolves_on W fs (<[l := File s]> fs).
Proof.
  intros Hw Hl l'. destruct (decide (l = l')) as [<-|Hne].
  - right. right. repeat split; [assumption | assumption |].
    exists s. apply lookup_insert_eq.
  - left. now apply lookup_insert_ne.
Qed.

Variables (W : loc -> Prop) (fs fs' : gmap loc node).
Hypothesis Hev : evolves_on W fs fs'.

Lemma dir_kept (l : loc) : node_at fs l = Some Dir -> node_at fs' l = Some Dir.
Proof.
  destruct l as [|c l]; [trivial|]. simpl.
  destruct (Hev (c :: l)) as [E|[[E1 E2]|(_ & Hn & _)]]; congruence.
Qed.

Lemma file_not_dir (l : loc) (s : string) :
  fs !! l = Some (File s) -> exists s', fs' !! l = Some (File s').
Proof.
  intros H. destruct (Hev l) as [E|[[E1 E2]|(_ & _ & s' & E)]];
    [exists s | | exists s']; congruence.
Qed.

Lemma check_dir_kept (l : loc) (u : unit) :
  check_dir fs l = Ok u -> check_dir fs' l = Ok u.
Proof. rewrite !check_dir_Ok. apply dir_kept. Qed.

Lemma walk_kept (l d : loc) (cs : list string) :
  walk fs l cs = Ok d -> walk fs' l cs = Ok d.
Proof.
  revert l. induction cs as [|c cs IH]; intros l; simpl; [trivial|].
  destruct (check_dir fs l) as [u|e] eqn:Hc; [|discriminate].
  rewrite (check_dir_kept l u Hc). apply IH.
Qed.

Lemma lookup_dir_kept (cwd : loc) (X : string) (d : loc) :
  lookup_dir fs cwd X = Ok d -> lookup_dir fs' cwd X = Ok d.
Proof.
  unfold lookup_dir. destruct (has_nul X); [discriminate|].
  destruct (walk fs _ (components X)) as [p|e] eqn:Hw; [|discriminate].
  rewrite (walk_kept _ _ _ Hw).
  destruct (check_dir fs p) as [u|e] eqn:Hc; [|discriminate].
  now rewrite (check_dir_kept p u Hc).
Qed.

(** A regular file keeps its content unless files may be written at its
    location. *)
Lemma stat_file_kept (cwd : loc) (X n s : string) :
  simple_name n = true ->
  (forall l, W l -> last l <> Some n) ->
  stat fs cwd (posixpath.join X n) = Ok (File s) ->
  stat fs' cwd (posixpath.join X n) = Ok (File s).
Proof.
  intros Hn HW. rewrite !(stat_join _ _ _ _ Hn).
  destruct (lookup_dir fs cwd X) as [d|e] eqn:Hd; [|discriminate].
  rewrite (lookup_dir_kept _ _ _ Hd).
  destruct (fs !! (d ++ [n])) as [nd|] eqn:Hf; [|discriminate].
  intros [= ->].
  destruct (Hev (d ++ [n])) as [E|[[E1 E2]|(Hw & _)]].
  - now rewrite E, Hf.
  - congruence.
  - exfalso. apply (HW _ Hw). apply last_snoc.
Qed.

End EvolutionFacts.

(** ** The effects of the library calls *)

Section CallFacts.

Import vfs.

Lemma world_evolves_refl (W : loc -> Prop) (w : world) : world_evolves W w w.
Proof. split; [reflexivity | apply evolves_on_refl]. Qed.

Lemma world_evolves_trans (W : loc -> Prop) (w1 w2 w3 : world) :
  world_evolves W w1 w2 -> world_evolves W w2 w3 -> world_evolves W w1 w3.
Proof.
  intros [C1 E1] [C2 E2]. split; [congruence|].
  eapply evolves_on_trans; eassumption.
Qed.

Lemma world_evolves_mono (W W' : loc -> Prop) (w w' : world) :
  (forall l, W l -> W' l) -> world_evolves W w w' -> world_evolves W' w w'.
Proof. intros HW [C E]. split; [assumption|]. eapply evolves_on_mono; eassumption. Qed.

Lemma os_path_exists_eq (p : string) (w : world) :
  os_path_exists p w = (Ok (exists_at w p), w).
Proof.
  unfold os_path_exists, os_stat, exists_at.
  destruct (stat (w_fs w) (w_cwd w) p); reflexivity.
Qed.

Lemma os_path_isfile_eq (p : string) (w : world) :
  os_path_isfile p w = (Ok (isfile_at w p), w).
Proof.
  unfold os_path_isfile, os_stat, isfile_at.
  destruct (stat (w_fs w) (w_cwd w) p) as [[|]|]; reflexivity.
Qed.

Lemma silent_steps {A} (W : loc -> Prop) (m : M A) : silent W m -> steps W m.
Proof. intros H w r w' E. exact (proj1 (H w r w' E)). Qed.

Lemma silent_ret {A} (W : loc -> Prop) (a : A) : silent W (ret a).
Proof.
  intros w r w' [= <- <-]. split; [apply world_evolves_refl | reflexivity].
Qed.

Lemma silent_raise {A} (W : loc -> Prop) (e : exn) : silent W (@raise A e).
Proof.
  intros w r w' [= <- <-]. split; [apply world_evolves_refl | reflexivity].
Qed.

Lemma silent_bind {A B} (W : loc -> Prop) (m : M A) (k : A -> M B) :
  silent W m -> (forall a, silent W (k a)) -> silent W (bind m k).
Proof.
  intros Hm Hk w r w' E. unfold bind in E.
  destruct (m w) as [[a|e] w1] eqn:Em.
  - destruct (Hm _ _ _ Em) as [H1 O1]. destruct (Hk a _ _ _ E) as [H2 O2].
    split; [eapply world_evolves_trans; eassumption | congruence].
  - injection E as <- <-. exact (Hm _ _ _ Em).
Qed.

Lemma steps_bind {A B} (W : loc -> Prop) (m : M A) (k : A -> M B) :
  steps W m -> (forall a, steps W (k a)) -> steps W (bind m k).
Proof.
  intros Hm Hk w r w' E. unfold bind in E.
  destruct (m w) as [[a|e] w1] eqn:Em.
  - eapply world_evolves_trans; [exact (Hm _ _ _ Em) | exact (Hk a _ _ _ E)].
  - injection E as <- <-. exact (Hm _ _ _ Em).
Qed.

Lemma silent_mono {A} (W W' : loc -> Prop) (m : M A) :
  (forall l, W l -> W' l) -> silent W m -> silent W' m.
Proof.
  intros HW H w r w' E. destruct (H _ _ _ E) as [H1 H2].
  split; [eapply world_evolves_mono; eassumption | assumption].
Qed.

Lemma steps_mono {A} (W W' : loc -> Prop) (m : M A) :
  (forall l, W l -> W' l) -> steps W m -> steps W' m.
Proof.
  intros HW H w r w' E. eapply world_evolves_mono; [exact HW | exact (H _ _ _ E)].
Qed.

Lemma silent_except (W : loc -> Prop) (m : M unit) :
  silent W m -> silent W (except_FileExistsError_pass m).
Proof.
  intros Hm w r w' E. unfold except_FileExistsError_pass in E.
  destruct (m w) as [[a|e] w1] eqn:Em.
  - injection E as <- <-. exact (Hm _ _ _ Em).
  - destruct e; injection E as <- <-; exact (Hm _ _ _ Em).
Qed.

Lemma silent_exists (W : loc -> Prop) (p : string) : silent W (os_path_exists p).
Proof.
  intros w r w'. rewrite os_path_exists_eq. intros [= <- <-].
  split; [apply world_evolves_refl | reflexivity].
Qed.

Lemma silent_isfile (W : loc -> Prop) (p : string) : silent W (os_path_isfile p).
Proof.
  intros w r w'. rewrite os_path_isfile_eq. intros [= <- <-].
  split; [apply world_evolves_refl | reflexivity].
Qed.

Lemma silent_getcwd (W : loc -> Prop) : silent W os_getcwd.
Proof.
  intros w r w' [= <- <-]. split; [apply world_evolves_refl | reflexivity].
Qed.

Lemma steps_print (W : loc -> Prop) (s : string) : steps W (print s).
Proof.
  intros w r w' [= <- <-]. split; [reflexivity | apply evolves_on_refl].
Qed.

Lemma silent_mkdir (W : loc -> Prop) (p : string) : silent W (os_mkdir p).
Proof.
  intros w r w'. unfold os_mkdir, mkdir.
  destruct (namei (w_fs w) (w_cwd w) p) as [nd|e];
    [|intros [= <- <-]; split; [apply world_evolves_refl | reflexivity]].
  destruct (nd_last nd) as [c|];
    [|intros [= <- <-]; split; [apply world_evolves_refl | reflexivity]].
  destruct (is_dot c || is_dotdot c);
    [intros [= <- <-]; split; [apply world_evolves_refl | reflexivity]|].
  rewrite node_at_snoc.
  destruct (w_fs w !! (nd_parent nd ++ [c])) eqn:Hl;
    intros [= <- <-]; (split; [|reflexivity]).
  - apply world_evolves_refl.
  - split; [reflexivity|]. now apply evolves_on_insert_dir.
Qed.

Lemma silent_makedirs_fuel (W : loc -> Prop) (n : nat) (name : string) :
  silent W (makedirs_fuel n name).
Proof.
  revert name. induction n as [|n IH]; intros name.
  - apply silent_raise.
  - cbn [makedirs_fuel].
    destruct (posixpath.split name) as [head tail].
    destruct (if is_empty tail then posixpath.split head else (head, tail))
      as [head' tail'].
    apply silent_bind.
    + destruct (negb (is_empty head') && negb (is_empty tail'));
        [|apply silent_ret].
      apply silent_bind; [apply silent_exists|].
      intros ex. destruct (negb ex); [|apply silent_ret].
      apply silent_bind; [apply silent_except, IH|].
      intros _. apply silent_ret.
    + intros [|]; [apply silent_mkdir | apply silent_ret].
Qed.

Lemma silent_makedirs (W : loc -> Prop) (name : string) : silent W (os_makedirs name).
Proof. apply silent_makedirs_fuel. Qed.

(** Opening [join(X, n)] and writing to it is [put_file]. *)
Lemma open_write_1 (X n s : string) (w : world) :
  simple_name n = true ->
  (let* f := open_w (posixpath.join X n) in f_write f s) w = put_file X n s w.
Proof.
  intros Hn. unfold bind, open_w, put_file. rewrite (creat_join _ _ _ _ Hn).
  destruct (lookup_dir (w_fs w) (w_cwd w) X) as [d|e]; [|reflexivity].
  destruct (w_fs w !! (d ++ [n])) as [[c|]|]; try reflexivity;
    unfold f_write, set_fs, append; cbn [w_fs w_cwd w_stdout];
    rewrite lookup_insert_eq, insert_insert_eq; reflexivity.
Qed.

Lemma open_write_2 (X n a b : string) (w : world) :
  simple_name n = true ->
  (let* f := open_w (posixpath.join X n) in f_write f a ;; f_write f b) w
  = put_file X n (a +:+ b) w.
Proof.
  intros Hn. unfold bind, open_w, put_file. rewrite (creat_join _ _ _ _ Hn).
  destruct (lookup_dir (w_fs w) (w_cwd w) X) as [d|e]; [|reflexivity].
  destruct (w_fs w !! (d ++ [n])) as [[c|]|]; try reflexivity;
    unfold f_write, set_fs, append; cbn [w_fs w_cwd w_stdout];
    repeat (rewrite lookup_insert_eq || rewrite insert_insert_eq); reflexivity.
Qed.

Lemma open_write_3 (X n a b c : string) (w : world) :
  simple_name n = true ->
  (let* f := open_w (posixpath.join X n) in
   f_write f a ;; f_write f b ;; f_write f c) w
  = put_file X n ((a +:+ b) +:+ c) w.
Proof.
  intros Hn. unfold bind, open_w, put_file. rewrite (creat_join _ _ _ _ Hn).
  destruct (lookup_dir (w_fs w) (w_cwd w) X) as [d|e]; [|reflexivity].
  destruct (w_fs w !! (d ++ [n])) as [[c0|]|]; try reflexivity;
    unfold f_write, set_fs, append; cbn [w_fs w_cwd w_stdout];
    repeat (rewrite lookup_insert_eq || rewrite insert_insert_eq); reflexivity.
Qed.

Lemma silent_put_file (X n s : string) : silent (named [n]) (put_file X n s).
Proof.
  intros w r w'. unfold put_file.
  destruct (lookup_dir (w_fs w) (w_cwd w) X) as [d|e];
    [|intros [= <- <-]; split; [apply world_evolves_refl | reflexivity]].
  assert (HW : named [n] (d ++ [n])).
  { exists n. split; [apply last_snoc | now left]. }
  destruct (w_fs w !! (d ++ [n])) as [[c|]|] eqn:Hl;
    intros [= <- <-]; (split; [|reflexivity]).
  - split; [reflexivity|].
    apply evolves_on_insert_file; [assumption | congruence].
  - apply world_evolves_refl.
  - split; [reflexivity|].
    apply evolves_on_insert_file; [assumption | congruence].
Qed.

Lemma put_file_Ok (X n s : string) (w w' : world) (u : unit) :
  put_file X n s w = (Ok u, w') ->
  exists d, lookup_dir (w_fs w) (w_cwd w) X = Ok d
    /\ w_fs w !! (d ++ [n]) <> Some Dir
    /\ w' = set_fs (<[d ++ [n] := File s]> (w_fs w)) w.
Proof.
  unfold put_file.
  destruct (lookup_dir (w_fs w) (w_cwd w) X) as [d|e]; [|discriminate].
  destruct (w_fs w !! (d ++ [n])) as [[c|]|] eqn:Hl; [|discriminate|];
    intros [= <- <-]; exists d; (split; [reflexivity|]); split;
    (congruence || reflexivity).
Qed.

Lemma put_file_Raise (X n s : string) (w w' : world) (e : exn) :
  put_file X n s w = (Raise e, w') -> w' = w.
Proof.
  unfold put_file.
  destruct (lookup_dir (w_fs w) (w_cwd w) X) as [d|e0]; [|congruence].
  destruct (w_fs w !! (d ++ [n])) as [[c|]|]; congruence.
Qed.

End CallFacts.

(** ** The program, stage by stage *)

Section ProgramFacts.

Lemma bind_ext {A B} (m m' : M A) (k k' : A -> M B) (w : world) :
  m w = m' w -> (forall a w1, k a w1 = k' a w1) -> bind m k w = bind m' k' w.
Proof.
  intros Hm Hk. unfold bind. rewrite Hm.
  destruct (m' w) as [[a|e] w1]; [apply Hk | reflexivity].
Qed.

Lemma bind_assoc {A B C} (m : M A) (k : A -> M B) (k' : B -> M C) (w : world) :
  bind (bind m k) k' w = bind m (fun a => bind (k a) k') w.
Proof. unfold bind. destruct (m w) as [[a|e] w1]; reflexivity. Qed.

Lemma bind_ret_tt (m : M unit) (w : world) : (m ;; ret tt) w = m w.
Proof. unfold bind, ret. destruct (m w) as [[[]|e] w1]; reflexivity. Qed.

Lemma resolve_project_path_eq (argv : list string) (w : world) :
  resolve_project_path argv w = (Ok (project_path_of argv w), w).
Proof.
  unfold project_path_of, resolve_project_path.
  destruct (1 <? length argv)%nat; [|reflexivity].
  destruct (posixpath.isabs (nth 1 argv EmptyString)); reflexivity.
Qed.

Lemma main_stages_eq (argv : list string) (w : world) :
  main argv w = run_stages (main_stages (project_path_of argv w)) w.
Proof.
  unfold main. unfold bind at 1. rewrite resolve_project_path_eq.
  cbn [main_stages run_stages]. unfold ensure_project_dir at 1.
  rewrite bind_assoc.
  apply bind_ext; [reflexivity|]. intros ex w0.
  apply bind_ext; [reflexivity|]. intros _ w1.
  apply bind_ext; [reflexivity|]. intros _ w2.
  apply bind_ext; [reflexivity|]. intros _ w3.
  apply bind_ext; [reflexivity|]. intros _ w4.
  apply bind_ext; [reflexivity|]. intros _ w5.
  symmetry. apply bind_ret_tt.
Qed.

Lemma simple_package_json : simple_name "package.json" = true.
Proof. reflexivity. Qed.
Lemma simple_tsconfig_json : simple_name "tsconfig.json" = true.
Proof. reflexivity. Qed.
Lemma simple_src : simple_name "src" = true.
Proof. reflexivity. Qed.
Lemma simple_index_ts : simple_name "index.ts" = true.
Proof. reflexivity. Qed.
Lemma simple_module_ts : simple_name "module.ts" = true.
Proof. reflexivity. Qed.

Lemma generate_package_json_eq (P : string) (w : world) :
  generate_package_json P w
  = put_file P "package.json" (json_encoder.dumps (package_data P)) w.
Proof. apply open_write_1. reflexivity. Qed.

Lemma generate_tsconfig_json_eq (P : string) (w : world) :
  generate_tsconfig_json P w
  = put_file P "tsconfig.json" (json_encoder.dumps tsconfig_data) w.
Proof. apply open_write_1. reflexivity. Qed.

Lemma ensure_src_index_ts_eq (P : string) (w : world) :
  ensure_src_index_ts P w
  = (ensure_src_dir P ;; ensure_index_ts P ;; ensure_module_ts P) w.
Proof.
  unfold ensure_src_index_ts, ensure_src_dir, ensure_index_ts, ensure_module_ts,
    ensure_file.
  rewrite bind_assoc.
  apply bind_ext; [reflexivity|]. intros ex w0.
  apply bind_ext; [reflexivity|]. intros _ w1.
  rewrite bind_assoc.
  apply bind_ext; [reflexivity|]. intros isf w2.
  apply bind_ext.
  - destruct (negb isf); [|reflexivity].
    apply open_write_2. reflexivity.
  - intros _ w3.
    apply bind_ext; [reflexivity|]. intros isf' w4.
    destruct (negb isf'); [|reflexivity].
    apply open_write_3. reflexivity.
Qed.

End ProgramFacts.

(** ** What one run keeps and what it writes *)

Section RunFacts.

Import vfs.

Lemma file_kept_at (W : loc -> Prop) (fs fs' : gmap loc node) (l : loc) (c : string) :
  evolves_on W fs fs' -> ~ W l ->
  fs !! l = Some (File c) -> fs' !! l = Some (File c).
Proof.
  intros Hev HW Hl. destruct (Hev l) as [E|[[E1 E2]|(Hw & _)]];
    [congruence | congruence | contradiction].
Qed.

Lemma file_back_at (W : loc -> Prop) (fs fs' : gmap loc node) (l : loc) (c : string) :
  evolves_on W fs fs' -> ~ W l ->
  fs' !! l = Some (File c) -> fs !! l = Some (File c).
Proof.
  intros Hev HW Hl. destruct (Hev l) as [E|[[E1 E2]|(Hw & _)]];
    [congruence | congruence | contradiction].
Qed.

Lemma content_or_kept (W : loc -> Prop) (fs fs' : gmap loc node) (l : loc) (b : string) :
  evolves_on W fs fs' -> ~ W l -> content_or fs' l b = content_or fs l b.
Proof.
  intros Hev HW. unfold content_or.
  destruct (fs' !! l) as [[c|]|] eqn:E'.
  - now rewrite (file_back_at W fs fs' l c Hev HW E').
  - destruct (fs !! l) as [[c|]|] eqn:E; try reflexivity.
    rewrite (file_kept_at W fs fs' l c Hev HW E) in E'. discriminate.
  - destruct (fs !! l) as [[c|]|] eqn:E; try reflexivity.
    rewrite (file_kept_at W fs fs' l c Hev HW E) in E'. discriminate.
Qed.

Lemma not_named_snoc (names : list string) (d : loc) (n : string) :
  ~ In n names -> ~ named names (d ++ [n]).
Proof.
  intros Hn (c & Hl & Hc). rewrite last_snoc in Hl. injection Hl as <-. auto.
Qed.

Lemma named_incl (names names' : list string) (l : loc) :
  incl names names' -> named names l -> named names' l.
Proof. intros Hi (c & Hl & Hc). exists c. split; [assumption | now apply Hi]. Qed.

Lemma silent_ext {A} (W : loc -> Prop) (m m' : M A) :
  (forall w, m' w = m w) -> silent W m -> silent W m'.
Proof. intros He H w r w' E. rewrite He in E. exact (H _ _ _ E). Qed.

Lemma silent_ensure_project_dir (W : loc -> Prop) (P : string) :
  silent W (ensure_project_dir P).
Proof.
  apply silent_bind; [apply silent_exists|].
  intros ex. destruct (negb ex); [apply silent_makedirs | apply silent_ret].
Qed.

Lemma silent_ensure_src_dir (W : loc -> Prop) (P : string) :
  silent W (ensure_src_dir P).
Proof.
  apply silent_bind; [apply silent_exists|].
  intros ex. destruct (negb ex); [apply silent_makedirs | apply silent_ret].
Qed.

Lemma silent_ensure_file (X n body : string) :
  silent (named [n]) (ensure_file X n body).
Proof.
  apply silent_bind; [apply silent_isfile|].
  intros isf. destruct (negb isf); [apply silent_put_file | apply silent_ret].
Qed.

Lemma silent_generate_package_json (P : string) :
  silent (named ["package.json"]) (generate_package_json P).
Proof.
  eapply silent_ext; [apply generate_package_json_eq | apply silent_put_file].
Qed.

Lemma silent_generate_tsconfig_json (P : string) :
  silent (named ["tsconfig.json"]) (generate_tsconfig_json P).
Proof.
  eapply silent_ext; [apply generate_tsconfig_json_eq | apply silent_put_file].
Qed.

Lemma steps_report (W : loc -> Prop) (P : string) : steps W (report P).
Proof.
  unfold report. repeat (apply steps_bind; [apply steps_print | intros _]).
  apply steps_print.
Qed.

(** The file [n] of [X] after [ensure_file] has run well. *)
Lemma ensure_file_Ok (X n body : string) (w w' : world) (u : unit) :
  simple_name n = true ->
  ensure_file X n body w = (Ok u, w') ->
  exists d, lookup_dir (w_fs w) (w_cwd w) X = Ok d
    /\ w_fs w' !! (d ++ [n]) = Some (File (content_or (w_fs w) (d ++ [n]) body)).
Proof.
  intros Hn. unfold ensure_file, bind. rewrite os_path_isfile_eq.
  unfold isfile_at. rewrite (stat_join _ _ _ _ Hn).
  destruct (lookup_dir (w_fs w) (w_cwd w) X) as [d|e] eqn:Hd.
  - destruct (w_fs w !! (d ++ [n])) as [[c|]|] eqn:Hl; cbn [negb].
    + intros [= _ <-]. exists d. split; [reflexivity|].
      unfold content_or. now rewrite Hl.
    + intros H. apply put_file_Ok in H as (d' & Hd' & Hnd & _). congruence.
    + intros H. apply put_file_Ok in H as (d' & Hd' & _ & ->).
      assert (d' = d) as -> by congruence.
      exists d. split; [reflexivity|]. cbn [set_fs w_fs].
      rewrite lookup_insert_eq. unfold content_or. now rewrite Hl.
  - cbn [negb]. intros H. apply put_file_Ok in H as (d' & Hd' & _). congruence.
Qed.

Lemma lookup_dir_src (fs : gmap loc node) (cwd : loc) (P : string) (d : loc) :
  lookup_dir fs cwd (src_path P) = Ok d ->
  exists dP, lookup_dir fs cwd P = Ok dP /\ d = dP ++ ["src"]
    /\ fs !! (dP ++ ["src"]) = Some Dir.
Proof.
  unfold src_path. rewrite (lookup_dir_join _ _ _ _ simple_src).
  destruct (lookup_dir fs cwd P) as [dP|e]; [|discriminate].
  destruct (check_dir fs (dP ++ ["src"])) as [u|e] eqn:Hc; [|discriminate].
  intros [= <-]. exists dP. repeat split.
  apply check_dir_Ok in Hc. now rewrite node_at_snoc in Hc.
Qed.

Lemma run_stages_cons_Ok (m : M unit) (l : list (M unit)) (w w' : world) (u : unit) :
  run_stages (m :: l) w = (Ok u, w') ->
  exists w1, m w = (Ok tt, w1) /\ run_stages l w1 = (Ok u, w').
Proof.
  cbn [run_stages]. unfold bind.
  destruct (m w) as [[[]|e] w1]; [|discriminate]. eauto.
Qed.

Lemma bind_Ok {A B} (m : M A) (k : A -> M B) (w w' : world) (b : B) :
  bind m k w = (Ok b, w') ->
  exists a w1, m w = (Ok a, w1) /\ k a w1 = (Ok b, w').
Proof.
  unfold bind. destruct (m w) as [[a|e] w1]; [|discriminate]. eauto.
Qed.

Lemma ensure_src_Ok (P : string) (w w' : world) (u : unit) (dP : loc) :
  ensure_src_index_ts P w = (Ok u, w') ->
  lookup_dir (w_fs w) (w_cwd w) P = Ok dP ->
  w_cwd w' = w_cwd w
  /\ w_stdout w' = w_stdout w
  /\ w_fs w' !! (dP ++ ["src"]) = Some Dir
  /\ w_fs w' !! ((dP ++ ["src"]) ++ ["index.ts"])
     = Some (File (content_or (w_fs w) ((dP ++ ["src"]) ++ ["index.ts"]) index_ts_body))
  /\ w_fs w' !! ((dP ++ ["src"]) ++ ["module.ts"])
     = Some (File (content_or (w_fs w) ((dP ++ ["src"]) ++ ["module.ts"]) module_ts_body))
  /\ evolves_on (named ["index.ts"; "module.ts"]) (w_fs w) (w_fs w').
Proof.
  rewrite ensure_src_index_ts_eq. intros H HdP.
  apply bind_Ok in H as ([] & wa & Ha & H).
  apply bind_Ok in H as ([] & wb & Hb & Hc).
  destruct (silent_ensure_src_dir (fun _ => False) P _ _ _ Ha) as [[Ca Ea] Oa].
  destruct (silent_ensure_file _ _ _ _ _ _ Hb) as [[Cb Eb] Ob].
  destruct (silent_ensure_file _ _ _ _ _ _ Hc) as [[Cc Ec] Oc].
  apply (ensure_file_Ok _ _ _ _ _ _ simple_index_ts) in Hb as (d & Hd & Hidx).
  apply (ensure_file_Ok _ _ _ _ _ _ simple_module_ts) in Hc as (d2 & Hd2 & Hmod).
  pose proof (lookup_dir_kept _ _ _ Eb _ _ _ Hd) as Hd'.
  rewrite <- Cb in Hd'. assert (d2 = d) as -> by congruence.
  apply lookup_dir_src in Hd as (dP' & HdP' & -> & Hsrc).
  pose proof (lookup_dir_kept _ _ _ Ea _ _ _ HdP) as HdPa.
  rewrite <- Ca in HdPa. assert (dP' = dP) as -> by congruence.
  assert (Eab : evolves_on (named ["index.ts"]) (w_fs w) (w_fs wb)).
  { eapply evolves_on_trans; [|exact Eb].
    eapply evolves_on_mono; [|exact Ea]. contradiction. }
  repeat split.
  - congruence.
  - congruence.
  - pose proof (dir_kept _ _ _ Eb (dP ++ ["src"])) as K1.
    pose proof (dir_kept _ _ _ Ec (dP ++ ["src"])) as K2.
    rewrite !node_at_snoc in K1, K2. auto.
  - rewrite <- (content_or_kept _ _ _ _ index_ts_body Ea (fun F : False => F)).
    eapply file_kept_at; [exact Ec | not_named | exact Hidx].
  - rewrite Hmod. do 2 f_equal.
    apply (content_or_kept _ _ _ _ module_ts_body Eab). not_named.
  - eapply evolves_on_trans;
      [eapply evolves_on_mono; [|exact Eab] | eapply evolves_on_mono; [|exact Ec]];
      named_sub.
Qed.

Lemma announce_eq (P : string) (w : world) :
  announce P w
  = (Ok tt, World (w_fs w) (w_cwd w)
              (w_stdout w +:+ ("Initializing TypeScript project in: " +:+ P) +:+ nl)).
Proof. reflexivity. Qed.

(** A run that ends well leaves the project scaffolded. *)
Lemma main_Ok (argv : list string) (w w' : world) (u : unit) :
  main argv w = (Ok u, w') ->
  exists dP, scaffolded (project_path_of argv w) w w' dP.
Proof.
  rewrite main_stages_eq. set (P := project_path_of argv w).
  unfold main_stages. intros H.
  apply run_stages_cons_Ok in H as (w1 & H0 & H).
  apply run_stages_cons_Ok in H as (w2 & H1 & H).
  apply run_stages_cons_Ok in H as (w3 & H2 & H).
  apply run_stages_cons_Ok in H as (w4 & H3 & H).
  apply run_stages_cons_Ok in H as (w5 & H4 & H).
  apply run_stages_cons_Ok in H as (w6 & H5 & H).
  injection H as _ <-.
  destruct (silent_ensure_project_dir (fun _ => False) P _ _ _ H0) as [[C0 E0] _].
  rewrite announce_eq in H1. injection H1 as <-.
  destruct (silent_generate_package_json _ _ _ _ H2) as [[C2 E2] _].
  destruct (silent_generate_tsconfig_json _ _ _ _ H3) as [[C3 E3] _].
  destruct (steps_report (fun _ => False) P _ _ _ H5) as [C5 E5].
  rewrite generate_package_json_eq in H2.
  apply put_file_Ok in H2 as (dP & HdP & _ & Hw3).
  rewrite generate_tsconfig_json_eq in H3.
  apply put_file_Ok in H3 as (dP' & HdP' & _ & Hw4).
  cbn [w_fs w_cwd] in *.
  pose proof (lookup_dir_kept _ _ _ E2 _ _ _ HdP) as HdP3.
  rewrite <- C2 in HdP3. cbn [w_cwd] in HdP3.
  assert (dP' = dP) as -> by congruence.
  pose proof (lookup_dir_kept _ _ _ E3 _ _ _ HdP') as HdP4.
  rewrite <- C3 in HdP4.
  destruct (ensure_src_Ok P w4 w5 tt dP H4 HdP4) as (C4 & _ & Hsrc & Hidx & Hmod & E4).
  assert (Hpkg3 : w_fs w3 !! (dP ++ ["package.json"])
                  = Some (File (json_encoder.dumps (package_data P)))).
  { rewrite Hw3. cbn [set_fs w_fs]. apply lookup_insert_eq. }
  assert (Hts4 : w_fs w4 !! (dP ++ ["tsconfig.json"])
                 = Some (File (json_encoder.dumps tsconfig_data))).
  { rewrite Hw4. cbn [set_fs w_fs]. apply lookup_insert_eq. }
  assert (E04 : evolves_on (named ["package.json"; "tsconfig.json"]) (w_fs w) (w_fs w4)).
  { eapply evolves_on_trans; [eapply evolves_on_mono; [|exact E0]; contradiction|].
    eapply evolves_on_trans;
      [eapply evolves_on_mono; [|exact E2] | eapply evolves_on_mono; [|exact E3]];
      named_sub. }
  assert (E56 : evolves_on (fun _ => False) (w_fs w5) (w_fs w6)) by exact E5.
  exists dP. unfold scaffolded. repeat split.
  - congruence.
  - pose proof (lookup_dir_kept _ _ _ E4 _ _ _ HdP4) as K.
    pose proof (lookup_dir_kept _ _ _ E56 _ _ _ K) as K'.
    replace (w_cwd w6) with (w_cwd w4) by congruence. exact K'.
  - eapply file_kept_at; [exact E56 | tauto |].
    eapply file_kept_at; [exact E4 | not_named |].
    eapply file_kept_at; [exact E3 | not_named | exact Hpkg3].
  - eapply file_kept_at; [exact E56 | tauto |].
    eapply file_kept_at; [exact E4 | not_named | exact Hts4].
  - pose proof (dir_kept _ _ _ E56 (dP ++ ["src"])) as K.
    rewrite !node_at_snoc in K. auto.
  - rewrite <- (content_or_kept _ _ _ _ index_ts_body E04); [|not_named].
    eapply file_kept_at; [exact E56 | tauto | exact Hidx].
  - rewrite <- (content_or_kept _ _ _ _ module_ts_body E04); [|not_named].
    eapply file_kept_at; [exact E56 | tauto | exact Hmod].
  - eapply evolves_on_trans; [eapply evolves_on_mono; [|exact E04]; named_sub|].
    eapply evolves_on_trans; [eapply evolves_on_mono; [|exact E4]; named_sub|].
    eapply evolves_on_mono; [|exact E56]. contradiction.
Qed.

End RunFacts.

(** ** From locations back to paths *)

Section PathView.

Import vfs.

Lemma read_file_join (w : world) (X n c : string) (d : loc) :
  simple_name n = true ->
  lookup_dir (w_fs w) (w_cwd w) X = Ok d ->
  w_fs w !! (d ++ [n]) = Some (File c) ->
  read_file w (posixpath.join X n) = Some c.
Proof.
  intros Hn Hd Hf. unfold read_file. now rewrite (stat_join _ _ _ _ Hn), Hd, Hf.
Qed.

Lemma read_file_join_inv (w : world) (X n c : string) :
  simple_name n = true ->
  read_file w (posixpath.join X n) = Some c ->
  exists d, lookup_dir (w_fs w) (w_cwd w) X = Ok d
    /\ w_fs w !! (d ++ [n]) = Some (File c).
Proof.
  intros Hn. unfold read_file. rewrite (stat_join _ _ _ _ Hn).
  destruct (lookup_dir (w_fs w) (w_cwd w) X) as [d|e]; [|discriminate].
  destruct (w_fs w !! (d ++ [n])) as [[c'|]|] eqn:Hf; try discriminate.
  intros [= ->]. eauto.
Qed.

Lemma lookup_dir_src_Ok (fs : gmap loc node) (cwd : loc) (P : string) (dP : loc) :
  lookup_dir fs cwd P = Ok dP ->
  fs !! (dP ++ ["src"]) = Some Dir ->
  lookup_dir fs cwd (src_path P) = Ok (dP ++ ["src"]).
Proof.
  intros HdP Hsrc. unfold src_path.
  rewrite (lookup_dir_join _ _ _ _ simple_src), HdP.
  unfold check_dir. now rewrite node_at_snoc, Hsrc.
Qed.

Lemma isdir_at_lookup (w : world) (X : string) (d : loc) :
  is_empty X = false ->
  lookup_dir (w_fs w) (w_cwd w) X = Ok d -> isdir_at w X = true.
Proof.
  intros HX Hd. unfold isdir_at. now rewrite (lookup_dir_stat _ _ _ _ HX Hd).
Qed.

(** What the paths show of a scaffolded project. *)
Lemma scaffolded_paths (P : string) (w w' : world) (dP : loc) :
  scaffolded P w w' dP ->
  read_file w' (package_json_path P) = Some (json_encoder.dumps (package_data P))
  /\ read_file w' (tsconfig_json_path P) = Some (json_encoder.dumps tsconfig_data)
  /\ isdir_at w' (src_path P) = true
  /\ read_file w' (index_path P)
     = Some (content_or (w_fs w) ((dP ++ ["src"]) ++ ["index.ts"]) index_ts_body)
  /\ read_file w' (module_path P)
     = Some (content_or (w_fs w) ((dP ++ ["src"]) ++ ["module.ts"]) module_ts_body).
Proof.
  intros (_ & HdP & Hpkg & Hts & Hsrc & Hidx & Hmod & _).
  pose proof (lookup_dir_src_Ok _ _ _ _ HdP Hsrc) as Hd.
  repeat split.
  - exact (read_file_join _ _ _ _ _ simple_package_json HdP Hpkg).
  - exact (read_file_join _ _ _ _ _ simple_tsconfig_json HdP Hts).
  - eapply isdir_at_lookup; [|exact Hd]. apply (is_empty_join _ _ simple_src).
  - exact (read_file_join _ _ _ _ _ simple_index_ts Hd Hidx).
  - exact (read_file_join _ _ _ _ _ simple_module_ts Hd Hmod).
Qed.

End PathView.

(** ** The project path *)

Section ProjectPath.

Lemma path_of_loc_abs (l : loc) : posixpath.isabs (vfs.path_of_loc l) = true.
Proof. destruct l; reflexivity. Qed.

Lemma lookup_1_length (argv : list string) :
  (1 <? length argv)%nat = match argv !! 1%nat with Some _ => true | None => false end.
Proof. destruct argv as [|a [|b argv]]; reflexivity. Qed.

Lemma nth_1_lookup (argv : list string) (a : string) :
  argv !! 1%nat = Some a -> nth 1 argv EmptyString = a.
Proof. destruct argv as [|x [|b argv]]; simpl; congruence. Qed.

Lemma resolve_project_path_arg (argv : list string) (w : world) (a : string) :
  argv !! 1%nat = Some a ->
  resolve_project_path argv w =
    (Ok (if posixpath.isabs a then a
         else posixpath.join (vfs.path_of_loc (w_cwd w)) a), w).
Proof.
  intros H. unfold resolve_project_path.
  rewrite lookup_1_length, H, (nth_1_lookup argv a H).
  destruct (posixpath.isabs a); reflexivity.
Qed.

Lemma resolve_project_path_no_arg (argv : list string) (w : world) :
  argv !! 1%nat = None ->
  resolve_project_path argv w = (Ok (vfs.path_of_loc (w_cwd w)), w).
Proof.
  intros H. unfold resolve_project_path. now rewrite lookup_1_length, H.
Qed.

(** The project path is always absolute, hence never empty. *)
Lemma project_path_abs (argv : list string) (w : world) :
  posixpath.isabs (project_path_of argv w) = true.
Proof.
  unfold project_path_of.
  destruct (argv !! 1%nat) as [a|] eqn:H.
  - rewrite (resolve_project_path_arg argv w a H).
    destruct (posixpath.isabs a) eqn:Ha; [exact Ha|].
    unfold posixpath.join. unfold posixpath.isabs in Ha. rewrite Ha.
    destruct (w_cwd w) as [|c l]; [reflexivity|].
    destruct (is_empty _ || endswith _ _); reflexivity.
  - rewrite (resolve_project_path_no_arg argv w H). apply path_of_loc_abs.
Qed.

Lemma project_path_nonempty (argv : list string) (w : world) :
  is_empty (project_path_of argv w) = false.
Proof.
  pose proof (project_path_abs argv w) as H.
  destruct (project_path_of argv w); [discriminate | reflexivity].
Qed.

Lemma project_path_of_cwd (argv : list string) (w w' : world) :
  w_cwd w' = w_cwd w -> project_path_of argv w' = project_path_of argv w.
Proof.
  intros H. unfold project_path_of.
  destruct (argv !! 1%nat) as [a|] eqn:H1.
  - now rewrite !(resolve_project_path_arg argv _ a H1), H.
  - now rewrite !(resolve_project_path_no_arg argv _ H1), H.
Qed.

End ProjectPath.

(** ** Keeping the starter sources *)

Section Preservation.

Lemma preserves_bind {A B} (I : world -> Prop) (m : M A) (k : A -> M B) :
  preserves I m -> (forall a, preserves I (k a)) -> preserves I (bind m k).
Proof.
  intros Hm Hk w r w' HI E. unfold bind in E.
  destruct (m w) as [[a|e] w1] eqn:Em.
  - exact (Hk a _ _ _ (Hm _ _ _ HI Em) E).
  - injection E as <- <-. exact (Hm _ _ _ HI Em).
Qed.

Lemma preserves_ext {A} (I : world -> Prop) (m m' : M A) :
  (forall w, m' w = m w) -> preserves I m -> preserves I m'.
Proof. intros He H w r w' HI E. rewrite He in E. exact (H _ _ _ HI E). Qed.

Lemma preserves_ret {A} (I : world -> Prop) (a : A) : preserves I (ret a).
Proof. intros w r w' HI [= <- <-]. exact HI. Qed.

Lemma preserves_run_stages (I : world -> Prop) (l : list (M unit)) :
  Forall (preserves I) l -> preserves I (run_stages l).
Proof.
  induction 1 as [|m l Hm _ IH]; cbn [run_stages].
  - apply preserves_ret.
  - apply preserves_bind; [exact Hm | intros _; exact IH].
Qed.

(** A regular file is kept by steps that write no file of its name. *)
Lemma steps_preserves_file {A} (W : loc -> Prop) (m : M A) (X n c : string) :
  simple_name n = true ->
  (forall l, W l -> last l <> Some n) ->
  steps W m ->
  preserves (fun w => read_file w (posixpath.join X n) = Some c) m.
Proof.
  intros Hn HW Hm w r w' HI E. destruct (Hm _ _ _ E) as [Hc Hev].
  unfold read_file in *. rewrite Hc.
  destruct (vfs.stat (w_fs w) (w_cwd w) (posixpath.join X n)) as [[c'|]|] eqn:Hs;
    try discriminate.
  now rewrite (stat_file_kept W _ _ Hev _ _ _ _ Hn HW Hs).
Qed.

Lemma named_avoids (names : list string) (n : string) :
  ~ In n names -> forall l, named names l -> last l <> Some n.
Proof. intros Hn l (c & Hl & Hc) E. rewrite Hl in E. injection E as ->. auto. Qed.

(** [ensure_file] leaves a regular file that is there alone. *)
Lemma ensure_file_preserves_own (X n body c : string) :
  preserves (fun w => read_file w (posixpath.join X n) = Some c)
    (ensure_file X n body).
Proof.
  intros w r w' HI. unfold ensure_file, bind. rewrite os_path_isfile_eq.
  assert (isfile_at w (posixpath.join X n) = true) as ->.
  { unfold isfile_at, read_file in *.
    destruct (vfs.stat _ _ _) as [[?|]|]; congruence. }
  cbn [negb]. intros [= <- <-]. exact HI.
Qed.

Lemma keep_source {A} (W : loc -> Prop) (m : M A) (P n c : string) :
  simple_name n = true ->
  (forall l, W l -> last l <> Some n) ->
  steps W m ->
  preserves (fun w => read_file w (posixpath.join (src_path P) n) = Some c) m.
Proof. intros Hn HW Hm. exact (steps_preserves_file W m (src_path P) n c Hn HW Hm). Qed.

Lemma no_write_avoids (n : string) (l : loc) : False -> last l <> Some n.
Proof. contradiction. Qed.

(** All of [main] but [ensure_file] on the file [n] itself keeps the
    source [n]. *)
Lemma stages_keep_source (P n c : string) :
  simple_name n = true ->
  ~ In n ["package.json"; "tsconfig.json"] ->
  let I := fun w => read_file w (posixpath.join (src_path P) n) = Some c in
  preserves I (ensure_project_dir P)
  /\ preserves I (announce P)
  /\ preserves I (generate_package_json P)
  /\ preserves I (generate_tsconfig_json P)
  /\ preserves I (ensure_src_dir P)
  /\ preserves I (report P).
Proof.
  intros Hn Hin I. unfold I. repeat split.
  - apply (keep_source (fun _ => False) _ P n c Hn (no_write_avoids n)).
    apply silent_steps, silent_ensure_project_dir.
  - apply (keep_source (fun _ => False) _ P n c Hn (no_write_avoids n)).
    apply steps_print.
  - apply (keep_source (named ["package.json"]) _ P n c Hn).
    + apply named_avoids. simpl in *. tauto.
    + apply silent_steps, silent_generate_package_json.
  - apply (keep_source (named ["tsconfig.json"]) _ P n c Hn).
    + apply named_avoids. simpl in *. tauto.
    + apply silent_steps, silent_generate_tsconfig_json.
  - apply (keep_source (fun _ => False) _ P n c Hn (no_write_avoids n)).
    apply silent_steps, silent_ensure_src_dir.
  - apply (keep_source (fun _ => False) _ P n c Hn (no_write_avoids n)).
    apply steps_report.
Qed.

Lemma not_in_configs_index : ~ In "index.ts" ["package.json"; "tsconfig.json"].
Proof. simpl. intros [H|[H|[]]]; discriminate. Qed.

Lemma not_in_configs_module : ~ In "module.ts" ["package.json"; "tsconfig.json"].
Proof. simpl. intros [H|[H|[]]]; discriminate. Qed.

Lemma main_preserves_index (argv : list string) (w0 : world) (c : string) :
  preserves (fun w => read_file w (index_path (project_path_of argv w0)) = Some c)
    (run_stages (main_stages (project_path_of argv w0))).
Proof.
  set (P := project_path_of argv w0). unfold index_path.
  destruct (stages_keep_source P "index.ts" c eq_refl not_in_configs_index)
    as (K0 & K1 & K2 & K3 & K4 & K5).
  apply preserves_run_stages. unfold main_stages.
  repeat (constructor; [assumption|]).
  constructor; [|constructor; [assumption | constructor]].
  eapply preserves_ext; [apply ensure_src_index_ts_eq|].
  apply preserves_bind; [assumption|]. intros _.
  apply preserves_bind; [apply ensure_file_preserves_own|]. intros _.
  apply (keep_source (named ["module.ts"]) _ P "index.ts" c eq_refl).
  - apply named_avoids. simpl. intros [H|[]]; discriminate.
  - apply silent_steps, silent_ensure_file.
Qed.

Lemma main_preserves_module (argv : list string) (w0 : world) (c : string) :
  preserves (fun w => read_file w (module_path (project_path_of argv w0)) = Some c)
    (run_stages (main_stages (project_path_of argv w0))).
Proof.
  set (P := project_path_of argv w0). unfold module_path.
  destruct (stages_keep_source P "module.ts" c eq_refl not_in_configs_module)
    as (K0 & K1 & K2 & K3 & K4 & K5).
  apply preserves_run_stages. unfold main_stages.
  repeat (constructor; [assumption|]).
  constructor; [|constructor; [assumption | constructor]].
  eapply preserves_ext; [apply ensure_src_index_ts_eq|].
  apply preserves_bind; [assumption|]. intros _.
  apply preserves_bind; [|intros _; apply ensure_file_preserves_own].
  apply (keep_source (named ["index.ts"]) _ P "module.ts" c eq_refl).
  - apply named_avoids. simpl. intros [H|[]]; discriminate.
  - apply silent_steps, silent_ensure_file.
Qed.

(** The content a source had before the run, seen from the directory the
    run worked in. *)
Lemma content_or_present (P n body c : string) (w w' : world) (dP : loc) :
  simple_name n = true ->
  scaffolded P w w' dP ->
  read_file w (posixpath.join (src_path P) n) = Some c ->
  content_or (w_fs w) ((dP ++ ["src"]) ++ [n]) body = c.
Proof.
  intros Hn (Hc & HdP & _ & _ & _ & _ & _ & Hev) Hr.
  apply (read_file_join_inv _ _ _ _ Hn) in Hr as (d & Hd & Hf).
  apply lookup_dir_src in Hd as (dP0 & HdP0 & -> & _).
  pose proof (lookup_dir_kept _ _ _ Hev _ _ _ HdP0) as K.
  rewrite <- Hc in K. assert (dP0 = dP) as -> by congruence.
  unfold content_or. now rewrite Hf.
Qed.

Lemma content_or_absent (P n body c0 : string) (w w' : world) (dP : loc) :
  simple_name n = true ->
  scaffolded P w w' dP ->
  is_Some (read_file w (posixpath.join (src_path P) c0)) ->
  simple_name c0 = true ->
  isfile_at w (posixpath.join (src_path P) n) = false ->
  content_or (w_fs w) ((dP ++ ["src"]) ++ [n]) body = body.
Proof.
  intros Hn (Hc & HdP & _ & _ & _ & _ & _ & Hev) [c Hr] Hc0 Hno.
  apply (read_file_join_inv _ _ _ _ Hc0) in Hr as (d & Hd & _).
  unfold isfile_at in Hno. rewrite (stat_join _ _ _ _ Hn), Hd in Hno.
  apply lookup_dir_src in Hd as (dP0 & HdP0 & -> & _).
  pose proof (lookup_dir_kept _ _ _ Hev _ _ _ HdP0) as K.
  rewrite <- Hc in K. assert (dP0 = dP) as -> by congruence.
  unfold content_or.
  destruct (w_fs w !! ((dP ++ ["src"]) ++ [n])) as [[?|]|]; congruence.
Qed.

End Preservation.

(** ** Sources that were not there *)

Section AbsentSources.

Import vfs.

Lemma well_formed_dir (fs : gmap loc node) (l : loc) (c : string) (n : node) :
  well_formed fs -> fs !! (l ++ [c]) = Some n -> node_at fs l = Some Dir.
Proof. intros Hwf. apply Hwf. Qed.

(** A path without names that is not empty is the root. *)
Lemma components_nil_abs (X : string) :
  components X = [] -> is_empty X = false -> posixpath.isabs X = true.
Proof.
  destruct X as [|a r]; [discriminate|]. intros H _.
  unfold posixpath.isabs. cbn [startswith].
  unfold components in H. cbn [split_sep] in H.
  destruct (Ascii.eqb a sep); [reflexivity|].
  destruct (split_sep r); discriminate.
Qed.

(** A path [stat] finds to be a directory is one [lookup_dir] finds. *)
Lemma stat_dir_lookup (fs : gmap loc node) (cwd : loc) (X : string) :
  stat fs cwd X = Ok Dir -> exists d, lookup_dir fs cwd X = Ok d.
Proof.
  unfold stat, namei, lookup_dir.
  destruct (has_nul X); [discriminate|].
  destruct (is_empty X) eqn:HX; [discriminate|].
  destruct (last (components X)) as [c|] eqn:Hl.
  - apply last_Some in Hl as [cs Hcs]. rewrite Hcs, walk_app, removelast_last.
    destruct (walk fs _ cs) as [p|e]; [|discriminate].
    destruct (check_dir fs p); [|discriminate].
    cbn [nd_last nd_parent nd_slash]. unfold check_dir.
    destruct (node_at fs (enter p c)) as [[s|]|]; try discriminate.
    + destruct (endswith sep X); discriminate.
    + eauto.
  - apply last_None in Hl. rewrite Hl, (components_nil_abs X Hl HX).
    intros _. cbn [walk]. eauto.
Qed.

(** A path that names a regular file names no directory later on. *)
Lemma stat_file_no_dir (W : loc -> Prop) (fs fs' : gmap loc node) (cwd : loc)
    (X s : string) (d : loc) :
  evolves_on W fs fs' ->
  stat fs cwd X = Ok (File s) -> lookup_dir fs' cwd X = Ok d -> False.
Proof.
  intros Hev. unfold stat, namei, lookup_dir.
  destruct (has_nul X); [discriminate|].
  destruct (is_empty X); [discriminate|].
  destruct (last (components X)) as [c|] eqn:Hl; [|discriminate].
  apply last_Some in Hl as [cs Hcs]. rewrite Hcs, walk_app, removelast_last.
  destruct (walk fs _ cs) as [p|e] eqn:Hw; [|discriminate].
  rewrite (walk_kept W fs fs' Hev _ _ _ Hw).
  destruct (check_dir fs p) as [u|] eqn:Hc; [|discriminate].
  rewrite (check_dir_kept W fs fs' Hev _ _ Hc).
  cbn [nd_last nd_parent nd_slash].
  destruct (node_at fs (enter p c)) as [[s'|]|] eqn:Hn; try discriminate.
  intros _. unfold check_dir.
  destruct (enter p c) as [|x l] eqn:He; [discriminate|].
  cbn [node_at] in *. destruct (file_not_dir W fs fs' Hev _ _ Hn) as [s2 Hs2].
  rewrite Hs2. discriminate.
Qed.

Lemma well_formed_prefix (fs : gmap loc node) (l l' : loc) :
  well_formed fs -> node_at fs (l ++ l') = Some Dir -> node_at fs l = Some Dir.
Proof.
  intros Hwf. induction l' as [|c l' IH] using rev_ind.
  - now rewrite app_nil_r.
  - rewrite app_assoc, node_at_snoc. intros H.
    apply IH. exact (Hwf _ _ _ H).
Qed.

Lemma walk_dot_free (fs : gmap loc node) (l d : loc) (cs : list string) :
  forallb (fun c => negb (is_dot c || is_dotdot c)) cs = true ->
  walk fs l cs = Ok d -> d = l ++ cs.
Proof.
  revert l. induction cs as [|c cs IH]; intros l; cbn [forallb walk].
  - intros _ [= <-]. now rewrite app_nil_r.
  - intros H. apply andb_true_iff in H as [Hc Hcs].
    apply negb_true_iff, orb_false_iff in Hc as [Hd Hdd].
    destruct (check_dir fs l); [|discriminate].
    unfold enter. rewrite Hd, Hdd. intros Hw.
    rewrite (IH _ Hcs Hw). now rewrite <- app_assoc.
Qed.

Lemma walk_well_formed (fs : gmap loc node) (l : loc) (cs : list string) :
  well_formed fs ->
  forallb (fun c => negb (is_dot c || is_dotdot c)) cs = true ->
  node_at fs (l ++ cs) = Some Dir ->
  walk fs l cs = Ok (l ++ cs).
Proof.
  intros Hwf. revert l. induction cs as [|c cs IH]; intros l; cbn [forallb walk].
  - intros _ _. now rewrite app_nil_r.
  - intros H Hn. apply andb_true_iff in H as [Hc Hcs].
    apply negb_true_iff, orb_false_iff in Hc as [Hd Hdd].
    pose proof (well_formed_prefix fs l (c :: cs) Hwf Hn) as Hl.
    apply (check_dir_Ok fs l tt) in Hl. rewrite Hl.
    unfold enter. rewrite Hd, Hdd.
    replace (l ++ c :: cs) with ((l ++ [c]) ++ cs) in * by now rewrite <- app_assoc.
    now apply IH.
Qed.

(** In a well-formed file system, a dot-free absolute path that names
    a directory later on names it already, once that directory exists. *)
Lemma lookup_dir_back (fs fs' : gmap loc node) (cwd : loc) (X : string) (d : loc) :
  well_formed fs -> dot_free X = true -> posixpath.isabs X = true ->
  lookup_dir fs' cwd X = Ok d -> node_at fs d = Some Dir ->
  lookup_dir fs cwd X = Ok d.
Proof.
  intros Hwf Hdf Habs. unfold lookup_dir. rewrite Habs.
  destruct (has_nul X); [discriminate|].
  destruct (walk fs' [] (components X)) as [p|e] eqn:Hw; [|discriminate].
  destruct (check_dir fs' p); [|discriminate]. intros [= ->] Hd.
  pose proof (walk_dot_free _ _ _ _ Hdf Hw) as E. cbn [app] in E. subst d.
  rewrite (walk_well_formed fs [] (components X) Hwf Hdf Hd). cbn [app].
  apply (check_dir_Ok fs _ tt) in Hd. now rewrite Hd.
Qed.

End AbsentSources.

(** ** Well-formed file systems *)

Section WellFormed.

Import vfs.

Lemma well_formed_empty : well_formed ∅.
Proof. intros l c n H. now rewrite lookup_empty in H. Qed.

Lemma snoc_ne_self {A} (l : list A) (c : A) : l ++ [c] <> l.
Proof.
  intros H. apply (f_equal (@length A)) in H.
  rewrite length_app in H. simpl in H. lia.
Qed.

(** A new node in an existing directory. *)
Lemma well_formed_insert (fs : gmap loc node) (l : loc) (c : string) (n : node) :
  well_formed fs -> node_at fs l = Some Dir -> fs !! (l ++ [c]) = None ->
  well_formed (<[l ++ [c] := n]> fs).
Proof.
  intros Hwf Hl Hnew l0 c0 n0 H.
  assert (K : forall l1, node_at fs l1 = Some Dir ->
                         node_at (<[l ++ [c] := n]> fs) l1 = Some Dir).
  { intros l1 H1. destruct l1 as [|x l1]; [reflexivity|]. cbn [node_at] in *.
    rewrite lookup_insert_ne; [exact H1|]. intros E. rewrite <- E in H1.
    congruence. }
  apply lookup_insert_Some in H as [[E _]|[_ H]].
  - apply app_inj_tail in E as [<- _]. now apply K.
  - apply K. exact (Hwf _ _ _ H).
Qed.

(** A regular file written over a regular file. *)
Lemma well_formed_overwrite (fs : gmap loc node) (l : loc) (s s' : string) :
  well_formed fs -> fs !! l = Some (File s) -> well_formed (<[l := File s']> fs).
Proof.
  intros Hwf Hl l0 c0 n0 H.
  assert (Hp : node_at fs l0 = Some Dir).
  { apply lookup_insert_Some in H as [[E _]|[_ H]].
    - rewrite E in Hl. exact (Hwf _ _ _ Hl).
    - exact (Hwf _ _ _ H). }
  destruct l0 as [|x l0]; [reflexivity|]. cbn [node_at] in *.
  rewrite lookup_insert_ne; [exact Hp | congruence].
Qed.

Lemma well_formed_home : well_formed home_fs.
Proof.
  unfold home_fs.
  apply (well_formed_insert _ ["home"] "u"); [|reflexivity|reflexivity].
  apply (well_formed_insert _ [] "home"); [|reflexivity|reflexivity].
  apply well_formed_empty.
Qed.


End WellFormed.

(** ** Running again on a scaffolded project *)

Section Rerun.

Lemma settled_ret (w : world) : settled (ret tt) w.
Proof. exists w. repeat split. Qed.

Lemma settled_bind (m k : M unit) (w : world) :
  settled m w ->
  (forall w', w_fs w' = w_fs w -> w_cwd w' = w_cwd w -> settled k w') ->
  settled (m ;; k) w.
Proof.
  intros (w1 & Hm & F1 & C1) Hk. destruct (Hk w1 F1 C1) as (w2 & Hk2 & F2 & C2).
  exists w2. unfold bind. rewrite Hm. repeat split; congruence.
Qed.

Lemma settled_ext (m m' : M unit) (w : world) :
  m' w = m w -> settled m w -> settled m' w.
Proof. intros E (w' & H & F & C). exists w'. rewrite E. auto. Qed.

Lemma settled_print (s : string) (w : world) : settled (print s) w.
Proof. eexists. repeat split. Qed.

Lemma settled_report (P : string) (w : world) : settled (report P) w.
Proof.
  unfold report.
  repeat (apply settled_bind; [apply settled_print | intros ? _ _]).
  apply settled_print.
Qed.

Lemma settled_put_same (X n s : string) (w : world) (d : loc) :
  lookup_dir (w_fs w) (w_cwd w) X = Ok d ->
  w_fs w !! (d ++ [n]) = Some (File s) ->
  settled (put_file X n s) w.
Proof.
  intros Hd Hf. unfold settled, put_file. rewrite Hd, Hf.
  eexists. split; [reflexivity|]. cbn [set_fs w_fs w_cwd].
  split; [now apply insert_id | reflexivity].
Qed.

Lemma settled_ensure_file (X n body c : string) (w : world) (d : loc) :
  simple_name n = true ->
  lookup_dir (w_fs w) (w_cwd w) X = Ok d ->
  w_fs w !! (d ++ [n]) = Some (File c) ->
  settled (ensure_file X n body) w.
Proof.
  intros Hn Hd Hf. unfold settled, ensure_file, bind. rewrite os_path_isfile_eq.
  unfold isfile_at. rewrite (stat_join _ _ _ _ Hn), Hd, Hf. apply settled_ret.
Qed.

Lemma settled_ensure_dir (X : string) (w : world) (d : loc) :
  is_empty X = false ->
  lookup_dir (w_fs w) (w_cwd w) X = Ok d ->
  settled (let* ex := os_path_exists X in
           if negb ex then os_makedirs X else ret tt) w.
Proof.
  intros HX Hd. unfold settled, bind. rewrite os_path_exists_eq.
  unfold exists_at. rewrite (lookup_dir_stat _ _ _ _ HX Hd). apply settled_ret.
Qed.

Lemma scaffolded_project_in (P : string) (w w' : world) (dP : loc) :
  scaffolded P w w' dP -> project_in P w' dP.
Proof.
  intros (_ & HdP & Hpkg & Hts & Hsrc & Hidx & Hmod & _).
  unfold project_in. eauto 10.
Qed.

Lemma project_in_same (P : string) (w w' : world) (dP : loc) :
  w_fs w' = w_fs w -> w_cwd w' = w_cwd w ->
  project_in P w dP -> project_in P w' dP.
Proof. intros F C. unfold project_in. now rewrite F, C. Qed.

Lemma stages_settled (P : string) (w : world) (dP : loc) :
  is_empty P = false ->
  project_in P w dP ->
  settled (run_stages (main_stages P)) w.
Proof.
  intros HP Hin. unfold main_stages. cbn [run_stages].
  apply settled_bind.
  { destruct Hin as (HdP & _). exact (settled_ensure_dir P w dP HP HdP). }
  intros w1 F1 C1. pose proof (project_in_same _ _ _ _ F1 C1 Hin) as Hin1.
  apply settled_bind; [apply settled_print|].
  intros w2 F2 C2. pose proof (project_in_same _ _ _ _ F2 C2 Hin1) as Hin2.
  apply settled_bind.
  { eapply settled_ext; [apply generate_package_json_eq|].
    destruct Hin2 as (HdP & Hpkg & _). exact (settled_put_same _ _ _ _ _ HdP Hpkg). }
  intros w3 F3 C3. pose proof (project_in_same _ _ _ _ F3 C3 Hin2) as Hin3.
  apply settled_bind.
  { eapply settled_ext; [apply generate_tsconfig_json_eq|].
    destruct Hin3 as (HdP & _ & Hts & _). exact (settled_put_same _ _ _ _ _ HdP Hts). }
  intros w4 F4 C4. pose proof (project_in_same _ _ _ _ F4 C4 Hin3) as Hin4.
  apply settled_bind.
  { eapply settled_ext; [apply ensure_src_index_ts_eq|].
    apply settled_bind.
    { destruct Hin4 as (HdP & _ & _ & Hsrc & _).
      apply (settled_ensure_dir (src_path P) w4 (dP ++ ["src"])).
      - apply (is_empty_join _ _ simple_src).
      - exact (lookup_dir_src_Ok _ _ _ _ HdP Hsrc). }
    intros wa Fa Ca. pose proof (project_in_same _ _ _ _ Fa Ca Hin4) as Hina.
    apply settled_bind.
    { destruct Hina as (HdP & _ & _ & Hsrc & [ci Hidx] & _).
      exact (settled_ensure_file _ _ _ _ _ _ simple_index_ts
               (lookup_dir_src_Ok _ _ _ _ HdP Hsrc) Hidx). }
    intros wb Fb Cb. pose proof (project_in_same _ _ _ _ Fb Cb Hina) as Hinb.
    destruct Hinb as (HdP & _ & _ & Hsrc & _ & [cm Hmod]).
    exact (settled_ensure_file _ _ _ _ _ _ simple_module_ts
             (lookup_dir_src_Ok _ _ _ _ HdP Hsrc) Hmod). }
  intros w5 F5 C5.
  apply settled_bind; [apply settled_report|].
  intros w6 _ _. apply settled_ret.
Qed.

(** A second run on what a first one left ends well and changes no
    file. *)
Lemma main_rerun (argv : list string) (w w1 : world) (u : unit) :
  main argv w = (Ok u, w1) ->
  exists w2, main argv w1 = (Ok tt, w2)
    /\ w_fs w2 = w_fs w1 /\ w_cwd w2 = w_cwd w1.
Proof.
  intros H. destruct (main_Ok _ _ _ _ H) as [dP Hs].
  pose proof Hs as (Hc & _).
  rewrite main_stages_eq, (project_path_of_cwd argv w w1 Hc).
  apply (stages_settled _ _ dP).
  - apply project_path_nonempty.
  - exact (scaffolded_project_in _ _ _ _ Hs).
Qed.

End Rerun.

(** ** Reading back what [json.dump] wrote *)

Section RoundTrip.

Import json_encoder json_decoder.

Lemma json_nested_ind (P : json -> Prop) :
  (forall s, P (JStr s)) ->
  (forall b, P (JBool b)) ->
  (forall l, Forall P l -> P (JList l)) ->
  (forall d, Forall (fun kv => P (snd kv)) d -> P (JDict d)) ->
  forall o, P o.
Proof.
  intros Hs Hb Hl Hd. fix IH 1. intros [s|b|l|d].
  - apply Hs.
  - apply Hb.
  - apply Hl. induction l as [|x l IHl]; constructor; [apply IH | exact IHl].
  - apply Hd. induction d as [|[k v] d IHd]; constructor; [apply IH | exact IHd].
Qed.

Lemma iterencode_list (v : json) (vs : list json) (level : nat) :
  iterencode (JList (v :: vs)) level
  = "[" +:+ newline_indent (S level) +:+ iterencode v (S level)
    +:+ list_items (fun x => iterencode x (S level))
          (String "," (newline_indent (S level))) vs
    +:+ newline_indent level +:+ "]".
Proof. reflexivity. Qed.

Lemma iterencode_dict (k : string) (v : json) (kvs : list (string * json)) (level : nat) :
  iterencode (JDict ((k, v) :: kvs)) level
  = "{" +:+ newline_indent (S level)
    +:+ encode_basestring_ascii k +:+ ": " +:+ iterencode v (S level)
    +:+ dict_items (fun x => iterencode x (S level))
          (String "," (newline_indent (S level))) kvs
    +:+ newline_indent level +:+ "}".
Proof. reflexivity. Qed.

Lemma string_body_escape_char (c : ascii) (tail : string) :
  string_body (escape_char c +:+ tail)
  = match string_body tail with
    | Some (body, rest) => Some (String c body, rest)
    | None => None
    end.
Proof.
  destruct c as [b0 b1 b2 b3 b4 b5 b6 b7].
  destruct b0, b1, b2, b3, b4, b5, b6, b7; reflexivity.
Qed.

Lemma string_body_escape (s rest : string) :
  string_body (escape s +:+ (dq +:+ rest)) = Some (s, rest).
Proof.
  induction s as [|c s IH].
  - reflexivity.
  - cbn [escape]. rewrite append_assoc, string_body_escape_char, IH. reflexivity.
Qed.

Lemma string_body_encoded (s rest : string) :
  exists r, encode_basestring_ascii s +:+ rest = String "034"%char r
    /\ string_body r = Some (s, rest).
Proof.
  exists (escape s +:+ (dq +:+ rest)). split; [|apply string_body_escape].
  unfold encode_basestring_ascii. rewrite !append_assoc. reflexivity.
Qed.

Lemma skip_ws_spaces (n : nat) (X : string) : skip_ws (spaces n +:+ X) = skip_ws X.
Proof. induction n as [|n IH]; [reflexivity | exact IH]. Qed.

Lemma skip_ws_newline_indent (level : nat) (X : string) :
  skip_ws (newline_indent level +:+ X) = skip_ws X.
Proof.
  unfold newline_indent. rewrite append_assoc.
  change (nl +:+ (spaces (2 * level) +:+ X))
    with (String "010"%char (spaces (2 * level) +:+ X)).
  cbn [skip_ws]. change (is_ws "010"%char) with true. cbn iota.
  apply skip_ws_spaces.
Qed.

Lemma skip_ws_idem (s : string) : skip_ws (skip_ws s) = skip_ws s.
Proof.
  induction s as [|c s IH]; [reflexivity|]. cbn [skip_ws].
  destruct (is_ws c) eqn:E; [exact IH|]. cbn [skip_ws]. now rewrite E.
Qed.

Lemma value_skip_ws (fuel : nat) (s : string) :
  value fuel (skip_ws s) = value fuel s.
Proof. destruct fuel; [reflexivity|]. cbn [value]. now rewrite skip_ws_idem. Qed.

Lemma iterencode_opens (o : json) (level : nat) (rest : string) :
  opens_value (iterencode o level +:+ rest).
Proof.
  destruct o as [s|[|]|[|v vs]|[|[k v] kvs]].
  - change (iterencode (JStr s) level) with (encode_basestring_ascii s).
    destruct (string_body_encoded s rest) as (r & -> & _).
    eexists _, _. repeat split.
  - eexists _, _. repeat split.
  - eexists _, _. repeat split.
  - eexists _, _. repeat split.
  - rewrite iterencode_list. eexists _, _. repeat split.
  - eexists _, _. repeat split.
  - rewrite iterencode_dict. eexists _, _. repeat split.
Qed.

Lemma encoded_opens (k rest : string) :
  opens_value (encode_basestring_ascii k +:+ rest).
Proof.
  destruct (string_body_encoded k rest) as (r & -> & _).
  eexists _, _. repeat split.
Qed.

Lemma append_char (c : ascii) (X : string) :
  String c EmptyString +:+ X = String c X.
Proof. reflexivity. Qed.

Lemma skip_ws_opens (s : string) : opens_value s -> skip_ws s = s.
Proof. intros (c & r & -> & Hws & _). cbn [skip_ws]. now rewrite Hws. Qed.

Lemma expect_opens (s : string) :
  opens_value s -> expect "]" s = None /\ expect "}" s = None.
Proof. intros (c & r & -> & _ & H1 & H2). cbn [expect]. now rewrite H1, H2. Qed.

Lemma value_quote (f : nat) (r : string) :
  value (S f) (String "034"%char r)
  = match string_body r with
    | Some (x, rest) => Some (JStr x, rest)
    | None => None
    end.
Proof. reflexivity. Qed.

Lemma value_bracket (f : nat) (r : string) :
  value (S f) (String "["%char r)
  = match expect "]" (skip_ws r) with
    | Some rest => Some (JList [], rest)
    | None =>
        match elements f r with
        | Some (l, rest) => Some (JList l, rest)
        | None => None
        end
    end.
Proof. reflexivity. Qed.

Lemma value_brace (f : nat) (r : string) :
  value (S f) (String "{"%char r)
  = match expect "}" (skip_ws r) with
    | Some rest => Some (JDict [], rest)
    | None =>
        match members f r with
        | Some (d, rest) => Some (JDict d, rest)
        | None => None
        end
    end.
Proof. reflexivity. Qed.

Lemma value_indented (f level : nat) (X : string) :
  opens_value X -> value f (newline_indent level +:+ X) = value f X.
Proof.
  intros HX. rewrite <- value_skip_ws, skip_ws_newline_indent.
  now rewrite (skip_ws_opens X HX).
Qed.

Lemma elements_items (L l0 : nat) (vs : list json) :
  forall (v : json) (f : nat) (rest : string),
    Forall reads_back (v :: vs) ->
    (list_sum (map (fun x => S (weight x)) (v :: vs)) < f)%nat ->
    elements f
      (newline_indent L +:+ iterencode v L
       +:+ list_items (fun x => iterencode x L) (String "," (newline_indent L)) vs
       +:+ newline_indent l0 +:+ "]" +:+ rest)
    = Some (v :: vs, rest).
Proof.
  induction vs as [|x vs IH]; intros v f rest Hall Hf;
    apply Forall_cons in Hall as [Hv Hvs];
    (destruct f as [|f]; [cbn in Hf; lia|]);
    unfold list_sum in *; cbn [map fold_right] in Hf; cbn [elements];
    rewrite (value_indented f L _ (iterencode_opens v L _));
    (rewrite (Hv L _ f) by lia).
  - cbn [list_items append]. rewrite skip_ws_newline_indent. reflexivity.
  - cbn [list_items]. rewrite !append_assoc. cbn [append skip_ws].
    change (is_ws ","%char) with false. cbn iota.
    change (Ascii.eqb "," "]") with false. change (Ascii.eqb "," ",") with true.
    cbn iota.
    assert (Hf' : (fold_right Nat.add 0%nat (map (fun x => S (weight x)) (x :: vs)) < f)%nat)
      by (cbn [map fold_right]; lia).
    pose proof (IH x f rest Hvs Hf') as E. cbn [append] in E. rewrite E.
    reflexivity.
Qed.

Lemma expect_quote (r : string) :
  expect "034" (skip_ws (String "034"%char r)) = Some r.
Proof. reflexivity. Qed.

Lemma expect_colon (X : string) :
  expect ":" (skip_ws (": " +:+ X)) = Some (String " "%char X).
Proof. reflexivity. Qed.

Lemma value_space (f : nat) (X : string) :
  opens_value X -> value f (String " "%char X) = value f X.
Proof.
  intros HX. rewrite <- value_skip_ws.
  change (skip_ws (String " "%char X)) with (skip_ws X).
  now rewrite (skip_ws_opens X HX).
Qed.

Lemma members_step (L f : nat) (k : string) (v : json) (X : string) :
  reads_back v -> (weight v < f)%nat ->
  members (S f)
    (newline_indent L +:+ encode_basestring_ascii k +:+ ": " +:+ iterencode v L +:+ X)
  = match skip_ws X with
    | String c r2 =>
        if Ascii.eqb c "}" then Some ([(k, v)], r2)
        else if Ascii.eqb c "," then
          match members f r2 with
          | Some (d, rest') => Some ((k, v) :: d, rest')
          | None => None
          end
        else None
    | EmptyString => None
    end.
Proof.
  intros Hv Hf. cbn [members]. rewrite skip_ws_newline_indent.
  destruct (string_body_encoded k (": " +:+ iterencode v L +:+ X)) as (r & -> & Hr).
  rewrite expect_quote, Hr, expect_colon.
  rewrite (value_space f _ (iterencode_opens v L X)).
  now rewrite (Hv L X f Hf).
Qed.

Lemma members_items (L l0 : nat) (kvs : list (string * json)) :
  forall (k : string) (v : json) (f : nat) (rest : string),
    Forall (fun kv => reads_back (snd kv)) ((k, v) :: kvs) ->
    (list_sum (map (fun kv => S (weight (snd kv))) ((k, v) :: kvs)) < f)%nat ->
    members f
      (newline_indent L +:+ encode_basestring_ascii k +:+ ": " +:+ iterencode v L
       +:+ dict_items (fun x => iterencode x L) (String "," (newline_indent L)) kvs
       +:+ newline_indent l0 +:+ "}" +:+ rest)
    = Some ((k, v) :: kvs, rest).
Proof.
  induction kvs as [|[k' x] kvs IH]; intros k v f rest Hall Hf;
    apply Forall_cons in Hall as [Hv Hvs]; cbn [snd] in Hv;
    (destruct f as [|f]; [cbn in Hf; lia|]);
    unfold list_sum in *; cbn [map fold_right snd] in Hf;
    (rewrite (members_step L f k v _ Hv) by lia).
  - cbn [dict_items append]. rewrite skip_ws_newline_indent. reflexivity.
  - cbn [dict_items]. rewrite !append_assoc. cbn [append skip_ws].
    change (is_ws ","%char) with false. cbn iota.
    change (Ascii.eqb "," "}") with false. change (Ascii.eqb "," ",") with true.
    cbn iota.
    assert (Hf' : (fold_right Nat.add 0%nat
                     (map (fun kv => S (weight (snd kv))) ((k', x) :: kvs)) < f)%nat)
      by (cbn [map fold_right snd]; lia).
    pose proof (IH k' x f rest Hvs Hf') as E. cbn [append] in E. rewrite E.
    reflexivity.
Qed.

(** Reading [iterencode o] gives [o] back, whatever follows it. *)
Lemma value_iterencode (o : json) : reads_back o.
Proof.
  induction o as [s|b|l IH|d IH] using json_nested_ind;
    intros level rest fuel Hf; (destruct fuel as [|f]; [lia|]).
  - change (iterencode (JStr s) level) with (encode_basestring_ascii s).
    destruct (string_body_encoded s rest) as (r & -> & Hr).
    now rewrite value_quote, Hr.
  - destruct b; reflexivity.
  - destruct l as [|v vs]; [reflexivity|].
    rewrite iterencode_list, !append_assoc, (append_char "[").
    rewrite value_bracket, skip_ws_newline_indent.
    rewrite (skip_ws_opens _ (iterencode_opens v (S level) _)).
    rewrite (proj1 (expect_opens _ (iterencode_opens v (S level) _))).
    rewrite (elements_items (S level) level vs v f rest IH); [reflexivity|].
    cbn [weight] in Hf. lia.
  - destruct d as [|[k v] kvs]; [reflexivity|].
    rewrite iterencode_dict, !append_assoc, (append_char "{").
    rewrite value_brace, skip_ws_newline_indent.
    rewrite (skip_ws_opens _ (encoded_opens k _)).
    rewrite (proj2 (expect_opens _ (encoded_opens k _))).
    rewrite (members_items (S level) level kvs k v f rest IH); [reflexivity|].
    cbn [weight] in Hf. lia.
Qed.

Lemma length_append (a b : string) :
  String.length (a +:+ b) = (String.length a + String.length b)%nat.
Proof. induction a as [|c a IH]; cbn; [reflexivity | now rewrite IH]. Qed.

Lemma length_newline_indent (level : nat) :
  (1 <= String.length (newline_indent level))%nat.
Proof. unfold newline_indent. rewrite length_append. cbn. lia. Qed.

Lemma length_list_items (L : nat) (vs : list json) :
  Forall (fun o => forall level, (weight o <= String.length (iterencode o level))%nat) vs ->
  (list_sum (map (fun x => S (weight x)) vs)
   <= String.length (list_items (fun x => iterencode x L)
                       (String "," (newline_indent L)) vs))%nat.
Proof.
  induction 1 as [|x vs Hx _ IH]; unfold list_sum in *; cbn [map fold_right list_items].
  - cbn. lia.
  - rewrite !length_append. specialize (Hx L). cbn [String.length]. lia.
Qed.

Lemma length_dict_items (L : nat) (kvs : list (string * json)) :
  Forall (fun kv => forall level,
            (weight (snd kv) <= String.length (iterencode (snd kv) level))%nat) kvs ->
  (list_sum (map (fun kv => S (weight (snd kv))) kvs)
   <= String.length (dict_items (fun x => iterencode x L)
                       (String "," (newline_indent L)) kvs))%nat.
Proof.
  induction 1 as [|[k x] kvs Hx _ IH]; unfold list_sum in *;
    cbn [map fold_right dict_items snd] in *.
  - cbn. lia.
  - rewrite !length_append. specialize (Hx L). cbn [String.length]. lia.
Qed.

Lemma weight_le_length (o : json) (level : nat) :
  (weight o <= String.length (iterencode o level))%nat.
Proof.
  revert level. induction o as [s|b|l IH|d IH] using json_nested_ind; intros level.
  - change (iterencode (JStr s) level) with (dq +:+ escape s +:+ dq).
    rewrite !length_append. cbn. lia.
  - destruct b; cbn; lia.
  - destruct l as [|v vs]; [cbn; lia|].
    apply Forall_cons in IH as [Hv Hvs].
    rewrite iterencode_list, !length_append. cbn [weight map].
    pose proof (length_list_items (S level) vs Hvs).
    pose proof (length_newline_indent (S level)).
    specialize (Hv (S level)). unfold list_sum in *. cbn [fold_right String.length]. lia.
  - destruct d as [|[k v] kvs]; [cbn; lia|].
    apply Forall_cons in IH as [Hv Hvs]. cbn [snd] in Hv.
    rewrite iterencode_dict, !length_append. cbn [weight map snd].
    pose proof (length_dict_items (S level) kvs Hvs).
    pose proof (length_newline_indent (S level)).
    specialize (Hv (S level)). unfold list_sum in *. cbn [fold_right String.length]. lia.
Qed.

(** Every document [json.dump] writes reads back as itself. *)
Lemma loads_dumps (o : json) : loads (dumps o) = Some o.
Proof.
  unfold loads, dumps.
  pose proof (weight_le_length o 0) as Hw.
  pose proof (value_iterencode o 0%nat EmptyString
                (S (String.length (iterencode o 0)))) as H.
  rewrite append_empty_r in H. rewrite H by lia. reflexivity.
Qed.

End RoundTrip.

(** ** The name of the manifest *)

Section ManifestName.

Import vfs.

Lemma rfind_none (c : ascii) (s : string) : has_char c s = false -> rfind c s = -1.
Proof.
  induction s as [|a r IH]; cbn [has_char rfind]; [reflexivity|].
  intros H. apply orb_false_iff in H as [Ha Hr]. rewrite (IH Hr), Ha. reflexivity.
Qed.

Lemma rfind_some (c : ascii) (s : string) : has_char c s = true -> 0 <= rfind c s.
Proof.
  induction s as [|a r IH]; cbn [has_char rfind]; [discriminate|].
  intros H. destruct (has_char c r) eqn:Hr.
  - specialize (IH eq_refl). destruct (0 <=? rfind c r) eqn:E; [lia|].
    apply Z.leb_gt in E. lia.
  - rewrite orb_false_r in H. rewrite (rfind_none c r Hr), H. reflexivity.
Qed.

Lemma split_sep_has_sep (r : string) :
  has_char sep r = true -> exists h x t, split_sep r = h :: x :: t.
Proof.
  induction r as [|a r IH]; cbn [has_char split_sep]; [discriminate|].
  destruct (Ascii.eqb a sep) eqn:Ha.
  - intros _. destruct (split_sep r) as [|h t] eqn:E;
      [now apply split_sep_nonempty in E | eauto].
  - cbn [orb]. intros Hr. destruct (IH Hr) as (h & x & t & ->). eauto.
Qed.

(** [basename] is the last piece of the path, empty when the path ends
    in a separator. *)
Lemma basename_last (p : string) :
  last (split_sep p) = Some (posixpath.basename p).
Proof.
  unfold posixpath.basename. induction p as [|a r IH]; [reflexivity|].
  cbn [rfind split_sep]. destruct (has_char sep r) eqn:Hr.
  - pose proof (rfind_some sep r Hr) as Hk.
    destruct (0 <=? rfind sep r) eqn:E; [|apply Z.leb_gt in E; lia].
    replace (Z.to_nat (rfind sep r + 1 + 1)) with (S (Z.to_nat (rfind sep r + 1)))
      by lia.
    cbn [str_drop]. rewrite <- IH.
    destruct (split_sep_has_sep r Hr) as (h & x & t & ->).
    destruct (Ascii.eqb a sep); reflexivity.
  - rewrite (rfind_none sep r Hr), (split_sep_no_sep r Hr). cbn.
    destruct (Ascii.eqb a sep); reflexivity.
Qed.

Lemma last_filter_keep {A} (f : A -> bool) (l : list A) (x : A) :
  last l = Some x -> f x = true -> last (List.filter f l) = Some x.
Proof.
  intros Hl Hx. apply last_Some in Hl as [l' ->].
  rewrite List.filter_app. cbn [List.filter]. rewrite Hx. apply last_snoc.
Qed.

Lemma split_last_empty (p : string) :
  last (split_sep p) = Some EmptyString -> is_empty p = false ->
  endswith sep p = true.
Proof.
  induction p as [|a r IH]; [discriminate|]. intros H _.
  cbn [split_sep] in H. cbn [endswith].
  destruct (Ascii.eqb a sep) eqn:Ha.
  - destruct r as [|b r']; [reflexivity|]. apply IH; [|reflexivity].
    destruct (split_sep (String b r')) as [|h t] eqn:E;
      [now apply split_sep_nonempty in E | exact H].
  - destruct (split_sep r) as [|h [|x t]] eqn:E.
    + now apply split_sep_nonempty in E.
    + discriminate.
    + destruct r as [|b r']; [discriminate|]. apply IH; [exact H | reflexivity].
Qed.

(** Away from a trailing separator, [basename] is the final segment. *)
Lemma basename_final_segment (p : string) :
  endswith sep p = false -> posixpath.basename p = final_segment p.
Proof.
  intros He. unfold final_segment, components.
  pose proof (basename_last p) as Hl.
  destruct (is_empty (posixpath.basename p)) eqn:Hb.
  - apply is_empty_true in Hb. rewrite Hb in *.
    destruct (is_empty p) eqn:Hp.
    + apply is_empty_true in Hp. subst p. reflexivity.
    + rewrite (split_last_empty p Hl Hp) in He. discriminate.
  - rewrite (last_filter_keep _ _ _ Hl); [reflexivity|]. now rewrite Hb.
Qed.

Lemma basename_join (X n : string) :
  simple_name n = true -> posixpath.basename (posixpath.join X n) = n.
Proof.
  intros Hn. rewrite (basename_final_segment _ (endswith_join X n Hn)).
  unfold final_segment. now rewrite (components_join X n Hn), last_snoc.
Qed.

Lemma manifest_name (P : string) :
  json_get "name" (package_data P) = Some (JStr (posixpath.basename P)).
Proof. reflexivity. Qed.

Lemma package_data_of_spec (P : string) :
  package_data P = manifest_of_spec (posixpath.basename P).
Proof. reflexivity. Qed.

Lemma tsconfig_data_of_spec : tsconfig_data = compiler_configuration_of_spec.
Proof. reflexivity. Qed.

Lemma index_ts_body_of_spec : index_ts_body = entry_source_of_spec.
Proof. reflexivity. Qed.

Lemma module_ts_body_of_spec : module_ts_body = sibling_module_of_spec.
Proof. reflexivity. Qed.

(** The manifest a run that ends well leaves names the project after
    [basename]; that is the final segment of the project path unless
    the path ends in a separator. *)
Lemma manifest_names_final_segment (argv : list string) (w w' : world) (u : unit) :
  main argv w = (Ok u, w') ->
  let P := project_path_of argv w in
  exists text doc,
    read_file w' (package_json_path P) = Some text
    /\ json_decoder.loads text = Some doc
    /\ json_get "name" doc = Some (JStr (posixpath.basename P))
    /\ (endswith sep P = false ->
        json_get "name" doc = Some (JStr (final_segment P))).
Proof.
  intros H P. destruct (main_Ok _ _ _ _ H) as [dP Hs]. fold P in Hs.
  destruct (scaffolded_paths _ _ _ _ Hs) as (Hpkg & _).
  exists (json_encoder.dumps (package_data P)), (package_data P).
  split; [exact Hpkg|]. split; [apply loads_dumps|].
  split; [reflexivity|]. intros He.
  now rewrite <- (basename_final_segment P He).
Qed.

End ManifestName.

(** ** Stage by stage, forward *)

Section Forward.

Lemma bind_Ok_eq {A B} (m : M A) (k : A -> M B) (w w1 : world) (a : A) :
  m w = (Ok a, w1) -> bind m k w = k a w1.
Proof. intros H. unfold bind. now rewrite H. Qed.

Lemma bind_Raise_eq {A B} (m : M A) (k : A -> M B) (w w1 : world) (e : exn) :
  m w = (Raise e, w1) -> bind m k w = (Raise e, w1).
Proof. intros H. unfold bind. now rewrite H. Qed.

Lemma snoc_ne {A} (l : list A) (a b : A) : a <> b -> l ++ [a] <> l ++ [b].
Proof. intros Hab E. apply app_inj_tail in E as [_ E]. contradiction. Qed.

Lemma put_file_run (X n s : string) (w : world) (d : loc) :
  lookup_dir (w_fs w) (w_cwd w) X = Ok d ->
  w_fs w !! (d ++ [n]) <> Some Dir ->
  put_file X n s w = (Ok tt, set_fs (<[d ++ [n] := File s]> (w_fs w)) w).
Proof.
  intros Hd Hn. unfold put_file. rewrite Hd.
  destruct (w_fs w !! (d ++ [n])) as [[c|]|]; [reflexivity | contradiction | reflexivity].
Qed.

Lemma ensure_project_dir_there (P : string) (w : world) (d : loc) :
  is_empty P = false ->
  lookup_dir (w_fs w) (w_cwd w) P = Ok d ->
  ensure_project_dir P w = (Ok tt, w).
Proof.
  intros HP Hd. unfold ensure_project_dir, bind. rewrite os_path_exists_eq.
  unfold exists_at. now rewrite (lookup_dir_stat _ _ _ _ HP Hd).
Qed.

Lemma not_dir_of_isdir (w : world) (X n : string) (d : loc) :
  simple_name n = true ->
  lookup_dir (w_fs w) (w_cwd w) X = Ok d ->
  isdir_at w (posixpath.join X n) = false ->
  w_fs w !! (d ++ [n]) <> Some Dir.
Proof.
  intros Hn Hd. unfold isdir_at. rewrite (stat_join _ _ _ _ Hn), Hd.
  intros H E. rewrite E in H. discriminate.
Qed.

Lemma lookup_dir_insert_file (fs : gmap loc node) (cwd : loc) (X : string)
    (d l : loc) (s : string) :
  lookup_dir fs cwd X = Ok d -> fs !! l <> Some Dir ->
  lookup_dir (<[l := File s]> fs) cwd X = Ok d.
Proof.
  intros Hd Hl. eapply (lookup_dir_kept (fun _ => True)); [|exact Hd].
  now apply evolves_on_insert_file.
Qed.

Lemma lookup_dir_src_file (fs : gmap loc node) (cwd : loc) (P c : string) (dP : loc) :
  lookup_dir fs cwd P = Ok dP ->
  fs !! (dP ++ ["src"]) = Some (File c) ->
  lookup_dir fs cwd (src_path P) = Raise NotADirectoryError.
Proof.
  intros HdP Hf. unfold src_path.
  rewrite (lookup_dir_join _ _ _ _ simple_src), HdP.
  unfold vfs.check_dir. now rewrite node_at_snoc, Hf.
Qed.

(** With a regular file in the place of [src], the sources stage
    fails on opening [index.ts] and changes nothing. *)
Lemma ensure_src_on_file (P c : string) (w : world) (dP : loc) :
  lookup_dir (w_fs w) (w_cwd w) P = Ok dP ->
  w_fs w !! (dP ++ ["src"]) = Some (File c) ->
  ensure_src_index_ts P w = (Raise NotADirectoryError, w).
Proof.
  intros HdP Hf. rewrite ensure_src_index_ts_eq.
  pose proof (lookup_dir_src_file _ _ _ _ _ HdP Hf) as Hsrc.
  assert (E1 : ensure_src_dir P w = (Ok tt, w)).
  { unfold ensure_src_dir, bind. rewrite os_path_exists_eq.
    unfold exists_at, src_path.
    now rewrite (stat_join _ _ _ _ simple_src), HdP, Hf. }
  rewrite (bind_Ok_eq _ _ _ _ _ E1).
  apply bind_Raise_eq.
  unfold ensure_index_ts, ensure_file, bind. rewrite os_path_isfile_eq.
  unfold isfile_at. rewrite (stat_join _ _ _ _ simple_index_ts), Hsrc.
  cbn [negb]. unfold put_file. now rewrite Hsrc.
Qed.

End Forward.

(** ** Errors *)

Section Propagation.

Lemma run_stages_abort (l : list (M unit)) :
  forall (k : nat) (m : M unit) (w w1 w2 : world) (e : exn),
    l !! k = Some m ->
    run_stages (take k l) w = (Ok tt, w1) ->
    m w1 = (Raise e, w2) ->
    run_stages l w = (Raise e, w2).
Proof.
  induction l as [|s l IH]; intros [|k] m w w1 w2 e Hl Hr Hm; try discriminate.
  - cbn in Hl, Hr. injection Hl as ->. injection Hr as <-.
    cbn [run_stages]. now apply bind_Raise_eq.
  - cbn in Hl. cbn [take] in Hr.
    apply run_stages_cons_Ok in Hr as (w0 & Hs & Hr).
    cbn [run_stages]. rewrite (bind_Ok_eq _ _ _ _ _ Hs).
    exact (IH k m w0 w1 w2 e Hl Hr Hm).
Qed.

Lemma run_stages_failed (l : list (M unit)) :
  forall (w w' : world) (e : exn),
    run_stages l w = (Raise e, w') ->
    exists (k : nat) (m : M unit) (w1 : world),
      l !! k = Some m
      /\ run_stages (take k l) w = (Ok tt, w1)
      /\ m w1 = (Raise e, w').
Proof.
  induction l as [|s l IH]; intros w w' e H; [discriminate|].
  cbn [run_stages] in H. unfold bind in H.
  destruct (s w) as [[[]|e0] w0] eqn:Hs.
  - destruct (IH _ _ _ H) as (k & m & w1 & Hl & Hr & Hm).
    exists (S k), m, w1. split; [exact Hl|]. split; [|exact Hm].
    cbn [take run_stages]. now rewrite (bind_Ok_eq _ _ _ _ _ Hs).
  - injection H as <- <-. exists 0%nat, s, w. repeat split. exact Hs.
Qed.

(** What the stages that ran so far keep, the failing one keeps too. *)
Lemma stages_keep (I : world -> Prop) (l : list (M unit)) :
  Forall (preserves I) l ->
  forall (k : nat) (m : M unit) (w w1 w2 : world) (r : result unit),
    l !! k = Some m ->
    run_stages (take k l) w = (Ok tt, w1) ->
    m w1 = (r, w2) ->
    I w -> I w2.
Proof.
  intros Hall k m w w1 w2 r Hl Hr Hm HI.
  assert (Hk : preserves I (run_stages (take k l)))
    by (apply preserves_run_stages, Forall_take, Hall).
  pose proof (Hk _ _ _ HI Hr) as HI1.
  rewrite Forall_lookup in Hall. exact (Hall k m Hl _ _ _ HI1 Hm).
Qed.

Lemma silent_ensure_src (P : string) :
  silent (named ["index.ts"; "module.ts"]) (ensure_src_index_ts P).
Proof.
  eapply silent_ext; [apply ensure_src_index_ts_eq|].
  apply silent_bind; [|intros _; apply silent_bind; [|intros _]].
  - apply silent_ensure_src_dir.
  - eapply silent_mono; [|apply silent_ensure_file]. named_sub.
  - eapply silent_mono; [|apply silent_ensure_file]. named_sub.
Qed.

Lemma config_written (P n s : string) (w w' : world) (u : unit) :
  simple_name n = true ->
  put_file P n s w = (Ok u, w') ->
  read_file w' (posixpath.join P n) = Some s.
Proof.
  intros Hn H. apply put_file_Ok in H as (d & Hd & Hnd & ->).
  apply (read_file_join _ _ _ _ d Hn).
  - cbn [set_fs w_fs w_cwd]. now apply lookup_dir_insert_file.
  - cbn [set_fs w_fs]. apply lookup_insert_eq.
Qed.

Lemma later_stages_keep_config (P n s : string) :
  simple_name n = true ->
  ~ In n ["index.ts"; "module.ts"] ->
  let I := fun w => read_file w (posixpath.join P n) = Some s in
  preserves I (ensure_src_index_ts P) /\ preserves I (report P).
Proof.
  intros Hn Hin I. split.
  - apply (steps_preserves_file (named ["index.ts"; "module.ts"]) _ P n s Hn).
    + now apply named_avoids.
    + apply silent_steps, silent_ensure_src.
  - apply (steps_preserves_file (fun _ => False) _ P n s Hn (no_write_avoids n)).
    apply steps_report.
Qed.

End Propagation.

(** ** A new project in an empty working directory *)

Section Canonical.

Import vfs.

Lemma str_take_app (a b : string) : str_take (String.length a) (a +:+ b) = a.
Proof. induction a as [|x a IH]; cbn; [now destruct b | now rewrite IH]. Qed.

Lemma str_drop_app (a b : string) : str_drop (String.length a) (a +:+ b) = b.
Proof. induction a as [|x a IH]; cbn; [now destruct b | exact IH]. Qed.

Lemma append_nil_l (s : string) : EmptyString +:+ s = s.
Proof. reflexivity. Qed.

Lemma append_cons (a : ascii) (s t : string) : String a s +:+ t = String a (s +:+ t).
Proof. reflexivity. Qed.

Lemma rfind_cons (c a : ascii) (r : string) :
  rfind c (String a r)
  = if 0 <=? rfind c r then rfind c r + 1 else if Ascii.eqb a c then 0 else -1.
Proof. reflexivity. Qed.

Lemma rfind_app_sep (X n : string) :
  has_char sep n = false ->
  rfind sep (X +:+ String sep n) = Z.of_nat (String.length X).
Proof.
  intros Hn. induction X as [|a X IH].
  - rewrite append_nil_l, rfind_cons, (rfind_none sep n Hn). reflexivity.
  - rewrite append_cons, rfind_cons, IH. cbn [String.length].
    destruct (0 <=? Z.of_nat (String.length X)) eqn:E; [lia|].
    apply Z.leb_gt in E. lia.
Qed.

Lemma all_char_endswith (X : string) :
  is_empty X = false -> endswith sep X = false -> all_char sep X = false.
Proof.
  induction X as [|a X IH]; [discriminate|]. intros _ He.
  cbn [all_char]. destruct X as [|b X'].
  - cbn [endswith] in He. now rewrite He.
  - rewrite IH; [apply andb_false_r | reflexivity | exact He].
Qed.

Lemma all_char_app (c : ascii) (a b : string) :
  all_char c (a +:+ b) = all_char c a && all_char c b.
Proof.
  induction a as [|x a IH]; [reflexivity|].
  rewrite append_cons. cbn [all_char]. now rewrite IH, andb_assoc.
Qed.

Lemma rstrip_snoc_sep (X : string) :
  is_empty X = false -> endswith sep X = false ->
  rstrip sep (X +:+ String sep EmptyString) = X.
Proof.
  induction X as [|a X IH]; [discriminate|]. intros _ He.
  rewrite append_cons. cbn [rstrip]. destruct X as [|b X'].
  - cbn [endswith] in He. cbn. now rewrite He.
  - rewrite IH; [reflexivity | reflexivity | exact He].
Qed.

(** [split] undoes [join] when the first part ends in no separator, or
    is the root. *)
Lemma split_join (X n : string) :
  simple_name n = true ->
  is_empty X = false ->
  endswith sep X = false \/ X = "/" ->
  posixpath.split (posixpath.join X n) = (X, n).
Proof.
  intros Hn HX Hc. rewrite (join_simple X n Hn), HX. cbn [orb].
  pose proof (simple_name_spec n Hn) as (_ & Hs & _).
  destruct Hc as [He| ->].
  - rewrite He. unfold posixpath.split.
    rewrite (rfind_app_sep X n Hs).
    replace (Z.to_nat (Z.of_nat (String.length X) + 1))
      with (String.length (X +:+ String sep EmptyString))
      by (rewrite length_append; cbn; lia).
    replace (X +:+ String sep n) with ((X +:+ String sep EmptyString) +:+ n)
      by (now rewrite append_assoc).
    rewrite str_take_app, str_drop_app.
    rewrite is_empty_append, HX. cbn [andb negb].
    rewrite all_char_app, (all_char_endswith X HX He). cbn [andb negb].
    now rewrite (rstrip_snoc_sep X HX He).
  - unfold posixpath.split. cbn [endswith].
    change (Ascii.eqb "/" sep) with true. cbn iota.
    rewrite append_cons, append_nil_l, rfind_cons, (rfind_none sep n Hs).
    reflexivity.
Qed.

(** The text of a location made of ordinary names. *)
Lemma path_of_loc_cons (c : string) (l : loc) :
  path_of_loc (c :: l)
  = String sep (c +:+ match l with [] => EmptyString | _ => path_of_loc l end).
Proof. destruct l; reflexivity. Qed.

Lemma components_path_of_loc (l : loc) :
  forallb simple_name l = true -> components (path_of_loc l) = l.
Proof.
  destruct l as [|c l]; [reflexivity|]. revert c.
  induction l as [|c' l IH]; intros c H; rewrite path_of_loc_cons;
    cbn [forallb] in H; apply andb_true_iff in H as [Hc Hl];
    pose proof (simple_name_spec c Hc) as (Hne & Hs & _);
    change (String sep ?x) with (EmptyString +:+ String sep x);
    rewrite components_app_sep; cbn [components split_sep List.filter is_empty negb app].
  - rewrite append_empty_r. now apply components_name.
  - rewrite path_of_loc_cons. rewrite components_app_sep, (components_name c Hne Hs).
    cbn [app]. f_equal. specialize (IH c' Hl). rewrite path_of_loc_cons in IH.
    change (String sep ?x) with (EmptyString +:+ String sep x) in IH.
    rewrite components_app_sep in IH. exact IH.
Qed.

Lemma has_nul_path_of_loc (l : loc) :
  forallb simple_name l = true -> has_nul (path_of_loc l) = false.
Proof.
  destruct l as [|c l]; [reflexivity|]. revert c.
  induction l as [|c' l IH]; intros c H; rewrite path_of_loc_cons;
    cbn [forallb] in H; apply andb_true_iff in H as [Hc Hl];
    pose proof (simple_name_spec c Hc) as (_ & _ & Hn & _);
    cbn [has_nul]; change (Ascii.eqb sep "000") with false; cbn [orb];
    rewrite has_nul_append, Hn; cbn [orb].
  - reflexivity.
  - specialize (IH c' Hl). exact IH.
Qed.

Lemma endswith_path_of_loc (c : string) (l : loc) :
  forallb simple_name (c :: l) = true -> endswith sep (path_of_loc (c :: l)) = false.
Proof.
  revert c. induction l as [|c' l IH]; intros c H; rewrite path_of_loc_cons;
    cbn [forallb] in H; apply andb_true_iff in H as [Hc Hl];
    pose proof (simple_name_spec c Hc) as (Hne & Hs & _).
  - rewrite append_empty_r. destruct c as [|x c]; [discriminate|].
    change (endswith sep (String sep (String x c))) with (endswith sep (String x c)).
    now apply endswith_no_char.
  - specialize (IH c' Hl). rewrite path_of_loc_cons in *.
    change (String sep (c +:+ String sep ?y))
      with ((String sep c) +:+ String sep y).
    now rewrite endswith_append_cons.
Qed.

Lemma dot_free_simple (l : loc) :
  forallb simple_name l = true ->
  forallb (fun c => negb (is_dot c || is_dotdot c)) l = true.
Proof.
  induction l as [|c l IH]; [reflexivity|]. cbn [forallb].
  intros H. apply andb_true_iff in H as [Hc Hl].
  pose proof (simple_name_spec c Hc) as (_ & _ & _ & Hd & Hdd).
  now rewrite Hd, Hdd, (IH Hl).
Qed.

(** The working directory is found under its own text. *)
Lemma lookup_dir_cwd (fs : gmap loc node) (cwd : loc) :
  forallb simple_name cwd = true -> well_formed fs ->
  node_at fs cwd = Some Dir ->
  lookup_dir fs cwd (path_of_loc cwd) = Ok cwd.
Proof.
  intros Hs Hwf Hd. unfold lookup_dir.
  rewrite (has_nul_path_of_loc cwd Hs), path_of_loc_abs,
    (components_path_of_loc cwd Hs).
  rewrite (walk_well_formed fs [] cwd Hwf (dot_free_simple cwd Hs) Hd).
  cbn [app]. apply (check_dir_Ok fs cwd tt) in Hd. now rewrite Hd.
Qed.

Lemma path_of_loc_canonical (l : loc) :
  forallb simple_name l = true ->
  is_empty (path_of_loc l) = false
  /\ (endswith sep (path_of_loc l) = false \/ path_of_loc l = "/").
Proof.
  intros H. destruct l as [|c l].
  - split; [reflexivity | now right].
  - split; [now rewrite path_of_loc_cons | left; now apply endswith_path_of_loc].
Qed.

End Canonical.

Section NewProject.

Import vfs.

Lemma nothing_below (fs : gmap loc node) (l : loc) (c c' : string) :
  well_formed fs -> fs !! (l ++ [c]) = None -> fs !! ((l ++ [c]) ++ [c']) = None.
Proof.
  intros Hwf Hl. destruct (fs !! ((l ++ [c]) ++ [c'])) as [n|] eqn:E; [|reflexivity].
  pose proof (Hwf _ _ _ E) as Hd. rewrite node_at_snoc in Hd. congruence.
Qed.

(** [makedirs] of a new name in an existing directory is one [mkdir]. *)
Lemma makedirs_child (X n : string) (w : world) (d : loc) :
  simple_name n = true ->
  is_empty X = false ->
  endswith sep X = false \/ X = "/" ->
  lookup_dir (w_fs w) (w_cwd w) X = Ok d ->
  w_fs w !! (d ++ [n]) = None ->
  os_makedirs (posixpath.join X n) w
  = (Ok tt, set_fs (<[d ++ [n] := Dir]> (w_fs w)) w).
Proof.
  intros Hn HX Hc Hd Hnew. unfold os_makedirs. cbn [makedirs_fuel].
  rewrite (split_join X n Hn HX Hc).
  pose proof (simple_name_spec n Hn) as (Hne & _ & _ & Hdot & Hdd).
  rewrite Hne, HX. cbn [negb andb]. rewrite Hne. cbn [negb].
  rewrite bind_assoc.
  assert (Ex : os_path_exists X w = (Ok true, w)).
  { rewrite os_path_exists_eq. unfold exists_at.
    now rewrite (lookup_dir_stat _ _ _ _ HX Hd). }
  rewrite (bind_Ok_eq _ _ _ _ _ Ex). cbn [negb]. unfold bind, ret.
  unfold os_mkdir, mkdir. rewrite (namei_join _ _ _ _ Hn), Hd.
  cbn [nd_last nd_parent]. rewrite Hdot, Hdd. cbn [orb].
  now rewrite node_at_snoc, Hnew.
Qed.

Lemma ensure_file_new (X n body : string) (w : world) (d : loc) :
  simple_name n = true ->
  lookup_dir (w_fs w) (w_cwd w) X = Ok d ->
  w_fs w !! (d ++ [n]) = None ->
  ensure_file X n body w = (Ok tt, set_fs (<[d ++ [n] := File body]> (w_fs w)) w).
Proof.
  intros Hn Hd Hnew. unfold ensure_file, bind. rewrite os_path_isfile_eq.
  unfold isfile_at. rewrite (stat_join _ _ _ _ Hn), Hd, Hnew. cbn [negb].
  apply put_file_run; [exact Hd | congruence].
Qed.

Lemma ensure_dir_new (X n : string) (w : world) (d : loc) :
  simple_name n = true ->
  is_empty X = false ->
  endswith sep X = false \/ X = "/" ->
  lookup_dir (w_fs w) (w_cwd w) X = Ok d ->
  w_fs w !! (d ++ [n]) = None ->
  (let* ex := os_path_exists (posixpath.join X n) in
   if negb ex then os_makedirs (posixpath.join X n) else ret tt) w
  = (Ok tt, set_fs (<[d ++ [n] := Dir]> (w_fs w)) w).
Proof.
  intros Hn HX Hc Hd Hnew. unfold bind. rewrite os_path_exists_eq.
  unfold exists_at. rewrite (stat_join _ _ _ _ Hn), Hd, Hnew. cbn [negb].
  now apply makedirs_child.
Qed.

Lemma lookup_dir_child (fs : gmap loc node) (cwd : loc) (X n : string) (d : loc) :
  simple_name n = true ->
  lookup_dir fs cwd X = Ok d ->
  fs !! (d ++ [n]) = Some Dir ->
  lookup_dir fs cwd (posixpath.join X n) = Ok (d ++ [n]).
Proof.
  intros Hn Hd Hc. rewrite (lookup_dir_join _ _ _ _ Hn), Hd.
  unfold check_dir. now rewrite node_at_snoc, Hc.
Qed.

Lemma lookup_dir_insert_dir (fs : gmap loc node) (cwd : loc) (X : string) (d l : loc) :
  lookup_dir fs cwd X = Ok d -> fs !! l = None ->
  lookup_dir (<[l := Dir]> fs) cwd X = Ok d.
Proof.
  intros Hd Hl. eapply (lookup_dir_kept (fun _ => True)); [|exact Hd].
  now apply evolves_on_insert_dir.
Qed.

Lemma main_new_project (prog : string) (w : world) :
  in_empty_directory w ->
  let P := posixpath.join (path_of_loc (w_cwd w)) "myapp" in
  exists w',
    main [prog; "myapp"] w = (Ok tt, w')
    /\ w_cwd w' = w_cwd w
    /\ w_fs w' = new_project_fs (w_fs w) (w_cwd w) P.
Proof.
  intros (Hs & Hwf & Hcwd & Hempty) P.
  set (fs := w_fs w) in *. set (cwd := w_cwd w) in *.
  set (A := cwd ++ ["myapp"]). set (S := A ++ ["src"]).
  assert (HP : project_path_of [prog; "myapp"] w = P) by reflexivity.
  destruct (path_of_loc_canonical cwd Hs) as [HX Hc].
  pose proof (lookup_dir_cwd fs cwd Hs Hwf Hcwd) as HdX.
  assert (NA : fs !! A = None) by apply Hempty.
  assert (N1 : forall c, fs !! (A ++ [c]) = None)
    by (intros c; now apply nothing_below).
  assert (N2 : forall c c', fs !! ((A ++ [c]) ++ [c']) = None)
    by (intros c c'; now apply nothing_below).
  set (fs1 := <[A := Dir]> fs).
  set (out := w_stdout w +:+ ("Initializing TypeScript project in: " +:+ P) +:+ nl).
  set (fs3 := <[A ++ ["package.json"] := File (json_encoder.dumps (package_data P))]> fs1).
  set (fs4 := <[A ++ ["tsconfig.json"] := File (json_encoder.dumps tsconfig_data)]> fs3).
  set (fs4a := <[S := Dir]> fs4).
  set (fs4b := <[S ++ ["index.ts"] := File index_ts_body]> fs4a).
  set (fs5 := <[S ++ ["module.ts"] := File module_ts_body]> fs4b).
  assert (HdP1 : lookup_dir fs1 cwd P = Ok A).
  { apply (lookup_dir_child _ _ _ "myapp" cwd eq_refl).
    - now apply lookup_dir_insert_dir.
    - apply lookup_insert_eq. }
  assert (Np1 : fs1 !! (A ++ ["package.json"]) = None).
  { unfold fs1. rewrite lookup_insert_ne; [apply N1 | loc_neq]. }
  assert (HdP3 : lookup_dir fs3 cwd P = Ok A)
    by (apply lookup_dir_insert_file; [exact HdP1 | congruence]).
  assert (Nt3 : fs3 !! (A ++ ["tsconfig.json"]) = None).
  { unfold fs3, fs1. rewrite !lookup_insert_ne; [apply N1 | loc_neq | loc_neq]. }
  assert (HdP4 : lookup_dir fs4 cwd P = Ok A)
    by (apply lookup_dir_insert_file; [exact HdP3 | congruence]).
  assert (Ns4 : fs4 !! S = None).
  { unfold fs4, fs3, fs1, S.
    rewrite !lookup_insert_ne; [apply N1 | loc_neq | loc_neq | loc_neq]. }
  assert (HdS4a : lookup_dir fs4a cwd (src_path P) = Ok S).
  { apply (lookup_dir_child _ _ _ "src" A eq_refl).
    - now apply lookup_dir_insert_dir.
    - apply lookup_insert_eq. }
  assert (Ni4a : fs4a !! (S ++ ["index.ts"]) = None).
  { unfold fs4a, fs4, fs3, fs1, S.
    rewrite !lookup_insert_ne; [apply N2 | loc_neq | loc_neq | loc_neq | loc_neq]. }
  assert (HdS4b : lookup_dir fs4b cwd (src_path P) = Ok S)
    by (apply lookup_dir_insert_file; [exact HdS4a | congruence]).
  assert (Nm4b : fs4b !! (S ++ ["module.ts"]) = None).
  { unfold fs4b, fs4a, fs4, fs3, fs1, S.
    rewrite !lookup_insert_ne;
      [apply N2 | loc_neq | loc_neq | loc_neq | loc_neq | loc_neq]. }
  destruct (settled_report P (World fs5 cwd out)) as (w6 & E6 & F6 & C6).
  exists w6. split; [|split; [exact C6 | exact F6]].
  rewrite main_stages_eq, HP. unfold main_stages. cbn [run_stages].
  assert (E0 : ensure_project_dir P w = (Ok tt, World fs1 cwd (w_stdout w))).
  { exact (ensure_dir_new _ "myapp" w cwd eq_refl HX Hc HdX NA). }
  rewrite (bind_Ok_eq _ _ _ _ _ E0).
  rewrite (bind_Ok_eq _ _ _ _ _ (announce_eq P _)).
  cbn [w_fs w_cwd w_stdout]. fold out.
  assert (E2 : generate_package_json P (World fs1 cwd out)
               = (Ok tt, World fs3 cwd out)).
  { rewrite generate_package_json_eq.
    apply (put_file_run _ _ _ (World fs1 cwd out) A HdP1). cbn [w_fs]. congruence. }
  rewrite (bind_Ok_eq _ _ _ _ _ E2).
  assert (E3 : generate_tsconfig_json P (World fs3 cwd out)
               = (Ok tt, World fs4 cwd out)).
  { rewrite generate_tsconfig_json_eq.
    apply (put_file_run _ _ _ (World fs3 cwd out) A HdP3). cbn [w_fs]. congruence. }
  rewrite (bind_Ok_eq _ _ _ _ _ E3).
  assert (E4 : ensure_src_index_ts P (World fs4 cwd out)
               = (Ok tt, World fs5 cwd out)).
  { rewrite ensure_src_index_ts_eq.
    assert (Ea : ensure_src_dir P (World fs4 cwd out) = (Ok tt, World fs4a cwd out)).
    { apply (ensure_dir_new P "src" (World fs4 cwd out) A eq_refl).
      - apply (is_empty_join _ "myapp" eq_refl).
      - left. apply (endswith_join _ "myapp" eq_refl).
      - exact HdP4.
      - exact Ns4. }
    rewrite (bind_Ok_eq _ _ _ _ _ Ea).
    assert (Eb : ensure_index_ts P (World fs4a cwd out) = (Ok tt, World fs4b cwd out)).
    { exact (ensure_file_new _ "index.ts" _ (World fs4a cwd out) S eq_refl HdS4a Ni4a). }
    rewrite (bind_Ok_eq _ _ _ _ _ Eb).
    exact (ensure_file_new _ "module.ts" _ (World fs4b cwd out) S eq_refl HdS4b Nm4b). }
  rewrite (bind_Ok_eq _ _ _ _ _ E4).
  rewrite (bind_Ok_eq _ _ _ _ _ E6). reflexivity.
Qed.

End NewProject.

Section RelativePaths.

Import vfs.

Lemma lookup_dir_here (fs : gmap loc node) (cwd : loc) :
  node_at fs cwd = Some Dir -> lookup_dir fs cwd EmptyString = Ok cwd.
Proof.
  intros H. unfold lookup_dir. cbn [has_nul posixpath.isabs startswith].
  change (components EmptyString) with (@nil string). cbn [walk].
  apply (check_dir_Ok fs cwd tt) in H. now rewrite H.
Qed.

Lemma lookup_dir_trailing (fs : gmap loc node) (cwd : loc) (X : string) :
  is_empty X = false ->
  lookup_dir fs cwd (X +:+ "/") = lookup_dir fs cwd X.
Proof.
  intros HX. unfold lookup_dir.
  rewrite has_nul_append. cbn [has_nul]. change (Ascii.eqb "/" "000") with false.
  cbn [orb]. rewrite orb_false_r.
  change "/" with (String sep EmptyString).
  rewrite components_app_sep, components_empty, app_nil_r.
  destruct X as [|a X]; [discriminate|]. reflexivity.
Qed.

Lemma node_at_insert_ne (fs : gmap loc node) (l k : loc) (n : node) :
  k <> l -> node_at (<[k := n]> fs) l = node_at fs l.
Proof. intros H. destruct l; [reflexivity|]. cbn [node_at]. now apply lookup_insert_ne. Qed.

End RelativePaths.

Lemma in_empty_directory_home : in_empty_directory home_world.
Proof.
  split; [reflexivity|]. split; [exact well_formed_home|].
  split; [reflexivity|]. intros c. unfold home_world, home_fs. cbn [w_fs w_cwd].
  rewrite !lookup_insert_ne; [apply lookup_empty | |];
    intros E; apply (f_equal (@length string)) in E; simpl in E; lia.
Qed.

(** ** The recursion bound of [makedirs] is never reached *)

Section Fuel.

Import vfs.

Lemma length_take_drop (n : nat) (s : string) :
  (String.length (str_take n s) + String.length (str_drop n s))%nat = String.length s.
Proof.
  revert s. induction n as [|n IH]; intros [|a s]; cbn; try reflexivity.
  now rewrite IH.
Qed.

Lemma length_rstrip (c : ascii) (s : string) :
  (String.length (rstrip c s) <= String.length s)%nat.
Proof.
  induction s as [|a s IH]; cbn [rstrip String.length]; [lia|].
  destruct (rstrip c s) as [|b r].
  - destruct (Ascii.eqb a c); cbn; lia.
  - cbn [String.length] in *. lia.
Qed.

Lemma length_split (p : string) :
  (String.length (fst (posixpath.split p)) + String.length (snd (posixpath.split p))
   <= String.length p)%nat.
Proof.
  unfold posixpath.split. cbn [fst snd].
  pose proof (length_take_drop (Z.to_nat (rfind sep p + 1)) p) as H.
  destruct (negb (is_empty _) && negb (all_char sep _)).
  - pose proof (length_rstrip sep (str_take (Z.to_nat (rfind sep p + 1)) p)). lia.
  - lia.
Qed.

Lemma length_nonempty (s : string) : is_empty s = false -> (0 < String.length s)%nat.
Proof. destruct s; [discriminate | cbn; lia]. Qed.

Lemma fuelled_ret {A} (a : A) : fuelled (ret a).
Proof. intros w. discriminate. Qed.

Lemma fuelled_bind {A B} (m : M A) (k : A -> M B) :
  fuelled m -> (forall a, fuelled (k a)) -> fuelled (bind m k).
Proof.
  intros Hm Hk w. unfold bind. specialize (Hm w).
  destruct (m w) as [[a|e] w1]; [apply Hk|].
  cbn [fst] in *. intros [= ->]. now apply Hm.
Qed.

Lemma fuelled_ext {A} (m m' : M A) :
  (forall w, m' w = m w) -> fuelled m -> fuelled m'.
Proof. intros E H w. rewrite E. apply H. Qed.

Lemma fuelled_exists (p : string) : fuelled (os_path_exists p).
Proof. intros w. rewrite os_path_exists_eq. discriminate. Qed.

Lemma fuelled_isfile (p : string) : fuelled (os_path_isfile p).
Proof. intros w. rewrite os_path_isfile_eq. discriminate. Qed.

Lemma fuelled_print (s : string) : fuelled (print s).
Proof. intros w. discriminate. Qed.

Lemma walk_error (fs : gmap loc node) (cs : list string) :
  forall (l : loc) (e : exn), walk fs l cs = Raise e -> e <> OutOfFuel.
Proof.
  induction cs as [|c cs IH]; intros l e; cbn [walk]; [discriminate|].
  unfold check_dir. destruct (node_at fs l) as [[s|]|].
  - intros [= <-]. discriminate.
  - apply IH.
  - intros [= <-]. discriminate.
Qed.

Lemma namei_error (fs : gmap loc node) (cwd : loc) (p : string) (e : exn) :
  namei fs cwd p = Raise e -> e <> OutOfFuel.
Proof.
  unfold namei. destruct (has_nul p); [intros [= <-]; discriminate|].
  destruct (is_empty p); [intros [= <-]; discriminate|].
  destruct (last (components p)) as [c|]; [|discriminate].
  destruct (walk fs _ _) as [d|e0] eqn:Hw.
  - unfold check_dir. destruct (node_at fs d) as [[s|]|];
      [intros [= <-] | discriminate | intros [= <-]]; discriminate.
  - intros [= <-]. exact (walk_error _ _ _ _ Hw).
Qed.

Lemma lookup_dir_error (fs : gmap loc node) (cwd : loc) (p : string) (e : exn) :
  lookup_dir fs cwd p = Raise e -> e <> OutOfFuel.
Proof.
  unfold lookup_dir. destruct (has_nul p); [intros [= <-]; discriminate|].
  destruct (walk fs _ _) as [d|e0] eqn:Hw.
  - unfold check_dir. destruct (node_at fs d) as [[s|]|];
      [intros [= <-] | discriminate | intros [= <-]]; discriminate.
  - intros [= <-]. exact (walk_error _ _ _ _ Hw).
Qed.

Lemma fuelled_mkdir (p : string) : fuelled (os_mkdir p).
Proof.
  intros w. unfold os_mkdir, mkdir.
  destruct (namei (w_fs w) (w_cwd w) p) as [nd|e] eqn:Hn.
  - destruct (nd_last nd) as [c|]; [|discriminate].
    destruct (is_dot c || is_dotdot c); [discriminate|].
    destruct (node_at _ _); discriminate.
  - cbn [fst]. intros [= ->]. now apply (namei_error _ _ _ _ Hn).
Qed.

Lemma fuelled_put_file (X n s : string) : fuelled (put_file X n s).
Proof.
  intros w. unfold put_file.
  destruct (lookup_dir (w_fs w) (w_cwd w) X) as [d|e] eqn:Hd.
  - destruct (w_fs w !! (d ++ [n])) as [[c|]|]; discriminate.
  - cbn [fst]. intros [= ->]. now apply (lookup_dir_error _ _ _ _ Hd).
Qed.

Lemma fuelled_except (m : M unit) :
  fuelled m -> fuelled (except_FileExistsError_pass m).
Proof.
  intros Hm w. unfold except_FileExistsError_pass. specialize (Hm w).
  destruct (m w) as [[a|e] w1]; [discriminate|]. destruct e; (discriminate || exact Hm).
Qed.

(** With more fuel than the name has characters, [makedirs] never runs
    out of it. *)
Lemma fuelled_makedirs_fuel (n : nat) :
  forall name : string, (String.length name < n)%nat -> fuelled (makedirs_fuel n name).
Proof.
  induction n as [|n IH]; intros name Hlen; [lia|].
  cbn [makedirs_fuel].
  pose proof (length_split name) as Hs.
  destruct (posixpath.split name) as [head tail] eqn:Es. cbn [fst snd] in Hs.
  assert (Hlen' : forall h t,
            (if is_empty tail then posixpath.split head else (head, tail)) = (h, t) ->
            is_empty t = false -> (String.length h < n)%nat).
  { intros h t E Ht. pose proof (length_nonempty t Ht) as Hpos.
    destruct (is_empty tail).
    - pose proof (length_split head) as Hs'. rewrite E in Hs'. cbn [fst snd] in Hs'. lia.
    - injection E as <- <-. lia. }
  destruct (if is_empty tail then posixpath.split head else (head, tail))
    as [head' tail'] eqn:E.
  apply fuelled_bind.
  - destruct (negb (is_empty head') && negb (is_empty tail')) eqn:Hb;
      [|apply fuelled_ret].
    apply andb_true_iff in Hb as [_ Ht]. apply negb_true_iff in Ht.
    apply fuelled_bind; [apply fuelled_exists|].
    intros ex. destruct (negb ex); [|apply fuelled_ret].
    apply fuelled_bind; [|intros _; apply fuelled_ret].
    apply fuelled_except, IH. exact (Hlen' head' tail' eq_refl Ht).
  - intros [|]; [apply fuelled_mkdir | apply fuelled_ret].
Qed.

Lemma os_makedirs_total (name : string) : fuelled (os_makedirs name).
Proof. apply fuelled_makedirs_fuel. lia. Qed.

Lemma fuelled_run_stages (l : list (M unit)) :
  Forall fuelled l -> fuelled (run_stages l).
Proof.
  induction 1 as [|m l Hm _ IH]; cbn [run_stages]; [apply fuelled_ret|].
  apply fuelled_bind; [exact Hm | intros _; exact IH].
Qed.

Lemma fuelled_ensure_file (X n body : string) : fuelled (ensure_file X n body).
Proof.
  apply fuelled_bind; [apply fuelled_isfile|].
  intros isf. destruct (negb isf); [apply fuelled_put_file | apply fuelled_ret].
Qed.

(** No run of [main] ends on the recursion bound of the model. *)
Lemma main_fuelled (argv : list string) : fuelled (main argv).
Proof.
  intros w. rewrite main_stages_eq. apply fuelled_run_stages.
  unfold main_stages. repeat constructor.
  - apply fuelled_bind; [apply fuelled_exists|].
    intros ex. destruct (negb ex); [apply os_makedirs_total | apply fuelled_ret].
  - apply fuelled_print.
  - eapply fuelled_ext; [apply generate_package_json_eq | apply fuelled_put_file].
  - eapply fuelled_ext; [apply generate_tsconfig_json_eq | apply fuelled_put_file].
  - eapply fuelled_ext; [apply ensure_src_index_ts_eq|].
    apply fuelled_bind; [|intros _; apply fuelled_bind; [|intros _]].
    + apply fuelled_bind; [apply fuelled_exists|].
      intros ex. destruct (negb ex); [apply os_makedirs_total | apply fuelled_ret].
    + apply fuelled_ensure_file.
    + apply fuelled_ensure_file.
  - unfold report. repeat (apply fuelled_bind; [apply fuelled_print | intros _]).
    apply fuelled_print.
Qed.

End Fuel.

(** ** The model against a POSIX system

    Each fact below was observed on Linux with CPython 3.11 for a
    directory [/t] holding a directory [x] and a regular file [f]. *)

Section ModelCheck.

Example stat_file_slash :
  vfs.stat probe_fs [] "/t/f/" = Raise NotADirectoryError.
Proof. reflexivity. Qed.

Example creat_file_slash :
  vfs.creat probe_fs [] "/t/f/" = Raise IsADirectoryError.
Proof. reflexivity. Qed.

Example mkdir_file_slash :
  vfs.mkdir probe_fs [] "/t/f/" = Raise FileExistsError.
Proof. reflexivity. Qed.

Example stat_below_file :
  vfs.stat probe_fs [] "/t/f/x" = Raise NotADirectoryError
  /\ vfs.stat probe_fs [] "/t/f/." = Raise NotADirectoryError.
Proof. split; reflexivity. Qed.

Example stat_missing_parent :
  vfs.stat probe_fs [] "/t/zz/x" = Raise FileNotFoundError.
Proof. reflexivity. Qed.

Example creat_directory :
  vfs.creat probe_fs [] "/t/x/" = Raise IsADirectoryError
  /\ vfs.creat probe_fs [] "/t/x/." = Raise IsADirectoryError
  /\ vfs.creat probe_fs [] "/t/x/.." = Raise IsADirectoryError
  /\ vfs.creat probe_fs [] "/" = Raise IsADirectoryError
  /\ vfs.creat probe_fs [] "/t/new/" = Raise IsADirectoryError.
Proof. repeat split; reflexivity. Qed.

Example mkdir_existing :
  vfs.mkdir probe_fs [] "/t/x/" = Raise FileExistsError
  /\ vfs.mkdir probe_fs [] "/t/x/." = Raise FileExistsError
  /\ vfs.mkdir probe_fs [] "/t/x/.." = Raise FileExistsError
  /\ vfs.mkdir probe_fs [] "/" = Raise FileExistsError.
Proof. repeat split; reflexivity. Qed.

Example empty_path :
  vfs.stat probe_fs [] EmptyString = Raise FileNotFoundError
  /\ vfs.creat probe_fs [] EmptyString = Raise FileNotFoundError
  /\ vfs.mkdir probe_fs [] EmptyString = Raise FileNotFoundError.
Proof. repeat split; reflexivity. Qed.

Example mkdir_new_slash :
  vfs.stat probe_fs [] "/t/new/" = Raise FileNotFoundError
  /\ vfs.mkdir probe_fs [] "/t/new/" = Ok (<[ ["t"; "new"] := Dir ]> probe_fs).
Proof. split; reflexivity. Qed.

Example embedded_nul :
  vfs.stat probe_fs [] (String "a" (String "000" "b")) = Raise ValueError.
Proof. reflexivity. Qed.

Example makedirs_through_dotdot :
  os_makedirs "/t/x/y/../z/" probe_world
  = (Ok tt, World (<[ ["t"; "x"; "z"] := Dir ]> (<[ ["t"; "x"; "y"] := Dir ]> probe_fs))
              [] EmptyString).
Proof. vm_compute. reflexivity. Qed.

Example makedirs_dotdot_last :
  fst (os_makedirs "/t/q/.." probe_world) = Raise FileExistsError
  /\ isdir_at (snd (os_makedirs "/t/q/.." probe_world)) "/t/q" = true.
Proof. split; vm_compute; reflexivity. Qed.

Example makedirs_dot_last :
  fst (os_makedirs "/t/n/." probe_world) = Ok tt
  /\ fst (os_makedirs "/t/x/." probe_world) = Raise FileExistsError.
Proof. split; vm_compute; reflexivity. Qed.

Example basename_examples :
  map posixpath.basename ["myapp/"; "/a/b"; "/"; "/a/b/"; "a"; "/a//b"]
  = [EmptyString; "b"; EmptyString; EmptyString; "a"; "b"].
Proof. reflexivity. Qed.

Example split_examples :
  map posixpath.split ["myapp/"; "/a/b"; "/"; "/a/b/"; "a"; "/a//b"; "//"]
  = [("myapp", EmptyString); ("/a", "b"); ("/", EmptyString); ("/a/b", EmptyString);
     (EmptyString, "a"); ("/a", "b"); ("//", EmptyString)].
Proof. reflexivity. Qed.

Example join_examples :
  [posixpath.join "/x" "foo"; posixpath.join "/" "foo"; posixpath.join "/x/" "foo";
   posixpath.join "/x" EmptyString; posixpath.join EmptyString "foo";
   posixpath.join "/x" "/y"]
  = ["/x/foo"; "/foo"; "/x/foo"; "/x/"; "foo"; "/y"].
Proof. reflexivity. Qed.

End ModelCheck.

(** * The claims *)

(** C1.  The [name] of the manifest is [basename] of the project path,
    which is empty when that path ends in a separator: run with the
    argument [myapp/] in the empty home directory, the program ends
    well, creates [/home/u/myapp], and writes a manifest whose [name]
    is the empty string, while the final segment of the project path is
    [myapp].  (Away from a trailing separator the two agree, see
    [manifest_names_final_segment].) *)
Theorem C1_trailing_separator_empties_name :
  let argv := ["main.py"; "myapp/"] in
  let P := project_path_of argv home_world in
  let w' := snd (main argv home_world) in
  fst (main argv home_world) = Ok tt
  /\ P = "/home/u/myapp/"
  /\ final_segment P = "myapp"
  /\ isdir_at w' "/home/u/myapp" = true
  /\ exists text doc,
       read_file w' (package_json_path P) = Some text
       /\ json_decoder.loads text = Some doc
       /\ json_get "name" doc = Some (JStr EmptyString).
Proof.
  cbv zeta. split; [vm_compute; reflexivity|].
  split; [vm_compute; reflexivity|].
  split; [vm_compute; reflexivity|].
  split; [vm_compute; reflexivity|].
  eexists _, _. split; [vm_compute; reflexivity|].
  split; vm_compute; reflexivity.
Qed.

(** C2.  A run that ends well has written both configuration files
    whatever they held before: [package.json] holds the text of the
    manifest of the specification for [basename] of the project path,
    [tsconfig.json] that of its compiler configuration; and a second
    run on the result ends well too and leaves both with the same
    content. *)
Theorem C2_configs_rewritten (argv : list string) (w w1 : world) (u : unit) :
  main argv w = (Ok u, w1) ->
  let P := project_path_of argv w in
  (exists text,
     read_file w1 (package_json_path P) = Some text
     /\ text = json_encoder.dumps (package_data P)
     /\ json_decoder.loads text = Some (manifest_of_spec (posixpath.basename P)))
  /\ (exists text,
     read_file w1 (tsconfig_json_path P) = Some text
     /\ text = json_encoder.dumps tsconfig_data
     /\ json_decoder.loads text = Some compiler_configuration_of_spec)
  /\ (exists w2,
     main argv w1 = (Ok tt, w2)
     /\ read_file w2 (package_json_path P) = read_file w1 (package_json_path P)
     /\ read_file w2 (tsconfig_json_path P) = read_file w1 (tsconfig_json_path P)).
Proof.
  intros H P. destruct (main_Ok _ _ _ _ H) as [dP Hs]. fold P in Hs.
  destruct (scaffolded_paths _ _ _ _ Hs) as (Hpkg & Hts & _).
  split; [|split].
  - eexists. split; [exact Hpkg|]. split; [reflexivity|].
    rewrite loads_dumps. now rewrite package_data_of_spec.
  - eexists. split; [exact Hts|]. split; [reflexivity|].
    rewrite loads_dumps. now rewrite tsconfig_data_of_spec.
  - destruct (main_rerun _ _ _ _ H) as (w2 & H2 & F & C).
    exists w2. split; [exact H2|]. unfold read_file. now rewrite F, C.
Qed.

Lemma C2_configs_rewritten_witness :
  let argv := ["main.py"; "myapp"] in
  let w1 := snd (main argv edited_world) in
  read_file edited_world "/home/u/myapp/package.json" = Some "{}"
  /\ (exists text,
        read_file w1 "/home/u/myapp/package.json" = Some text
        /\ json_decoder.loads text = Some (manifest_of_spec "myapp"))
  /\ (exists w2, main argv w1 = (Ok tt, w2)
        /\ read_file w2 "/home/u/myapp/package.json"
           = read_file w1 "/home/u/myapp/package.json").
Proof.
  intros argv w1.
  assert (Hrun : main argv edited_world = (Ok tt, w1)) by (vm_compute; reflexivity).
  destruct (C2_configs_rewritten argv edited_world w1 tt Hrun)
    as ((text & Hr & _ & Hl) & _ & (w2 & H2 & Hp & _)).
  split; [vm_compute; reflexivity|]. split.
  - exists text. split; [exact Hr | exact Hl].
  - exists w2. split; [exact H2 | exact Hp].
Defined.

(** C3.  A starter source that is a regular file before a run keeps its
    content, however the run ends; and the two presence tests are
    independent: when a run ends well, a source that was not there is
    written even though the other one was. *)
Theorem C3_existing_sources_kept (argv : list string) (w : world) :
  let P := project_path_of argv w in
  (forall c r w', main argv w = (r, w') ->
     read_file w (index_path P) = Some c -> read_file w' (index_path P) = Some c)
  /\ (forall c r w', main argv w = (r, w') ->
     read_file w (module_path P) = Some c -> read_file w' (module_path P) = Some c)
  /\ (forall c u w', main argv w = (Ok u, w') ->
     read_file w (index_path P) = Some c ->
     isfile_at w (module_path P) = false ->
     read_file w' (index_path P) = Some c
     /\ read_file w' (module_path P) = Some module_ts_body)
  /\ (forall c u w', main argv w = (Ok u, w') ->
     read_file w (module_path P) = Some c ->
     isfile_at w (index_path P) = false ->
     read_file w' (module_path P) = Some c
     /\ read_file w' (index_path P) = Some index_ts_body).
Proof.
  intros P. split; [|split; [|split]].
  - intros c r w' H Hr. rewrite main_stages_eq in H.
    exact (main_preserves_index argv w c _ _ _ Hr H).
  - intros c r w' H Hr. rewrite main_stages_eq in H.
    exact (main_preserves_module argv w c _ _ _ Hr H).
  - intros c u w' H Hr Hno.
    destruct (main_Ok _ _ _ _ H) as [dP Hs]. fold P in Hs.
    destruct (scaffolded_paths _ _ _ _ Hs) as (_ & _ & _ & Hi & Hm).
    rewrite Hi, Hm. split; f_equal.
    + exact (content_or_present P "index.ts" _ c w w' dP eq_refl Hs Hr).
    + eapply (content_or_absent P "module.ts" _ "index.ts"); eauto.
  - intros c u w' H Hr Hno.
    destruct (main_Ok _ _ _ _ H) as [dP Hs]. fold P in Hs.
    destruct (scaffolded_paths _ _ _ _ Hs) as (_ & _ & _ & Hi & Hm).
    rewrite Hi, Hm. split; f_equal.
    + exact (content_or_present P "module.ts" _ c w w' dP eq_refl Hs Hr).
    + eapply (content_or_absent P "index.ts" _ "module.ts"); eauto.
Qed.

Lemma C3_existing_sources_kept_witness :
  let argv := ["main.py"; "myapp"] in
  let w' := snd (main argv edited_world) in
  read_file edited_world "/home/u/myapp/src/index.ts" = Some "console.log(1);"
  /\ isfile_at edited_world "/home/u/myapp/src/module.ts" = false
  /\ read_file w' "/home/u/myapp/src/index.ts" = Some "console.log(1);"
  /\ read_file w' "/home/u/myapp/src/module.ts" = Some module_ts_body.
Proof.
  intros argv w'.
  destruct (C3_existing_sources_kept argv edited_world) as (_ & _ & H & _).
  assert (Hrun : main argv edited_world = (Ok tt, w')) by (vm_compute; reflexivity).
  assert (Hidx : read_file edited_world (index_path (project_path_of argv edited_world))
                 = Some "console.log(1);") by (vm_compute; reflexivity).
  assert (Hmod : isfile_at edited_world (module_path (project_path_of argv edited_world))
                 = false) by (vm_compute; reflexivity).
  split; [exact Hidx|]. split; [exact Hmod|].
  exact (H "console.log(1);" tt w' Hrun Hidx Hmod).
Defined.

(** C4.  Path resolution: an absolute first argument is the project path
    verbatim; a relative one is joined to the working directory; with no
    argument the project path is the working directory itself. *)
Theorem C4_path_resolution (argv : list string) (w : world) :
  (forall a, argv !! 1%nat = Some a -> posixpath.isabs a = true ->
     resolve_project_path argv w = (Ok a, w))
  /\ (forall a, argv !! 1%nat = Some a -> posixpath.isabs a = false ->
     resolve_project_path argv w
     = (Ok (posixpath.join (vfs.path_of_loc (w_cwd w)) a), w))
  /\ (argv !! 1%nat = None ->
     resolve_project_path argv w = (Ok (vfs.path_of_loc (w_cwd w)), w)).
Proof.
  repeat split.
  - intros a H Ha. now rewrite (resolve_project_path_arg argv w a H), Ha.
  - intros a H Ha. now rewrite (resolve_project_path_arg argv w a H), Ha.
  - apply resolve_project_path_no_arg.
Qed.

Lemma C4_path_resolution_witness :
  resolve_project_path ["main.py"; "/srv/app"] home_world = (Ok "/srv/app", home_world)
  /\ resolve_project_path ["main.py"; "foo"] home_world = (Ok "/home/u/foo", home_world)
  /\ resolve_project_path ["main.py"] home_world = (Ok "/home/u", home_world).
Proof.
  destruct (C4_path_resolution ["main.py"; "/srv/app"] home_world) as (H1 & _ & _).
  destruct (C4_path_resolution ["main.py"; "foo"] home_world) as (_ & H2 & _).
  destruct (C4_path_resolution ["main.py"] home_world) as (_ & _ & H3).
  split; [|split].
  - apply (H1 "/srv/app"); reflexivity.
  - apply (H2 "foo"); reflexivity.
  - apply H3; reflexivity.
Defined.

(** C5.  End to end: run with the argument [myapp] in an empty working
    directory, the program ends well; afterwards [myapp/] and
    [myapp/src/] are directories, the four files exist, [package.json]
    reads back as a JSON document whose [name] is [myapp], and
    [src/index.ts] holds the entry source of the specification. *)
Theorem C5_end_to_end (prog : string) (w : world) :
  in_empty_directory w ->
  exists w',
    main [prog; "myapp"] w = (Ok tt, w')
    /\ isdir_at w' "myapp/" = true
    /\ isdir_at w' "myapp/src/" = true
    /\ isfile_at w' "myapp/package.json" = true
    /\ isfile_at w' "myapp/tsconfig.json" = true
    /\ isfile_at w' "myapp/src/index.ts" = true
    /\ isfile_at w' "myapp/src/module.ts" = true
    /\ (exists text doc,
          read_file w' "myapp/package.json" = Some text
          /\ json_decoder.loads text = Some doc
          /\ json_get "name" doc = Some (JStr "myapp"))
    /\ read_file w' "myapp/src/index.ts" = Some entry_source_of_spec.
Proof.
  intros Hin. destruct (main_new_project prog w Hin) as (w' & Hrun & Hc & Hf).
  destruct Hin as (Hs & Hwf & Hcwd & Hempty).
  set (P := posixpath.join (vfs.path_of_loc (w_cwd w)) "myapp") in *.
  set (cwd := w_cwd w) in *. set (A := cwd ++ ["myapp"]).
  unfold new_project_fs in Hf. fold A in Hf.
  assert (Hcwd' : vfs.node_at (w_fs w') cwd = Some Dir).
  { rewrite Hf. repeat (rewrite node_at_insert_ne by loc_neq). exact Hcwd. }
  assert (HA : w_fs w' !! A = Some Dir).
  { rewrite Hf. repeat (rewrite lookup_insert_ne by loc_neq). apply lookup_insert_eq. }
  assert (Hpkg : w_fs w' !! (A ++ ["package.json"])
                 = Some (File (json_encoder.dumps (package_data P)))).
  { rewrite Hf. repeat (rewrite lookup_insert_ne by loc_neq). apply lookup_insert_eq. }
  assert (Hts : w_fs w' !! (A ++ ["tsconfig.json"])
                = Some (File (json_encoder.dumps tsconfig_data))).
  { rewrite Hf. repeat (rewrite lookup_insert_ne by loc_neq). apply lookup_insert_eq. }
  assert (Hsrc : w_fs w' !! (A ++ ["src"]) = Some Dir).
  { rewrite Hf. repeat (rewrite lookup_insert_ne by loc_neq). apply lookup_insert_eq. }
  assert (Hidx : w_fs w' !! ((A ++ ["src"]) ++ ["index.ts"])
                 = Some (File index_ts_body)).
  { rewrite Hf. repeat (rewrite lookup_insert_ne by loc_neq). apply lookup_insert_eq. }
  assert (Hmod : w_fs w' !! ((A ++ ["src"]) ++ ["module.ts"])
                 = Some (File module_ts_body)).
  { rewrite Hf. apply lookup_insert_eq. }
  assert (D0 : lookup_dir (w_fs w') (w_cwd w') EmptyString = Ok cwd).
  { rewrite Hc. now apply lookup_dir_here. }
  assert (D1 : lookup_dir (w_fs w') (w_cwd w') "myapp" = Ok A).
  { exact (lookup_dir_child _ _ EmptyString "myapp" cwd eq_refl D0 HA). }
  assert (D2 : lookup_dir (w_fs w') (w_cwd w') "myapp/src" = Ok (A ++ ["src"])).
  { exact (lookup_dir_child _ _ "myapp" "src" A eq_refl D1 Hsrc). }
  assert (Rp : read_file w' "myapp/package.json"
               = Some (json_encoder.dumps (package_data P))).
  { exact (read_file_join w' "myapp" "package.json" _ A eq_refl D1 Hpkg). }
  assert (Rt : read_file w' "myapp/tsconfig.json"
               = Some (json_encoder.dumps tsconfig_data)).
  { exact (read_file_join w' "myapp" "tsconfig.json" _ A eq_refl D1 Hts). }
  assert (Ri : read_file w' "myapp/src/index.ts" = Some index_ts_body).
  { exact (read_file_join w' "myapp/src" "index.ts" _ _ eq_refl D2 Hidx). }
  assert (Rm : read_file w' "myapp/src/module.ts" = Some module_ts_body).
  { exact (read_file_join w' "myapp/src" "module.ts" _ _ eq_refl D2 Hmod). }
  assert (F : forall p c, read_file w' p = Some c -> isfile_at w' p = true).
  { intros p c. unfold read_file, isfile_at.
    destruct (vfs.stat _ _ p) as [[?|]|]; congruence. }
  exists w'. split; [exact Hrun|].
  split.
  { apply (isdir_at_lookup w' "myapp/" A eq_refl).
    change "myapp/" with ("myapp" +:+ "/"). now rewrite lookup_dir_trailing. }
  split.
  { apply (isdir_at_lookup w' "myapp/src/" (A ++ ["src"]) eq_refl).
    change "myapp/src/" with ("myapp/src" +:+ "/"). now rewrite lookup_dir_trailing. }
  split; [exact (F _ _ Rp)|]. split; [exact (F _ _ Rt)|].
  split; [exact (F _ _ Ri)|]. split; [exact (F _ _ Rm)|].
  split; [|exact Ri].
  exists (json_encoder.dumps (package_data P)), (package_data P).
  split; [exact Rp|]. split; [apply loads_dumps|].
  rewrite manifest_name. unfold P. now rewrite (basename_join _ "myapp" eq_refl).
Qed.

Lemma C5_end_to_end_witness :
  exists w',
    main ["main.py"; "myapp"] home_world = (Ok tt, w')
    /\ isdir_at w' "myapp/" = true
    /\ isdir_at w' "myapp/src/" = true
    /\ isfile_at w' "myapp/package.json" = true
    /\ isfile_at w' "myapp/tsconfig.json" = true
    /\ isfile_at w' "myapp/src/index.ts" = true
    /\ isfile_at w' "myapp/src/module.ts" = true
    /\ (exists text doc,
          read_file w' "myapp/package.json" = Some text
          /\ json_decoder.loads text = Some doc
          /\ json_get "name" doc = Some (JStr "myapp"))
    /\ read_file w' "myapp/src/index.ts" = Some entry_source_of_spec.
Proof. exact (C5_end_to_end "main.py" home_world in_empty_directory_home). Defined.

(** C6.  After a run that ends well, [tsconfig.json] holds a text that
    reads back as the compiler configuration of the specification, field
    by field. *)
Theorem C6_tsconfig_fields (argv : list string) (w w' : world) (u : unit) :
  main argv w = (Ok u, w') ->
  exists text,
    read_file w' (tsconfig_json_path (project_path_of argv w)) = Some text
    /\ json_decoder.loads text =
       Some (JDict [
         ("compilerOptions", JDict [
           ("target", JStr "ES2020");
           ("module", JStr "commonjs");
           ("outDir", JStr "./build");
           ("rootDir", JStr "./src");
           ("strict", JBool true);
           ("esModuleInterop", JBool true);
           ("skipLibCheck", JBool true);
           ("forceConsistentCasingInFileNames", JBool true);
           ("baseUrl", JStr ".");
           ("paths", JDict [
             ("@/*", JList [JStr "src/*"]);
             ("!/*", JList [JStr "./*"])
           ])
         ]);
         ("include", JList [JStr "src/**/*.ts"]);
         ("exclude", JList [JStr "node_modules"])
       ]).
Proof.
  intros H. destruct (main_Ok _ _ _ _ H) as [dP Hs].
  destruct (scaffolded_paths _ _ _ _ Hs) as (_ & Hts & _).
  eexists. split; [exact Hts|]. exact (loads_dumps tsconfig_data).
Qed.

Lemma C6_tsconfig_fields_witness :
  let argv := ["main.py"; "myapp"] in
  exists text,
    read_file (snd (main argv home_world)) "/home/u/myapp/tsconfig.json" = Some text
    /\ json_decoder.loads text = Some compiler_configuration_of_spec.
Proof.
  intros argv.
  assert (Hrun : main argv home_world = (Ok tt, snd (main argv home_world)))
    by (vm_compute; reflexivity).
  exact (C6_tsconfig_fields argv home_world _ tt Hrun).
Defined.

(** C7.  A run that ends well has written the starter text to each
    source that was not a regular file before it.  First for the
    location the path [<target>/src/<name>] names after the run; then for
    the path itself as the presence test reads it before the run, in a
    well-formed file system, when the target exists already or no name
    of its path is [.] or [..]. *)
Theorem C7_absent_sources_written (argv : list string) (w w' : world) (u : unit) :
  main argv w = (Ok u, w') ->
  let P := project_path_of argv w in
  (exists d, lookup_dir (w_fs w') (w_cwd w') (src_path P) = Ok d
     /\ ((forall c, w_fs w !! (d ++ ["index.ts"]) <> Some (File c)) ->
         read_file w' (index_path P) = Some index_ts_body)
     /\ ((forall c, w_fs w !! (d ++ ["module.ts"]) <> Some (File c)) ->
         read_file w' (module_path P) = Some module_ts_body))
  /\ (well_formed (w_fs w) -> exists_at w P = true \/ dot_free P = true ->
      (isfile_at w (index_path P) = false ->
       read_file w' (index_path P) = Some index_ts_body)
      /\ (isfile_at w (module_path P) = false ->
          read_file w' (module_path P) = Some module_ts_body)).
Proof.
  intros H P. destruct (main_Ok _ _ _ _ H) as [dP Hs]. fold P in Hs.
  destruct (scaffolded_paths _ _ _ _ Hs) as (_ & _ & _ & Hi & Hm).
  pose proof Hs as (Hc & HdP & _ & _ & Hsrc & _ & _ & Hev).
  assert (A : forall n body,
    (forall c, w_fs w !! ((dP ++ ["src"]) ++ [n]) <> Some (File c)) ->
    content_or (w_fs w) ((dP ++ ["src"]) ++ [n]) body = body).
  { intros n body Hno. unfold content_or.
    destruct (w_fs w !! ((dP ++ ["src"]) ++ [n])) as [[c|]|] eqn:E;
      [exfalso; exact (Hno c eq_refl) | reflexivity | reflexivity]. }
  split.
  - exists (dP ++ ["src"]). split; [exact (lookup_dir_src_Ok _ _ _ _ HdP Hsrc)|].
    split; intros Hno; [rewrite Hi | rewrite Hm]; f_equal; now apply A.
  - intros Hwf Hex.
    assert (B : forall n, simple_name n = true ->
      isfile_at w (posixpath.join (src_path P) n) = false ->
      forall c, w_fs w !! ((dP ++ ["src"]) ++ [n]) <> Some (File c)).
    { intros n Hn Hno c Hf.
      pose proof (well_formed_dir _ _ _ _ Hwf Hf) as Hd.
      rewrite node_at_snoc in Hd.
      assert (Hd0 : lookup_dir (w_fs w) (w_cwd w) P = Ok dP).
      { destruct Hex as [Hex|Hdf].
        - unfold exists_at in Hex.
          destruct (vfs.stat (w_fs w) (w_cwd w) P) as [[s|]|] eqn:Hst;
            [| |discriminate].
          + rewrite Hc in HdP.
            destruct (stat_file_no_dir _ _ _ _ _ _ _ Hev Hst HdP).
          + destruct (stat_dir_lookup _ _ _ Hst) as [d0 Hd0].
            pose proof (lookup_dir_kept _ _ _ Hev _ _ _ Hd0) as K.
            rewrite <- Hc in K. congruence.
        - rewrite Hc in HdP.
          apply (lookup_dir_back _ _ _ _ _ Hwf Hdf (project_path_abs argv w) HdP).
          exact (well_formed_dir _ _ _ _ Hwf Hd). }
      unfold isfile_at in Hno.
      rewrite (stat_join _ _ _ _ Hn), (lookup_dir_src_Ok _ _ _ _ Hd0 Hd), Hf in Hno.
      discriminate. }
    split; intros Hno; [rewrite Hi | rewrite Hm]; f_equal; apply A;
      apply B; (reflexivity || assumption).
Qed.

Lemma C7_absent_sources_written_witness :
  let argv := ["main.py"; "myapp"] in
  let w' := snd (main argv home_world) in
  isfile_at home_world "/home/u/myapp/src/index.ts" = false
  /\ isfile_at home_world "/home/u/myapp/src/module.ts" = false
  /\ read_file w' "/home/u/myapp/src/index.ts" = Some index_ts_body
  /\ read_file w' "/home/u/myapp/src/module.ts" = Some module_ts_body.
Proof.
  intros argv w'.
  assert (Hrun : main argv home_world = (Ok tt, w')) by (vm_compute; reflexivity).
  destruct (C7_absent_sources_written argv home_world w' tt Hrun) as (_ & H).
  destruct (H well_formed_home (or_intror eq_refl)) as [Hi Hm].
  assert (Ni : isfile_at home_world (index_path (project_path_of argv home_world))
               = false) by (vm_compute; reflexivity).
  assert (Nm : isfile_at home_world (module_path (project_path_of argv home_world))
               = false) by (vm_compute; reflexivity).
  split; [exact Ni|]. split; [exact Nm|].
  split; [exact (Hi Ni) | exact (Hm Nm)].
Defined.

(** C8.  [main] catches nothing: when a stage fails after the stages
    before it ended well, the run ends at once with that stage's error
    and in the world that stage left, nothing being undone; a manifest
    written before the failure is still there, and so is a compiler
    configuration written before it.  Conversely every failure of a run
    is the failure of one of its first five stages (the report cannot
    fail), which ran after the earlier ones ended well. *)
Theorem C8_first_error_aborts (argv : list string) (w : world) :
  let P := project_path_of argv w in
  let stages := main_stages P in
  (forall (k : nat) (m : M unit) (w1 w2 : world) (e : exn),
     stages !! k = Some m ->
     run_stages (take k stages) w = (Ok tt, w1) ->
     m w1 = (Raise e, w2) ->
     main argv w = (Raise e, w2)
     /\ ((2 < k)%nat ->
         read_file w2 (package_json_path P)
         = Some (json_encoder.dumps (package_data P)))
     /\ ((3 < k)%nat ->
         read_file w2 (tsconfig_json_path P)
         = Some (json_encoder.dumps tsconfig_data)))
  /\ (forall (e : exn) (w' : world),
       main argv w = (Raise e, w') ->
       exists (k : nat) (m : M unit) (w1 : world),
         (k <= 4)%nat
         /\ stages !! k = Some m
         /\ run_stages (take k stages) w = (Ok tt, w1)
         /\ m w1 = (Raise e, w')).
Proof.
  intros P stages. split.
  - intros k m w1 w2 e Hl Hr Hm. split; [|split].
    + rewrite main_stages_eq. exact (run_stages_abort _ k m w w1 w2 e Hl Hr Hm).
    + intros Hk. destruct k as [|[|[|j]]]; try lia.
      unfold stages, main_stages in Hl, Hr. cbn [lookup list_lookup] in Hl.
      cbn [take] in Hr.
      apply run_stages_cons_Ok in Hr as (wa & _ & Hr).
      apply run_stages_cons_Ok in Hr as (wb & _ & Hr).
      apply run_stages_cons_Ok in Hr as (wc & Hpkg & Hr).
      rewrite generate_package_json_eq in Hpkg.
      apply (config_written _ _ _ _ _ _ simple_package_json) in Hpkg.
      refine (stages_keep
                (fun w0 => read_file w0 (posixpath.join P "package.json")
                           = Some (json_encoder.dumps (package_data P)))
                _ _ j m wc w1 w2 _ Hl Hr Hm Hpkg).
      destruct (later_stages_keep_config P "package.json"
                  (json_encoder.dumps (package_data P)) eq_refl) as [K4 K5].
      { simpl. intros [H|[H|[]]]; discriminate. }
      repeat constructor; [|exact K4|exact K5].
      apply (steps_preserves_file (named ["tsconfig.json"]) _ P "package.json" _ eq_refl).
      * apply named_avoids. simpl. intros [H|[]]; discriminate.
      * apply silent_steps, silent_generate_tsconfig_json.
    + intros Hk. destruct k as [|[|[|[|j]]]]; try lia.
      unfold stages, main_stages in Hl, Hr. cbn [lookup list_lookup] in Hl.
      cbn [take] in Hr.
      apply run_stages_cons_Ok in Hr as (wa & _ & Hr).
      apply run_stages_cons_Ok in Hr as (wb & _ & Hr).
      apply run_stages_cons_Ok in Hr as (wc & _ & Hr).
      apply run_stages_cons_Ok in Hr as (wd & Hts & Hr).
      rewrite generate_tsconfig_json_eq in Hts.
      apply (config_written _ _ _ _ _ _ simple_tsconfig_json) in Hts.
      refine (stages_keep
                (fun w0 => read_file w0 (posixpath.join P "tsconfig.json")
                           = Some (json_encoder.dumps tsconfig_data))
                _ _ j m wd w1 w2 _ Hl Hr Hm Hts).
      destruct (later_stages_keep_config P "tsconfig.json"
                  (json_encoder.dumps tsconfig_data) eq_refl) as [K4 K5].
      { simpl. intros [H|[H|[]]]; discriminate. }
      repeat constructor; [exact K4|exact K5].
  - intros e w' H. rewrite main_stages_eq in H. fold P in H.
    destruct (run_stages_failed _ _ _ _ H) as (k & m & w1 & Hl & Hr & Hm).
    exists k, m, w1. split; [|auto].
    destruct k as [|[|[|[|[|[|k]]]]]]; try lia.
    + unfold main_stages in Hl. cbn in Hl. injection Hl as <-.
      destruct (settled_report P w1) as (w2 & E & _). congruence.
    + unfold main_stages in Hl. discriminate.
Qed.

Lemma C8_first_error_aborts_witness :
  let argv := ["main.py"; "myapp"] in
  let stages := main_stages "/home/u/myapp" in
  let w1 := snd (run_stages (take 3 stages) blocked_world) in
  main argv blocked_world = (Raise IsADirectoryError, w1)
  /\ read_file w1 "/home/u/myapp/package.json"
     = Some (json_encoder.dumps (package_data "/home/u/myapp")).
Proof.
  intros argv stages w1.
  destruct (C8_first_error_aborts argv blocked_world) as [H _].
  destruct (H 3%nat (generate_tsconfig_json "/home/u/myapp") w1 w1 IsADirectoryError)
    as (Hm & Hp & _).
  - reflexivity.
  - vm_compute. reflexivity.
  - vm_compute. reflexivity.
  - split; [exact Hm|]. apply Hp. lia.
Defined.

(** C9.  When [<target>/src] is a regular file (and neither
    configuration file is a directory), the run writes both
    configuration files and then fails with [NotADirectoryError] on
    opening [<target>/src/index.ts]: the presence test on [src] asks
    only whether it exists.  The configuration files stay written,
    [src] stays the file it was, and nothing is printed after the
    first line. *)
Theorem C9_src_is_a_regular_file (argv : list string) (w : world) (c : string) :
  let P := project_path_of argv w in
  read_file w (src_path P) = Some c ->
  isdir_at w (package_json_path P) = false ->
  isdir_at w (tsconfig_json_path P) = false ->
  exists w',
    main argv w = (Raise NotADirectoryError, w')
    /\ read_file w' (package_json_path P)
       = Some (json_encoder.dumps (package_data P))
    /\ read_file w' (tsconfig_json_path P) = Some (json_encoder.dumps tsconfig_data)
    /\ read_file w' (src_path P) = Some c
    /\ exists_at w' (index_path P) = false
    /\ w_stdout w'
       = w_stdout w +:+ ("Initializing TypeScript project in: " +:+ P) +:+ nl.
Proof.
  intros P Hsrc Hpkg Hts.
  apply (read_file_join_inv _ _ _ _ simple_src) in Hsrc as (dP & HdP & Hf).
  pose proof (not_dir_of_isdir _ _ _ _ simple_package_json HdP Hpkg) as Npkg.
  pose proof (not_dir_of_isdir _ _ _ _ simple_tsconfig_json HdP Hts) as Nts.
  set (out := w_stdout w +:+ ("Initializing TypeScript project in: " +:+ P) +:+ nl).
  set (w2 := World (w_fs w) (w_cwd w) out).
  set (fs3 := <[dP ++ ["package.json"] := File (json_encoder.dumps (package_data P))]>
                (w_fs w)).
  set (fs4 := <[dP ++ ["tsconfig.json"] := File (json_encoder.dumps tsconfig_data)]> fs3).
  set (w4 := World fs4 (w_cwd w) out).
  assert (Hd3 : lookup_dir fs3 (w_cwd w) P = Ok dP)
    by (apply lookup_dir_insert_file; assumption).
  assert (Nts3 : fs3 !! (dP ++ ["tsconfig.json"]) <> Some Dir).
  { unfold fs3. rewrite lookup_insert_ne; [exact Nts|]. now apply snoc_ne. }
  assert (Hd4 : lookup_dir fs4 (w_cwd w) P = Ok dP)
    by (apply lookup_dir_insert_file; assumption).
  assert (Hf4 : fs4 !! (dP ++ ["src"]) = Some (File c)).
  { unfold fs4, fs3. rewrite !lookup_insert_ne; [exact Hf | |]; now apply snoc_ne. }
  assert (Hp4 : fs4 !! (dP ++ ["package.json"])
                = Some (File (json_encoder.dumps (package_data P)))).
  { unfold fs4, fs3. rewrite lookup_insert_ne; [apply lookup_insert_eq|].
    now apply snoc_ne. }
  assert (Ht4 : fs4 !! (dP ++ ["tsconfig.json"])
                = Some (File (json_encoder.dumps tsconfig_data)))
    by apply lookup_insert_eq.
  exists w4. split; [|split; [|split; [|split; [|split]]]].
  - rewrite main_stages_eq. fold P. unfold main_stages. cbn [run_stages].
    rewrite (bind_Ok_eq _ _ _ _ _
               (ensure_project_dir_there P w dP (project_path_nonempty argv w) HdP)).
    rewrite (bind_Ok_eq _ _ _ _ _ (announce_eq P w)). fold out. fold w2.
    assert (E2 : generate_package_json P w2 = (Ok tt, World fs3 (w_cwd w) out)).
    { rewrite generate_package_json_eq. exact (put_file_run _ _ _ w2 dP HdP Npkg). }
    rewrite (bind_Ok_eq _ _ _ _ _ E2).
    assert (E3 : generate_tsconfig_json P (World fs3 (w_cwd w) out) = (Ok tt, w4)).
    { rewrite generate_tsconfig_json_eq.
      exact (put_file_run _ _ _ (World fs3 (w_cwd w) out) dP Hd3 Nts3). }
    rewrite (bind_Ok_eq _ _ _ _ _ E3).
    apply bind_Raise_eq. exact (ensure_src_on_file P c w4 dP Hd4 Hf4).
  - exact (read_file_join w4 P _ _ dP simple_package_json Hd4 Hp4).
  - exact (read_file_join w4 P _ _ dP simple_tsconfig_json Hd4 Ht4).
  - exact (read_file_join w4 P _ _ dP simple_src Hd4 Hf4).
  - unfold exists_at, index_path. rewrite (stat_join _ _ _ _ simple_index_ts).
    cbn [w_fs w_cwd w4]. now rewrite (lookup_dir_src_file _ _ _ _ _ Hd4 Hf4).
  - reflexivity.
Qed.

Lemma C9_src_is_a_regular_file_witness :
  let argv := ["main.py"; "myapp"] in
  exists w',
    main argv src_file_world = (Raise NotADirectoryError, w')
    /\ read_file w' "/home/u/myapp/package.json"
       = Some (json_encoder.dumps (package_data "/home/u/myapp"))
    /\ read_file w' "/home/u/myapp/tsconfig.json"
       = Some (json_encoder.dumps tsconfig_data)
    /\ read_file w' "/home/u/myapp/src" = Some "notes".
Proof.
  intros argv.
  destruct (C9_src_is_a_regular_file argv src_file_world "notes")
    as (w' & H & Hp & Ht & Hs & _); [reflexivity | reflexivity | reflexivity |].
  exists w'. split; [exact H|]. split; [exact Hp|]. split; [exact Ht | exact Hs].
Defined.

(** C10.  Only the first argument matters: two invocations that agree on
    it (or both lack it) act alike on every world, whatever the program
    name and the further arguments are. *)
Theorem C10_only_first_argument (argv1 argv2 : list string) (w : world) :
  argv1 !! 1%nat = argv2 !! 1%nat -> main argv1 w = main argv2 w.
Proof.
  intros H. unfold main.
  assert (E : resolve_project_path argv1 w = resolve_project_path argv2 w).
  { destruct (argv2 !! 1%nat) as [a|] eqn:H2.
    - now rewrite (resolve_project_path_arg argv1 w a H),
        (resolve_project_path_arg argv2 w a H2).
    - now rewrite (resolve_project_path_no_arg argv1 w H),
        (resolve_project_path_no_arg argv2 w H2). }
  unfold bind at 1. symmetry. unfold bind at 1. now rewrite E.
Qed.

Lemma C10_only_first_argument_witness :
  main ["main.py"; "myapp"; "--force"; "other"] home_world
  = main ["tscinit"; "myapp"] home_world.
Proof. apply C10_only_first_argument. reflexivity. Defined.

(** * Further properties *)

(** ** What is printed *)

Section Transcript.

Lemma join_src_index (P : string) : posixpath.join P "src/index.ts" = index_path P.
Proof.
  unfold index_path. rewrite (join_simple (src_path P) "index.ts" simple_index_ts).
  unfold src_path.
  rewrite (is_empty_join P "src" simple_src), (endswith_join P "src" simple_src).
  cbn [orb]. rewrite (join_simple P "src" simple_src).
  unfold posixpath.join. cbn [startswith]. change (Ascii.eqb "s" sep) with false.
  cbn iota. destruct (is_empty P || endswith sep P); now rewrite append_assoc.
Qed.

Lemma print_eq (s : string) (w : world) :
  print s w = (Ok tt, World (w_fs w) (w_cwd w) (w_stdout w +:+ s +:+ nl)).
Proof. reflexivity. Qed.

Lemma report_eq (P : string) (w : world) :
  report P w
  = (Ok tt, World (w_fs w) (w_cwd w)
      (w_stdout w
       +:+ "Success! The following files have been created/updated:" +:+ nl
       +:+ "  - " +:+ package_json_path P +:+ nl
       +:+ "  - " +:+ tsconfig_json_path P +:+ nl
       +:+ "  - " +:+ index_path P +:+ nl
       +:+ nl +:+ "Next steps:" +:+ nl
       +:+ "  1. cd into your project directory." +:+ nl
       +:+ "  2. Run `npm install` to install local dev dependencies (TypeScript)." +:+ nl
       +:+ "  3. Run `npm run build` to compile TypeScript => JavaScript in build/." +:+ nl
       +:+ "  4. Run `npm run start` to execute the compiled JS from build/." +:+ nl
       +:+ nl +:+ "Now your ESM imports in the compiled code will have '.js' appended automatically!" +:+ nl)).
Proof.
  unfold report.
  repeat (rewrite (bind_Ok_eq _ _ _ _ _ (print_eq _ _)); cbn [w_fs w_cwd w_stdout]).
  rewrite print_eq. cbn [w_fs w_cwd w_stdout].
  rewrite join_src_index. unfold package_json_path, tsconfig_json_path.
  f_equal. f_equal. repeat rewrite append_assoc. reflexivity.
Qed.

End Transcript.

Section TranscriptRun.

Lemma silent_stdout {A} (W : loc -> Prop) (m : M A) (w w' : world) (r : result A) :
  silent W m -> m w = (r, w') -> w_stdout w' = w_stdout w.
Proof. intros Hs H. now destruct (Hs _ _ _ H). Qed.

Lemma isfile_of_read (w : world) (p c : string) :
  read_file w p = Some c -> isfile_at w p = true.
Proof.
  unfold read_file, isfile_at.
  destruct (vfs.stat (w_fs w) (w_cwd w) p) as [[s|]|e]; now intros.
Qed.

(** X1.  A run that ends well has printed eleven lines and nothing else:
    the project path, the paths of [package.json], [tsconfig.json] and
    [src/index.ts], and the fixed next steps.  Each of the three paths
    printed is that of a regular file after the run ([src/module.ts] is
    written too, but not listed). *)
Theorem X1_success_transcript (argv : list string) (w w' : world) (u : unit) :
  main argv w = (Ok u, w') ->
  let P := project_path_of argv w in
  w_stdout w'
  = w_stdout w
    +:+ "Initializing TypeScript project in: " +:+ P +:+ nl
    +:+ "Success! The following files have been created/updated:" +:+ nl
    +:+ "  - " +:+ package_json_path P +:+ nl
    +:+ "  - " +:+ tsconfig_json_path P +:+ nl
    +:+ "  - " +:+ index_path P +:+ nl
    +:+ nl +:+ "Next steps:" +:+ nl
    +:+ "  1. cd into your project directory." +:+ nl
    +:+ "  2. Run `npm install` to install local dev dependencies (TypeScript)." +:+ nl
    +:+ "  3. Run `npm run build` to compile TypeScript => JavaScript in build/." +:+ nl
    +:+ "  4. Run `npm run start` to execute the compiled JS from build/." +:+ nl
    +:+ nl +:+ "Now your ESM imports in the compiled code will have '.js' appended automatically!" +:+ nl
  /\ isfile_at w' (package_json_path P) = true
  /\ isfile_at w' (tsconfig_json_path P) = true
  /\ isfile_at w' (index_path P) = true.
Proof.
  intros H P. split.
  - rewrite main_stages_eq in H. fold P in H. unfold main_stages in H.
    apply run_stages_cons_Ok in H as (w1 & H0 & H).
    apply run_stages_cons_Ok in H as (w2 & H1 & H).
    apply run_stages_cons_Ok in H as (w3 & H2 & H).
    apply run_stages_cons_Ok in H as (w4 & H3 & H).
    apply run_stages_cons_Ok in H as (w5 & H4 & H).
    apply run_stages_cons_Ok in H as (w6 & H5 & H).
    injection H as _ <-.
    pose proof (silent_stdout _ _ _ _ _ (silent_ensure_project_dir (fun _ => False) P) H0) as O0.
    rewrite announce_eq in H1. injection H1 as <-.
    pose proof (silent_stdout _ _ _ _ _ (silent_generate_package_json P) H2) as O2.
    pose proof (silent_stdout _ _ _ _ _ (silent_generate_tsconfig_json P) H3) as O3.
    pose proof (silent_stdout _ _ _ _ _ (silent_ensure_src P) H4) as O4.
    rewrite report_eq in H5. injection H5 as <-.
    cbn [w_stdout] in *. rewrite O4, O3, O2, O0.
    repeat first [rewrite append_assoc | progress cbn [String.append]]. reflexivity.
  - destruct (main_Ok _ _ _ _ H) as [dP Hs]. fold P in Hs.
    destruct (scaffolded_paths _ _ _ _ Hs) as (Hp & Ht & _ & Hi & _).
    repeat split; eapply isfile_of_read; eassumption.
Qed.

Lemma X1_success_transcript_witness :
  let w' := snd (main ["main.py"; "myapp"] home_world) in
  w_stdout w'
  = "Initializing TypeScript project in: /home/u/myapp" +:+ nl
    +:+ "Success! The following files have been created/updated:" +:+ nl
    +:+ "  - /home/u/myapp/package.json" +:+ nl
    +:+ "  - /home/u/myapp/tsconfig.json" +:+ nl
    +:+ "  - /home/u/myapp/src/index.ts" +:+ nl
    +:+ nl +:+ "Next steps:" +:+ nl
    +:+ "  1. cd into your project directory." +:+ nl
    +:+ "  2. Run `npm install` to install local dev dependencies (TypeScript)." +:+ nl
    +:+ "  3. Run `npm run build` to compile TypeScript => JavaScript in build/." +:+ nl
    +:+ "  4. Run `npm run start` to execute the compiled JS from build/." +:+ nl
    +:+ nl +:+ "Now your ESM imports in the compiled code will have '.js' appended automatically!" +:+ nl
  /\ isfile_at w' "/home/u/myapp/package.json" = true
  /\ isfile_at w' "/home/u/myapp/tsconfig.json" = true
  /\ isfile_at w' "/home/u/myapp/src/index.ts" = true.
Proof.
  assert (E : main ["main.py"; "myapp"] home_world
              = (Ok tt, snd (main ["main.py"; "myapp"] home_world)))
    by (vm_compute; reflexivity).
  exact (X1_success_transcript _ _ _ _ E).
Defined.

(** X2.  A run that fails has printed nothing when it is the project
    directory that could not be created, and the first line only
    otherwise: the lines that report success are printed by the runs
    that end well and by no other. *)
Theorem X2_failure_transcript (argv : list string) (w w' : world) (e : exn) :
  main argv w = (Raise e, w') ->
  let P := project_path_of argv w in
  (ensure_project_dir P w = (Raise e, w') /\ w_stdout w' = w_stdout w)
  \/ w_stdout w' = w_stdout w +:+ "Initializing TypeScript project in: " +:+ P +:+ nl.
Proof.
  intros H P. rewrite main_stages_eq in H. fold P in H.
  unfold main_stages in H. cbn [run_stages] in H.
  destruct (ensure_project_dir P w) as [[[]|e0] w1] eqn:H0.
  2:{ rewrite (bind_Raise_eq _ _ _ _ _ H0) in H. injection H as <- <-.
      left. split; [reflexivity|].
      exact (silent_stdout _ _ _ _ _ (silent_ensure_project_dir (fun _ => False) P) H0). }
  right.
  pose proof (silent_stdout _ _ _ _ _ (silent_ensure_project_dir (fun _ => False) P) H0) as O0.
  rewrite (bind_Ok_eq _ _ _ _ _ H0) in H.
  rewrite (bind_Ok_eq _ _ _ _ _ (announce_eq P w1)) in H.
  set (w2 := World _ _ _) in H.
  assert (O2 : w_stdout w2
               = w_stdout w +:+ "Initializing TypeScript project in: " +:+ P +:+ nl).
  { unfold w2. cbn [w_stdout]. rewrite O0. now rewrite append_assoc. }
  clearbody w2.
  destruct (generate_package_json P w2) as [[[]|e2] w3] eqn:H2.
  2:{ rewrite (bind_Raise_eq _ _ _ _ _ H2) in H. injection H as <- <-.
      now rewrite (silent_stdout _ _ _ _ _ (silent_generate_package_json P) H2). }
  pose proof (silent_stdout _ _ _ _ _ (silent_generate_package_json P) H2) as O3.
  rewrite (bind_Ok_eq _ _ _ _ _ H2) in H.
  destruct (generate_tsconfig_json P w3) as [[[]|e3] w4] eqn:H3.
  2:{ rewrite (bind_Raise_eq _ _ _ _ _ H3) in H. injection H as <- <-.
      rewrite (silent_stdout _ _ _ _ _ (silent_generate_tsconfig_json P) H3). congruence. }
  pose proof (silent_stdout _ _ _ _ _ (silent_generate_tsconfig_json P) H3) as O4.
  rewrite (bind_Ok_eq _ _ _ _ _ H3) in H.
  destruct (ensure_src_index_ts P w4) as [[[]|e4] w5] eqn:H4.
  2:{ rewrite (bind_Raise_eq _ _ _ _ _ H4) in H. injection H as <- <-.
      rewrite (silent_stdout _ _ _ _ _ (silent_ensure_src P) H4). congruence. }
  rewrite (bind_Ok_eq _ _ _ _ _ H4) in H.
  rewrite (bind_Ok_eq _ _ _ _ _ (report_eq P w5)) in H. discriminate.
Qed.

Lemma X2_failure_transcript_witness :
  let argv := ["main.py"; "myapp"] in
  let w' := snd (main argv blocked_world) in
  (ensure_project_dir "/home/u/myapp" blocked_world = (Raise IsADirectoryError, w')
   /\ w_stdout w' = EmptyString)
  \/ w_stdout w' = "Initializing TypeScript project in: /home/u/myapp" +:+ nl.
Proof.
  assert (E : main ["main.py"; "myapp"] blocked_world
              = (Raise IsADirectoryError, snd (main ["main.py"; "myapp"] blocked_world)))
    by (vm_compute; reflexivity).
  exact (X2_failure_transcript _ _ _ _ E).
Defined.

(** X3.  After a run that ends well the project path and its [src]
    are directories, and [package.json], [tsconfig.json], [src/index.ts]
    and [src/module.ts] are regular files, whatever was there before. *)
Theorem X3_project_layout (argv : list string) (w w' : world) (u : unit) :
  main argv w = (Ok u, w') ->
  let P := project_path_of argv w in
  isdir_at w' P = true
  /\ isdir_at w' (src_path P) = true
  /\ isfile_at w' (package_json_path P) = true
  /\ isfile_at w' (tsconfig_json_path P) = true
  /\ isfile_at w' (index_path P) = true
  /\ isfile_at w' (module_path P) = true.
Proof.
  intros H P. destruct (main_Ok _ _ _ _ H) as [dP Hs]. fold P in Hs.
  destruct (scaffolded_paths _ _ _ _ Hs) as (Hp & Ht & Hsrc & Hi & Hm).
  destruct Hs as (_ & HdP & _).
  split; [|split; [exact Hsrc|]].
  - exact (isdir_at_lookup w' P dP (project_path_nonempty argv w) HdP).
  - repeat split; eapply isfile_of_read; eassumption.
Qed.

Lemma X3_project_layout_witness :
  let w' := snd (main ["main.py"; "a/b"] home_world) in
  isdir_at w' "/home/u/a/b" = true
  /\ isdir_at w' "/home/u/a/b/src" = true
  /\ isfile_at w' "/home/u/a/b/package.json" = true
  /\ isfile_at w' "/home/u/a/b/tsconfig.json" = true
  /\ isfile_at w' "/home/u/a/b/src/index.ts" = true
  /\ isfile_at w' "/home/u/a/b/src/module.ts" = true.
Proof.
  assert (E : main ["main.py"; "a/b"] home_world
              = (Ok tt, snd (main ["main.py"; "a/b"] home_world)))
    by (vm_compute; reflexivity).
  exact (X3_project_layout _ _ _ _ E).
Defined.

End TranscriptRun.

(** ** The name of the manifest, in general *)

Section NameOfManifest.

Lemma str_drop_all (a : string) : str_drop (String.length a) a = EmptyString.
Proof. induction a as [|x a IH]; [reflexivity | exact IH]. Qed.

Lemma basename_trailing (p : string) :
  endswith sep p = true -> posixpath.basename p = EmptyString.
Proof.
  intros H. apply endswith_snoc in H as [s' ->]. unfold posixpath.basename.
  rewrite (rfind_app_sep s' EmptyString eq_refl).
  replace (Z.to_nat (Z.of_nat (String.length s') + 1))
    with (String.length (s' +:+ String sep EmptyString))
    by (rewrite length_append; cbn; lia).
  apply str_drop_all.
Qed.

Lemma basename_cons_sep (a : string) :
  posixpath.basename (String sep a) = posixpath.basename a.
Proof.
  unfold posixpath.basename. rewrite rfind_cons.
  destruct (has_char sep a) eqn:Hc.
  - pose proof (rfind_some sep a Hc) as Hr.
    destruct (0 <=? rfind sep a) eqn:E; [|apply Z.leb_gt in E; lia].
    replace (Z.to_nat (rfind sep a + 1 + 1)) with (S (Z.to_nat (rfind sep a + 1))) by lia.
    reflexivity.
  - rewrite (rfind_none sep a Hc). reflexivity.
Qed.

Lemma basename_app_sep (Y a : string) :
  posixpath.basename (Y +:+ String sep a) = posixpath.basename a.
Proof.
  induction Y as [|y Y IH]; [apply basename_cons_sep|].
  rewrite append_cons. rewrite <- IH. unfold posixpath.basename at 1.
  rewrite rfind_cons.
  assert (Hc : has_char sep (Y +:+ String sep a) = true).
  { rewrite has_char_append. cbn [has_char]. change (Ascii.eqb sep sep) with true.
    cbn [orb]. apply orb_true_r. }
  pose proof (rfind_some sep _ Hc) as Hr.
  destruct (0 <=? rfind sep (Y +:+ String sep a)) eqn:E; [|apply Z.leb_gt in E; lia].
  replace (Z.to_nat (rfind sep (Y +:+ String sep a) + 1 + 1))
    with (S (Z.to_nat (rfind sep (Y +:+ String sep a) + 1))) by lia.
  reflexivity.
Qed.

(** [basename] sees the last argument of [join] only. *)
Lemma basename_join_any (X a : string) :
  posixpath.basename (posixpath.join X a) = posixpath.basename a.
Proof.
  unfold posixpath.join. destruct (startswith sep a); [reflexivity|].
  destruct X as [|x X]; [reflexivity|]. cbn [is_empty orb].
  destruct (endswith sep (String x X)) eqn:He.
  - apply endswith_snoc in He as [Y ->].
    rewrite append_assoc. cbn [String.append]. apply basename_app_sep.
  - apply basename_app_sep.
Qed.

(** X4.  The [name] a run writes to the manifest is empty when the
    project path ends in a separator and is the last name of the path
    otherwise; with an argument, it is the text after the last separator
    of the argument as typed, whatever the working directory; with none,
    it is the name of the working directory. *)
Theorem X4_manifest_name_in_general (argv : list string) (w w' : world) (u : unit) :
  main argv w = (Ok u, w') ->
  let P := project_path_of argv w in
  exists text doc,
    read_file w' (package_json_path P) = Some text
    /\ json_decoder.loads text = Some doc
    /\ json_get "name" doc
       = Some (JStr (if endswith sep P then EmptyString else final_segment P))
    /\ (forall a, argv !! 1%nat = Some a ->
        json_get "name" doc = Some (JStr (posixpath.basename a)))
    /\ (argv !! 1%nat = None -> forallb simple_name (w_cwd w) = true ->
        json_get "name" doc
        = Some (JStr (match last (w_cwd w) with Some c => c | None => EmptyString end))).
Proof.
  intros H P.
  destruct (manifest_names_final_segment _ _ _ _ H) as (text & doc & Hr & Hl & Hn & Hf).
  fold P in Hr, Hn, Hf. exists text, doc.
  assert (Hgen : json_get "name" doc
                 = Some (JStr (if endswith sep P then EmptyString else final_segment P))).
  { destruct (endswith sep P) eqn:He.
    - now rewrite Hn, (basename_trailing P He).
    - now apply Hf. }
  repeat split; try assumption.
  - intros a Ha. rewrite Hn. do 2 f_equal. unfold P, project_path_of.
    rewrite (resolve_project_path_arg argv w a Ha).
    destruct (posixpath.isabs a); [reflexivity | apply basename_join_any].
  - intros Ha Hs. rewrite Hgen. do 2 f_equal.
    assert (HP : P = vfs.path_of_loc (w_cwd w)).
    { unfold P, project_path_of. now rewrite (resolve_project_path_no_arg argv w Ha). }
    rewrite HP. unfold final_segment. rewrite (components_path_of_loc _ Hs).
    destruct (w_cwd w) as [|c l] eqn:E; [reflexivity|].
    now rewrite (endswith_path_of_loc c l Hs).
Qed.

Lemma X4_manifest_name_in_general_witness :
  let argv := ["main.py"; "apps/myapp/"] in
  let w' := snd (main argv home_world) in
  exists text doc,
    read_file w' "/home/u/apps/myapp/package.json" = Some text
    /\ json_decoder.loads text = Some doc
    /\ json_get "name" doc = Some (JStr EmptyString).
Proof.
  assert (E : main ["main.py"; "apps/myapp/"] home_world
              = (Ok tt, snd (main ["main.py"; "apps/myapp/"] home_world)))
    by (vm_compute; reflexivity).
  destruct (X4_manifest_name_in_general _ _ _ _ E) as (text & doc & Hr & Hl & Hn & _).
  exists text, doc. repeat split; assumption.
Defined.

End NameOfManifest.

(** ** Relative and absolute arguments *)

Section SameProject.

Lemma main_by_project_path (argv argv' : list string) (w : world) :
  project_path_of argv w = project_path_of argv' w -> main argv w = main argv' w.
Proof. intros E. now rewrite !main_stages_eq, E. Qed.

Lemma isabs_join_abs (X a : string) :
  posixpath.isabs X = true -> posixpath.isabs (posixpath.join X a) = true.
Proof.
  unfold posixpath.join, posixpath.isabs. intros HX.
  destruct (startswith sep a) eqn:Ha; [exact Ha|].
  destruct X as [|x X]; [discriminate|].
  destruct (is_empty (String x X) || endswith sep (String x X)); exact HX.
Qed.

(** X5.  A run with a relative first argument is the run with that
    argument joined to the working directory, and a run with no argument
    is the run with the working directory as its argument: same outcome,
    same file system, same output. *)
Theorem X5_relative_argument_is_absolute_one (prog prog' : string) (rest rest' : list string)
    (a : string) (w : world) :
  main (prog :: a :: rest) w
  = main (prog' :: (if posixpath.isabs a then a
                    else posixpath.join (vfs.path_of_loc (w_cwd w)) a) :: rest') w
  /\ main [prog] w = main (prog' :: vfs.path_of_loc (w_cwd w) :: rest') w.
Proof.
  split; apply main_by_project_path; unfold project_path_of.
  - rewrite (resolve_project_path_arg (prog :: a :: rest) w a eq_refl).
    rewrite (resolve_project_path_arg (prog' :: _ :: rest') w _ eq_refl).
    destruct (posixpath.isabs a) eqn:Ha; [now rewrite Ha|].
    now rewrite (isabs_join_abs _ a (path_of_loc_abs (w_cwd w))).
  - rewrite (resolve_project_path_no_arg [prog] w eq_refl).
    rewrite (resolve_project_path_arg (prog' :: _ :: rest') w _ eq_refl).
    now rewrite path_of_loc_abs.
Qed.

End SameProject.

(** ** [split] after [join], whatever the first part *)

Section SplitJoin.

Import vfs.

Lemma rstrip_empty_all (s : string) :
  rstrip sep s = EmptyString -> all_char sep s = true.
Proof.
  induction s as [|a r IH]; [reflexivity|]. cbn [rstrip all_char].
  destruct (rstrip sep r) as [|b r'] eqn:E; [|discriminate].
  destruct (Ascii.eqb a sep); [intros _; now apply IH | discriminate].
Qed.

Lemma rstrip_nonempty (s : string) :
  all_char sep s = false -> is_empty (rstrip sep s) = false.
Proof.
  intros H. destruct (rstrip sep s) as [|b r'] eqn:E; [|reflexivity].
  apply rstrip_empty_all in E. congruence.
Qed.

Lemma rstrip_decomp (s : string) :
  exists t, s = rstrip sep s +:+ t /\ all_char sep t = true.
Proof.
  induction s as [|a r (t & Ht & Hall)]; [now exists EmptyString|].
  cbn [rstrip]. destruct (rstrip sep r) as [|b r'] eqn:E.
  - destruct (Ascii.eqb a sep) eqn:Ea.
    + exists (String a r). split; [reflexivity|]. cbn [all_char].
      rewrite Ea. now apply rstrip_empty_all.
    + exists t. split; [|exact Hall]. now rewrite Ht at 1.
  - exists t. split; [|exact Hall]. now rewrite Ht at 1.
Qed.






End SplitJoin.

(** ** Each stage, run in a directory that exists *)

Section StageRuns.

Import vfs.

Lemma ensure_file_run (X n body : string) (w : world) (d : loc) :
  simple_name n = true ->
  lookup_dir (w_fs w) (w_cwd w) X = Ok d ->
  w_fs w !! (d ++ [n]) <> Some Dir ->
  exists w',
    ensure_file X n body w = (Ok tt, w')
    /\ w_fs w' = <[d ++ [n] := File (content_or (w_fs w) (d ++ [n]) body)]> (w_fs w)
    /\ w_cwd w' = w_cwd w /\ w_stdout w' = w_stdout w.
Proof.
  intros Hn Hd Hnd. unfold ensure_file, bind. rewrite os_path_isfile_eq.
  unfold isfile_at, content_or. rewrite (stat_join _ _ _ _ Hn), Hd.
  destruct (w_fs w !! (d ++ [n])) as [[c|]|] eqn:E; cbn [negb].
  - exists w. repeat split. symmetry. now apply insert_id.
  - contradiction.
  - rewrite (put_file_run X n body w d Hd) by congruence.
    eexists. repeat split.
Qed.






End StageRuns.

(** ** When a run in an existing directory ends well *)

Section Criterion.

Import vfs.

Lemma isdir_at_join (w : world) (X n : string) (d : loc) :
  simple_name n = true ->
  lookup_dir (w_fs w) (w_cwd w) X = Ok d ->
  isdir_at w (posixpath.join X n) = false <-> w_fs w !! (d ++ [n]) <> Some Dir.
Proof.
  intros Hn Hd. unfold isdir_at. rewrite (stat_join _ _ _ _ Hn), Hd.
  destruct (w_fs w !! (d ++ [n])) as [[c|]|]; split; congruence.
Qed.








End Criterion.

(** ** What stands in the way *)

Section Obstacles.

Import vfs.

Lemma stat_file_lookup (fs : gmap loc node) (cwd : loc) (X s : string) :
  stat fs cwd X = Ok (File s) -> lookup_dir fs cwd X = Raise NotADirectoryError.
Proof.
  unfold stat, namei, lookup_dir.
  destruct (has_nul X); [discriminate|].
  destruct (is_empty X); [discriminate|].
  destruct (last (components X)) as [c|] eqn:Hl; [|discriminate].
  apply last_Some in Hl as [cs Hcs]. rewrite Hcs, walk_app, removelast_last.
  destruct (walk fs _ cs) as [p|e] eqn:Hw; [|discriminate].
  destruct (check_dir fs p) as [u|] eqn:Hc; [|discriminate].
  cbn [nd_last nd_parent nd_slash]. unfold check_dir.
  destruct (node_at fs (enter p c)) as [[s'|]|] eqn:Hn; try discriminate.
  reflexivity.
Qed.

(** X7.  When the project path names a regular file, the run prints
    its first line and fails with [NotADirectoryError] on opening
    [package.json]; the file system is left as it was. *)
Theorem X7_target_is_a_regular_file (argv : list string) (w : world) (c : string) :
  let P := project_path_of argv w in
  read_file w P = Some c ->
  main argv w
  = (Raise NotADirectoryError,
     World (w_fs w) (w_cwd w)
       (w_stdout w +:+ "Initializing TypeScript project in: " +:+ P +:+ nl)).
Proof.
  intros P Hr.
  assert (Hst : stat (w_fs w) (w_cwd w) P = Ok (File c)).
  { unfold read_file in Hr.
    destruct (stat (w_fs w) (w_cwd w) P) as [[s|]|e]; congruence. }
  rewrite main_stages_eq. fold P. unfold main_stages. cbn [run_stages].
  assert (E0 : ensure_project_dir P w = (Ok tt, w)).
  { unfold ensure_project_dir, bind. rewrite os_path_exists_eq.
    unfold exists_at. now rewrite Hst. }
  rewrite (bind_Ok_eq _ _ _ _ _ E0).
  rewrite (bind_Ok_eq _ _ _ _ _ (announce_eq P w)).
  apply bind_Raise_eq. rewrite generate_package_json_eq. unfold put_file.
  cbn [w_fs w_cwd]. rewrite (stat_file_lookup _ _ _ _ Hst).
  repeat first [rewrite append_assoc | progress cbn [String.append]]. reflexivity.
Qed.

Lemma X7_target_is_a_regular_file_witness :
  main ["main.py"; "myapp/src"] src_file_world
  = (Raise NotADirectoryError,
     World src_file_fs ["home"; "u"]
       (EmptyString +:+ "Initializing TypeScript project in: " +:+ "/home/u/myapp/src" +:+ nl)).
Proof.
  exact (X7_target_is_a_regular_file ["main.py"; "myapp/src"] src_file_world "notes" eq_refl).
Defined.

Lemma isdir_lookup (w : world) (P : string) :
  isdir_at w P = true -> exists dP, lookup_dir (w_fs w) (w_cwd w) P = Ok dP.
Proof.
  unfold isdir_at. intros H. apply stat_dir_lookup.
  destruct (stat (w_fs w) (w_cwd w) P) as [[c|]|e]; congruence.
Qed.

Lemma isdir_at_join_true (w : world) (X n : string) (d : loc) :
  simple_name n = true ->
  lookup_dir (w_fs w) (w_cwd w) X = Ok d ->
  isdir_at w (posixpath.join X n) = true -> w_fs w !! (d ++ [n]) = Some Dir.
Proof.
  intros Hn Hd. unfold isdir_at. rewrite (stat_join _ _ _ _ Hn), Hd.
  destruct (w_fs w !! (d ++ [n])) as [[c|]|]; congruence.
Qed.

(** X8.  When [package.json] of the project is a directory, the run
    prints its first line and fails with [IsADirectoryError]; the file
    system is left as it was. *)
Theorem X8_package_json_is_a_directory (argv : list string) (w : world) :
  let P := project_path_of argv w in
  isdir_at w (package_json_path P) = true ->
  main argv w
  = (Raise IsADirectoryError,
     World (w_fs w) (w_cwd w)
       (w_stdout w +:+ "Initializing TypeScript project in: " +:+ P +:+ nl)).
Proof.
  intros P Hd.
  assert (exists dP, lookup_dir (w_fs w) (w_cwd w) P = Ok dP
                     /\ w_fs w !! (dP ++ ["package.json"]) = Some Dir) as (dP & HdP & Hp).
  { unfold isdir_at, package_json_path in Hd.
    rewrite (stat_join _ _ _ _ simple_package_json) in Hd.
    destruct (lookup_dir (w_fs w) (w_cwd w) P) as [dP|e]; [|discriminate].
    exists dP. split; [reflexivity|].
    destruct (w_fs w !! (dP ++ ["package.json"])) as [[c|]|]; congruence. }
  rewrite main_stages_eq. fold P. unfold main_stages. cbn [run_stages].
  rewrite (bind_Ok_eq _ _ _ _ _
             (ensure_project_dir_there P w dP (project_path_nonempty argv w) HdP)).
  rewrite (bind_Ok_eq _ _ _ _ _ (announce_eq P w)).
  apply bind_Raise_eq. rewrite generate_package_json_eq. unfold put_file.
  cbn [w_fs w_cwd]. rewrite HdP, Hp. repeat first [rewrite append_assoc | progress cbn [String.append]]. reflexivity.
Qed.

(** X9.  When [tsconfig.json] of the project is a directory and
    [package.json] is not, the run fails with [IsADirectoryError] after
    it has printed its first line and written [package.json]: that file
    is the only change. *)
Theorem X9_tsconfig_json_is_a_directory (argv : list string) (w : world) :
  let P := project_path_of argv w in
  isdir_at w (tsconfig_json_path P) = true ->
  isdir_at w (package_json_path P) = false ->
  exists dP,
    lookup_dir (w_fs w) (w_cwd w) P = Ok dP
    /\ main argv w
       = (Raise IsADirectoryError,
          World (<[dP ++ ["package.json"]
                   := File (json_encoder.dumps (package_data P))]> (w_fs w))
            (w_cwd w)
            (w_stdout w +:+ "Initializing TypeScript project in: " +:+ P +:+ nl)).
Proof.
  intros P Hd Hnp.
  assert (exists dP, lookup_dir (w_fs w) (w_cwd w) P = Ok dP
                     /\ w_fs w !! (dP ++ ["tsconfig.json"]) = Some Dir) as (dP & HdP & Ht).
  { unfold isdir_at, tsconfig_json_path in Hd.
    rewrite (stat_join _ _ _ _ simple_tsconfig_json) in Hd.
    destruct (lookup_dir (w_fs w) (w_cwd w) P) as [dP|e]; [|discriminate].
    exists dP. split; [reflexivity|].
    destruct (w_fs w !! (dP ++ ["tsconfig.json"])) as [[c|]|]; congruence. }
  apply (isdir_at_join w P _ dP simple_package_json HdP) in Hnp.
  exists dP. split; [exact HdP|].
  rewrite main_stages_eq. fold P. unfold main_stages. cbn [run_stages].
  rewrite (bind_Ok_eq _ _ _ _ _
             (ensure_project_dir_there P w dP (project_path_nonempty argv w) HdP)).
  rewrite (bind_Ok_eq _ _ _ _ _ (announce_eq P w)).
  set (w2 := World _ _ _).
  assert (E2 : generate_package_json P w2
               = (Ok tt, set_fs (<[dP ++ ["package.json"]
                    := File (json_encoder.dumps (package_data P))]> (w_fs w)) w2)).
  { rewrite generate_package_json_eq. exact (put_file_run P _ _ w2 dP HdP Hnp). }
  rewrite (bind_Ok_eq _ _ _ _ _ E2).
  apply bind_Raise_eq. rewrite generate_tsconfig_json_eq. unfold put_file.
  cbn [w2 set_fs w_fs w_cwd].
  rewrite (lookup_dir_insert_file _ _ _ _ _ _ HdP Hnp).
  rewrite lookup_insert_ne by loc_neq. rewrite Ht. repeat first [rewrite append_assoc | progress cbn [String.append]]. reflexivity.
Qed.

Lemma X8_package_json_is_a_directory_witness :
  main ["main.py"; "myapp"] manifest_dir_world
  = (Raise IsADirectoryError,
     World manifest_dir_fs ["home"; "u"]
       (EmptyString +:+ "Initializing TypeScript project in: " +:+ "/home/u/myapp" +:+ nl)).
Proof.
  exact (X8_package_json_is_a_directory ["main.py"; "myapp"] manifest_dir_world eq_refl).
Defined.

Lemma X9_tsconfig_json_is_a_directory_witness :
  let P := "/home/u/myapp" in
  exists dP,
    lookup_dir blocked_fs ["home"; "u"] P = Ok dP
    /\ main ["main.py"; "myapp"] blocked_world
       = (Raise IsADirectoryError,
          World (<[dP ++ ["package.json"]
                   := File (json_encoder.dumps (package_data P))]> blocked_fs)
            ["home"; "u"]
            (EmptyString +:+ "Initializing TypeScript project in: " +:+ P +:+ nl)).
Proof.
  exact (X9_tsconfig_json_is_a_directory ["main.py"; "myapp"] blocked_world eq_refl eq_refl).
Defined.

(** A source that is a directory lies in [src] of the project
    directory. *)
Lemma source_dir_lookup (w : world) (P n : string) :
  simple_name n = true ->
  isdir_at w (posixpath.join (src_path P) n) = true ->
  exists dP, lookup_dir (w_fs w) (w_cwd w) P = Ok dP
    /\ w_fs w !! (dP ++ ["src"]) = Some Dir
    /\ w_fs w !! ((dP ++ ["src"]) ++ [n]) = Some Dir.
Proof.
  intros Hn Hd. unfold isdir_at in Hd. rewrite (stat_join _ _ _ _ Hn) in Hd.
  destruct (lookup_dir (w_fs w) (w_cwd w) (src_path P)) as [d|e] eqn:Hs; [|discriminate].
  apply lookup_dir_src in Hs as (dP & HdP & -> & Hsrc).
  exists dP. repeat split; try assumption.
  destruct (w_fs w !! ((dP ++ ["src"]) ++ [n])) as [[c|]|]; congruence.
Qed.

Lemma ensure_src_dir_there (P : string) (w : world) (dP : loc) :
  lookup_dir (w_fs w) (w_cwd w) P = Ok dP ->
  w_fs w !! (dP ++ ["src"]) = Some Dir ->
  ensure_src_dir P w = (Ok tt, w).
Proof.
  intros HdP Hs. unfold ensure_src_dir, bind. rewrite os_path_exists_eq.
  unfold exists_at, src_path. now rewrite (stat_join _ _ _ _ simple_src), HdP, Hs.
Qed.

(** X10.  The sources stage, with a directory in the place of
    [index.ts]: it fails with [IsADirectoryError] and changes nothing.
    With one in the place of [module.ts] only: it fails in the same way
    after [index.ts] was seen to, and has changed nothing if [index.ts]
    was a regular file already. *)
Theorem X10_source_is_a_directory (P : string) (w : world) :
  (isdir_at w (index_path P) = true ->
   ensure_src_index_ts P w = (Raise IsADirectoryError, w))
  /\ (isdir_at w (module_path P) = true ->
      isdir_at w (index_path P) = false ->
      exists w',
        ensure_src_index_ts P w = (Raise IsADirectoryError, w')
        /\ isfile_at w' (index_path P) = true
        /\ (isfile_at w (index_path P) = true -> w' = w)).
Proof.
  split.
  - intros Hd.
    destruct (source_dir_lookup w P "index.ts" simple_index_ts Hd) as (dP & HdP & Hs & Hi).
    rewrite ensure_src_index_ts_eq.
    rewrite (bind_Ok_eq _ _ _ _ _ (ensure_src_dir_there P w dP HdP Hs)).
    apply bind_Raise_eq. unfold ensure_index_ts, ensure_file, bind.
    rewrite os_path_isfile_eq. unfold isfile_at.
    rewrite (stat_join _ _ _ _ simple_index_ts).
    rewrite (lookup_dir_src_Ok _ _ _ _ HdP Hs), Hi. cbn [negb].
    unfold put_file. now rewrite (lookup_dir_src_Ok _ _ _ _ HdP Hs), Hi.
  - intros Hd Hni.
    destruct (source_dir_lookup w P "module.ts" simple_module_ts Hd) as (dP & HdP & Hs & Hm).
    pose proof (lookup_dir_src_Ok _ _ _ _ HdP Hs) as HdS.
    apply (isdir_at_join w (src_path P) _ _ simple_index_ts HdS) in Hni.
    destruct (ensure_file_run (src_path P) "index.ts" index_ts_body w _
                simple_index_ts HdS Hni) as (wb & Eb & Fb & Cb & Ob).
    exists wb. rewrite ensure_src_index_ts_eq.
    rewrite (bind_Ok_eq _ _ _ _ _ (ensure_src_dir_there P w dP HdP Hs)).
    change (ensure_index_ts P w = (Ok tt, wb)) in Eb.
    rewrite (bind_Ok_eq _ _ _ _ _ Eb).
    assert (HdS' : lookup_dir (w_fs wb) (w_cwd wb) (src_path P) = Ok (dP ++ ["src"])).
    { rewrite Fb, Cb. now apply lookup_dir_insert_file. }
    split; [|split].
    + unfold ensure_module_ts, ensure_file, bind.
      rewrite os_path_isfile_eq. unfold isfile_at.
      rewrite (stat_join _ _ _ _ simple_module_ts), HdS'.
      rewrite Fb, lookup_insert_ne by loc_neq. rewrite Hm. cbn [negb].
      unfold put_file. rewrite HdS', Fb, lookup_insert_ne by loc_neq. now rewrite Hm.
    + unfold isfile_at, index_path. rewrite (stat_join _ _ _ _ simple_index_ts), HdS'.
      now rewrite Fb, lookup_insert_eq.
    + intros Hf. unfold ensure_index_ts, ensure_file, bind in Eb.
      rewrite os_path_isfile_eq in Eb. unfold index_path in Hf. rewrite Hf in Eb.
      cbn [negb] in Eb. now injection Eb.
Qed.

Lemma X10_source_is_a_directory_witness :
  ensure_src_index_ts "/home/u/myapp" index_dir_world
  = (Raise IsADirectoryError, index_dir_world).
Proof.
  exact (proj1 (X10_source_is_a_directory "/home/u/myapp" index_dir_world) eq_refl).
Defined.

Lemma stat_Raise_lookup (fs : gmap loc node) (cwd : loc) (X : string) (e : exn) :
  is_empty X = false ->
  stat fs cwd X = Raise e -> lookup_dir fs cwd X = Raise e.
Proof.
  intros HX. unfold stat, namei, lookup_dir. rewrite HX.
  destruct (has_nul X); [intros [= <-]; reflexivity|].
  destruct (last (components X)) as [c|] eqn:Hl; [|cbn; discriminate].
  apply last_Some in Hl as [cs Hcs]. rewrite Hcs, walk_app, removelast_last.
  destruct (walk fs _ cs) as [p|e']; [|intros [= <-]; reflexivity].
  destruct (check_dir fs p) as [u|e']; [|intros [= <-]; reflexivity].
  cbn [nd_last nd_parent nd_slash]. unfold check_dir.
  destruct (node_at fs (enter p c)) as [[s'|]|]; try discriminate;
    try (intros [= <-]; reflexivity).
  destruct (endswith sep X); [intros [= <-]; reflexivity | discriminate].
Qed.

(** X11.  The two functions that write the configuration files do not
    create the project directory: for a path that is not empty and that
    [os.stat] refuses, each fails with the error of [os.stat] and leaves
    the world as it is. *)
Theorem X11_configuration_needs_the_directory (P : string) (w : world) (e : exn) :
  is_empty P = false ->
  os_stat P w = (Raise e, w) ->
  generate_package_json P w = (Raise e, w)
  /\ generate_tsconfig_json P w = (Raise e, w).
Proof.
  intros HP Hst. unfold os_stat in Hst. injection Hst as Hst.
  apply (stat_Raise_lookup _ _ _ _ HP) in Hst.
  rewrite generate_package_json_eq, generate_tsconfig_json_eq.
  unfold put_file. now rewrite Hst.
Qed.

Lemma X11_configuration_needs_the_directory_witness :
  generate_package_json "/home/u/myapp" home_world = (Raise FileNotFoundError, home_world)
  /\ generate_tsconfig_json "/home/u/myapp" home_world
     = (Raise FileNotFoundError, home_world).
Proof.
  exact (X11_configuration_needs_the_directory "/home/u/myapp" home_world FileNotFoundError
           eq_refl eq_refl).
Defined.

(** X12.  The sources stage changes nothing at all when [src/index.ts]
    and [src/module.ts] are regular files already. *)
Theorem X12_sources_stage_keeps_existing (P : string) (w : world) :
  isfile_at w (index_path P) = true ->
  isfile_at w (module_path P) = true ->
  ensure_src_index_ts P w = (Ok tt, w).
Proof.
  intros Hi Hm.
  assert (exists dP, lookup_dir (w_fs w) (w_cwd w) P = Ok dP
                     /\ w_fs w !! (dP ++ ["src"]) = Some Dir) as (dP & HdP & Hs).
  { unfold isfile_at, index_path in Hi.
    rewrite (stat_join _ _ _ _ simple_index_ts) in Hi.
    destruct (lookup_dir (w_fs w) (w_cwd w) (src_path P)) as [d|e] eqn:E;
      [|discriminate].
    apply lookup_dir_src in E as (dP & HdP & _ & Hs). eauto. }
  rewrite ensure_src_index_ts_eq.
  rewrite (bind_Ok_eq _ _ _ _ _ (ensure_src_dir_there P w dP HdP Hs)).
  assert (Eb : ensure_index_ts P w = (Ok tt, w)).
  { unfold ensure_index_ts, ensure_file, bind. rewrite os_path_isfile_eq.
    unfold index_path in Hi. now rewrite Hi. }
  rewrite (bind_Ok_eq _ _ _ _ _ Eb).
  unfold ensure_module_ts, ensure_file, bind. rewrite os_path_isfile_eq.
  unfold module_path in Hm. now rewrite Hm.
Qed.

Lemma X12_sources_stage_keeps_existing_witness :
  let w := snd (main ["main.py"; "myapp"] edited_world) in
  ensure_src_index_ts "/home/u/myapp" w = (Ok tt, w).
Proof.
  exact (X12_sources_stage_keeps_existing "/home/u/myapp"
           (snd (main ["main.py"; "myapp"] edited_world)) eq_refl eq_refl).
Defined.

End Obstacles.

(** ** Missing parents *)

Section Nested.

Import vfs.












End Nested.

Section NestedProject.

Import vfs.






End NestedProject.

(** ** What a run leaves alone *)

Section Frame.

Import vfs.













End Frame.

(** ** A second run *)

Section SecondRun.

Lemma project_path_of_arg (argv argv' : list string) (w : world) :
  argv' !! 1%nat = argv !! 1%nat -> project_path_of argv' w = project_path_of argv w.
Proof.
  intros E. unfold project_path_of. destruct (argv !! 1%nat) as [a|] eqn:Ha.
  - now rewrite (resolve_project_path_arg argv' w a E),
      (resolve_project_path_arg argv w a Ha).
  - now rewrite (resolve_project_path_no_arg argv' w E),
      (resolve_project_path_no_arg argv w Ha).
Qed.

(** X16.  After a run that ended well, a further run with the same first
    argument, whatever the other arguments, ends well too and leaves
    the file system as it found it. *)
Theorem X16_second_run_changes_nothing (argv argv' : list string) (w w1 : world) (u : unit) :
  main argv w = (Ok u, w1) ->
  argv' !! 1%nat = argv !! 1%nat ->
  exists w2,
    main argv' w1 = (Ok tt, w2) /\ w_fs w2 = w_fs w1 /\ w_cwd w2 = w_cwd w1.
Proof.
  intros H E. destruct (main_rerun argv w w1 u H) as (w2 & H2 & F & C).
  exists w2. split; [|auto].
  rewrite <- H2. apply main_by_project_path. now apply project_path_of_arg.
Qed.

Lemma X16_second_run_changes_nothing_witness :
  let w1 := snd (main ["main.py"; "myapp"] edited_world) in
  exists w2,
    main ["tscinit"; "myapp"; "--force"] w1 = (Ok tt, w2)
    /\ w_fs w2 = w_fs w1 /\ w_cwd w2 = w_cwd w1.
Proof.
  assert (E : main ["main.py"; "myapp"] edited_world
              = (Ok tt, snd (main ["main.py"; "myapp"] edited_world)))
    by (vm_compute; reflexivity).
  exact (X16_second_run_changes_nothing ["main.py"; "myapp"] ["tscinit"; "myapp"; "--force"]
           edited_world _ tt E eq_refl).
Defined.

End SecondRun.

(** ** The text of the configuration files is plain ASCII *)

Section PlainText.

Import json_encoder.

Lemma all_printable_append (a b : string) :
  all_printable (a +:+ b) = all_printable a && all_printable b.
Proof.
  induction a as [|x a IH]; [reflexivity|].
  rewrite append_cons. cbn [all_printable]. now rewrite IH, andb_assoc.
Qed.

Lemma printable_escape_char (c : ascii) : all_printable (escape_char c) = true.
Proof. destruct c as [[] [] [] [] [] [] [] []]; reflexivity. Qed.

Lemma printable_escape (s : string) : all_printable (escape s) = true.
Proof.
  induction s as [|c s IH]; [reflexivity|]. cbn [escape].
  now rewrite all_printable_append, printable_escape_char, IH.
Qed.

Lemma printable_encoded (s : string) :
  all_printable (encode_basestring_ascii s) = true.
Proof.
  unfold encode_basestring_ascii.
  now rewrite !all_printable_append, printable_escape.
Qed.

Lemma printable_spaces (n : nat) : all_printable (spaces n) = true.
Proof. induction n as [|n IH]; [reflexivity | exact IH]. Qed.

Lemma printable_newline_indent (level : nat) :
  all_printable (newline_indent level) = true.
Proof.
  unfold newline_indent. now rewrite all_printable_append, printable_spaces.
Qed.

Lemma printable_list_items (L : nat) (vs : list json) :
  Forall (fun o => forall level, all_printable (iterencode o level) = true) vs ->
  all_printable (list_items (fun x => iterencode x L)
                   (String "," (newline_indent L)) vs) = true.
Proof.
  induction vs as [|v vs IH]; intros H; [reflexivity|].
  apply Forall_cons in H as [Hv Hvs]. cbn [list_items].
  rewrite !all_printable_append, Hv, (IH Hvs). cbn [all_printable].
  now rewrite printable_newline_indent.
Qed.

Lemma printable_dict_items (L : nat) (kvs : list (string * json)) :
  Forall (fun kv => forall level, all_printable (iterencode (snd kv) level) = true) kvs ->
  all_printable (dict_items (fun x => iterencode x L)
                   (String "," (newline_indent L)) kvs) = true.
Proof.
  induction kvs as [|[k v] kvs IH]; intros H; [reflexivity|].
  apply Forall_cons in H as [Hv Hvs]. cbn [snd] in Hv. cbn [dict_items].
  rewrite !all_printable_append, Hv, (IH Hvs), printable_encoded.
  cbn [all_printable]. now rewrite printable_newline_indent.
Qed.

(** Whatever the document, [json.dump] writes line feeds and printable
    ASCII only. *)
Lemma printable_iterencode (o : json) :
  forall level, all_printable (iterencode o level) = true.
Proof.
  induction o as [s|b|l IH|d IH] using json_nested_ind; intros level.
  - apply printable_encoded.
  - destruct b; reflexivity.
  - destruct l as [|v vs]; [reflexivity|].
    apply Forall_cons in IH as [Hv Hvs].
    rewrite iterencode_list, !all_printable_append.
    now rewrite Hv, (printable_list_items _ _ Hvs), !printable_newline_indent.
  - destruct d as [|[k v] kvs]; [reflexivity|].
    apply Forall_cons in IH as [Hv Hvs]. cbn [snd] in Hv.
    rewrite iterencode_dict, !all_printable_append.
    now rewrite Hv, (printable_dict_items _ _ Hvs), printable_encoded,
      !printable_newline_indent.
Qed.

(** X17.  The texts a run writes to [package.json] and [tsconfig.json]
    consist of line feeds and printable ASCII characters only, whatever
    the name of the project directory. *)
Theorem X17_configuration_is_plain_ascii (argv : list string) (w w' : world) (u : unit) :
  main argv w = (Ok u, w') ->
  let P := project_path_of argv w in
  exists manifest configuration,
    read_file w' (package_json_path P) = Some manifest
    /\ all_printable manifest = true
    /\ read_file w' (tsconfig_json_path P) = Some configuration
    /\ all_printable configuration = true.
Proof.
  intros H P. destruct (main_Ok _ _ _ _ H) as [dP Hs]. fold P in Hs.
  destruct (scaffolded_paths _ _ _ _ Hs) as (Hp & Ht & _).
  exists (dumps (package_data P)), (dumps tsconfig_data).
  repeat split; try assumption; apply printable_iterencode.
Qed.

Lemma X17_configuration_is_plain_ascii_witness :
  let argv := ["main.py"; String "c" (String "a" (String "f" (String "233" EmptyString)))] in
  let w' := snd (main argv home_world) in
  exists manifest configuration,
    read_file w' (package_json_path (project_path_of argv home_world)) = Some manifest
    /\ all_printable manifest = true
    /\ read_file w' (tsconfig_json_path (project_path_of argv home_world))
       = Some configuration
    /\ all_printable configuration = true.
Proof.
  set (argv := ["main.py"; String "c" (String "a" (String "f" (String "233" EmptyString)))]).
  assert (E : main argv home_world = (Ok tt, snd (main argv home_world)))
    by (vm_compute; reflexivity).
  exact (X17_configuration_is_plain_ascii argv home_world _ tt E).
Defined.

End PlainText.

(** ** Absolute paths and the working directory *)

Section AbsolutePaths.

Import vfs.

Lemma cwd_free_ret {A} (a : A) : cwd_free (ret a).
Proof. intros w c. reflexivity. Qed.

Lemma cwd_free_bind {A B} (m : M A) (k : A -> M B) :
  cwd_free m -> (forall a, cwd_free (k a)) -> cwd_free (bind m k).
Proof.
  intros Hm Hk w c. unfold bind. rewrite Hm.
  destruct (m w) as [[a|e] w1]; cbn [fst snd]; [apply Hk | reflexivity].
Qed.

Lemma cwd_free_ext {A} (m m' : M A) :
  (forall w, m' w = m w) -> cwd_free m -> cwd_free m'.
Proof. intros E H w c. now rewrite !E. Qed.

Lemma cwd_free_print (s : string) : cwd_free (print s).
Proof. intros w c. reflexivity. Qed.

Lemma namei_abs (fs : gmap loc node) (cwd cwd' : loc) (p : string) :
  posixpath.isabs p = true -> namei fs cwd p = namei fs cwd' p.
Proof. intros H. unfold namei. now rewrite H. Qed.

Lemma lookup_dir_abs (fs : gmap loc node) (cwd cwd' : loc) (p : string) :
  posixpath.isabs p = true -> lookup_dir fs cwd p = lookup_dir fs cwd' p.
Proof. intros H. unfold lookup_dir. now rewrite H. Qed.

Lemma cwd_free_exists (p : string) :
  posixpath.isabs p = true -> cwd_free (os_path_exists p).
Proof.
  intros H w c. unfold os_path_exists, os_stat, stat. cbn [set_cwd w_fs w_cwd].
  rewrite (namei_abs _ c (w_cwd w) p H).
  destruct (namei (w_fs w) (w_cwd w) p) as [nd|e]; [|reflexivity].
  destruct (nd_last nd) as [x|]; [|reflexivity].
  destruct (node_at (w_fs w) _) as [[y|]|]; try reflexivity.
  destruct (nd_slash nd); reflexivity.
Qed.

Lemma cwd_free_isfile (p : string) :
  posixpath.isabs p = true -> cwd_free (os_path_isfile p).
Proof.
  intros H w c. unfold os_path_isfile, os_stat, stat. cbn [set_cwd w_fs w_cwd].
  rewrite (namei_abs _ c (w_cwd w) p H).
  destruct (namei (w_fs w) (w_cwd w) p) as [nd|e]; [|reflexivity].
  destruct (nd_last nd) as [x|]; [|reflexivity].
  destruct (node_at (w_fs w) _) as [[y|]|]; try reflexivity.
  destruct (nd_slash nd); reflexivity.
Qed.

Lemma cwd_free_mkdir (p : string) :
  posixpath.isabs p = true -> cwd_free (os_mkdir p).
Proof.
  intros H w c. unfold os_mkdir, mkdir. cbn [set_cwd w_fs w_cwd].
  rewrite (namei_abs _ c (w_cwd w) p H).
  destruct (namei (w_fs w) (w_cwd w) p) as [nd|e]; [|reflexivity].
  destruct (nd_last nd) as [x|]; [|reflexivity].
  destruct (is_dot x || is_dotdot x); [reflexivity|].
  destruct (node_at (w_fs w) _); reflexivity.
Qed.

Lemma cwd_free_put_file (X n s : string) :
  posixpath.isabs X = true -> cwd_free (put_file X n s).
Proof.
  intros H w c. unfold put_file. cbn [set_cwd w_fs w_cwd].
  rewrite (lookup_dir_abs _ c (w_cwd w) X H).
  destruct (lookup_dir (w_fs w) (w_cwd w) X) as [d|e]; [|reflexivity].
  destruct (w_fs w !! (d ++ [n])) as [[x|]|]; reflexivity.
Qed.

Lemma cwd_free_except (m : M unit) :
  cwd_free m -> cwd_free (except_FileExistsError_pass m).
Proof.
  intros Hm w c. unfold except_FileExistsError_pass. rewrite Hm.
  destruct (m w) as [[[]|[]] w1]; reflexivity.
Qed.

Lemma startswith_rstrip (s : string) :
  is_empty (rstrip sep s) = false ->
  startswith sep (rstrip sep s) = startswith sep s.
Proof.
  intros H. destruct (rstrip_decomp s) as (t & Hs & _).
  destruct (rstrip sep s) as [|a r] eqn:E; [discriminate|].
  rewrite Hs. reflexivity.
Qed.

Lemma str_take_abs (n : nat) (p : string) :
  posixpath.isabs p = true -> (0 < n)%nat ->
  posixpath.isabs (str_take n p) = true.
Proof.
  destruct p as [|a p]; [discriminate|]. destruct n; [lia|]. now intros.
Qed.

(** The head of an absolute path is absolute. *)
Lemma split_abs (p : string) :
  posixpath.isabs p = true -> posixpath.isabs (fst (posixpath.split p)) = true.
Proof.
  intros H. unfold posixpath.split. cbn [fst].
  assert (Hr : 0 <= rfind sep p).
  { apply rfind_some. destruct p as [|a p]; [discriminate|].
    cbn [posixpath.isabs startswith] in H. cbn [has_char]. now rewrite H. }
  assert (Ht : posixpath.isabs (str_take (Z.to_nat (rfind sep p + 1)) p) = true)
    by (apply str_take_abs; [exact H | lia]).
  destruct (negb (is_empty _) && negb (all_char sep _)) eqn:E; [|exact Ht].
  apply andb_true_iff in E as [_ E]. apply negb_true_iff in E.
  unfold posixpath.isabs. rewrite startswith_rstrip; [exact Ht|].
  now apply rstrip_nonempty.
Qed.

Lemma cwd_free_makedirs_fuel (n : nat) :
  forall name : string,
    posixpath.isabs name = true -> cwd_free (makedirs_fuel n name).
Proof.
  induction n as [|n IH]; intros name Habs; [intros w c; reflexivity|].
  cbn [makedirs_fuel].
  pose proof (split_abs name Habs) as Hh.
  destruct (posixpath.split name) as [head tail]. cbn [fst] in Hh.
  assert (Hh' : posixpath.isabs
                  (fst (if is_empty tail then posixpath.split head else (head, tail)))
                = true).
  { destruct (is_empty tail); [now apply split_abs | exact Hh]. }
  destruct (if is_empty tail then posixpath.split head else (head, tail))
    as [head' tail']. cbn [fst] in Hh'.
  apply cwd_free_bind.
  - destruct (negb (is_empty head') && negb (is_empty tail')); [|apply cwd_free_ret].
    apply cwd_free_bind; [now apply cwd_free_exists|].
    intros ex. destruct (negb ex); [|apply cwd_free_ret].
    apply cwd_free_bind; [|intros; apply cwd_free_ret].
    apply cwd_free_except. now apply IH.
  - intros proceed. destruct proceed; [now apply cwd_free_mkdir | apply cwd_free_ret].
Qed.

Lemma cwd_free_ensure_dir (X : string) :
  posixpath.isabs X = true ->
  cwd_free (let* ex := os_path_exists X in
            if negb ex then os_makedirs X else ret tt).
Proof.
  intros H. apply cwd_free_bind; [now apply cwd_free_exists|].
  intros ex. destruct (negb ex); [|apply cwd_free_ret].
  now apply cwd_free_makedirs_fuel.
Qed.

Lemma cwd_free_ensure_file (X n body : string) :
  simple_name n = true -> posixpath.isabs X = true ->
  cwd_free (ensure_file X n body).
Proof.
  intros Hn H. apply cwd_free_bind.
  - apply cwd_free_isfile. now rewrite isabs_join.
  - intros isf. destruct (negb isf); [now apply cwd_free_put_file | apply cwd_free_ret].
Qed.

Lemma cwd_free_run_stages (l : list (M unit)) :
  Forall cwd_free l -> cwd_free (run_stages l).
Proof.
  induction l as [|m l IH]; intros H; [apply cwd_free_ret|].
  apply Forall_cons in H as [Hm Hl]. cbn [run_stages].
  apply cwd_free_bind; [exact Hm | intros _; now apply IH].
Qed.

Lemma cwd_free_stages (P : string) :
  posixpath.isabs P = true -> cwd_free (run_stages (main_stages P)).
Proof.
  intros H. apply cwd_free_run_stages. unfold main_stages.
  assert (Hs : posixpath.isabs (src_path P) = true)
    by (unfold src_path; now rewrite isabs_join).
  constructor; [now apply cwd_free_ensure_dir|].
  constructor; [apply cwd_free_print|].
  constructor.
  { eapply cwd_free_ext; [apply generate_package_json_eq|]. now apply cwd_free_put_file. }
  constructor.
  { eapply cwd_free_ext; [apply generate_tsconfig_json_eq|]. now apply cwd_free_put_file. }
  constructor.
  { eapply cwd_free_ext; [apply ensure_src_index_ts_eq|].
    apply cwd_free_bind; [now apply cwd_free_ensure_dir|]. intros _.
    apply cwd_free_bind; [now apply cwd_free_ensure_file|]. intros _.
    now apply cwd_free_ensure_file. }
  constructor; [|constructor].
  unfold report. repeat (apply cwd_free_bind; [apply cwd_free_print | intros _]).
  apply cwd_free_print.
Qed.

(** X18.  With an absolute first argument the working directory plays
    no part: started from another working directory, the run has the same
    outcome, leaves the same file system and prints the same text. *)
Theorem X18_absolute_argument_ignores_cwd (argv : list string) (a : string)
    (w : world) (c : loc) :
  argv !! 1%nat = Some a ->
  posixpath.isabs a = true ->
  main argv (set_cwd c w) = (fst (main argv w), set_cwd c (snd (main argv w))).
Proof.
  intros Ha Habs.
  assert (HP : forall x, project_path_of argv x = a).
  { intros x. unfold project_path_of.
    now rewrite (resolve_project_path_arg argv x a Ha), Habs. }
  rewrite !main_stages_eq, !HP. now apply cwd_free_stages.
Qed.

Lemma X18_absolute_argument_ignores_cwd_witness :
  let argv := ["main.py"; "/home/u/myapp"] in
  main argv (set_cwd ["home"] home_world)
  = (fst (main argv home_world), set_cwd ["home"] (snd (main argv home_world))).
Proof.
  exact (X18_absolute_argument_ignores_cwd ["main.py"; "/home/u/myapp"] "/home/u/myapp"
           home_world ["home"] eq_refl eq_refl).
Defined.

End AbsolutePaths.

(** ** A target that ends in [..] *)

Section DotDot.

Import vfs.





End DotDot.

(** ** A regular file on the way to the target *)

Section FileOnTheWay.

Import vfs.

Lemma stat_file_plain (fs : gmap loc node) (cwd : loc) (H c : string) :
  stat fs cwd H = Ok (File c) -> is_empty H = false /\ endswith sep H = false.
Proof.
  unfold stat, namei.
  destruct (has_nul H); [discriminate|].
  destruct (is_empty H); [discriminate|].
  destruct (last (components H)) as [x|]; [|cbn; discriminate].
  destruct (walk fs _ _) as [p|e]; [|discriminate].
  destruct (check_dir fs p); [|discriminate].
  cbn [nd_last nd_parent nd_slash].
  destruct (node_at fs (enter p x)) as [[s|]|]; try discriminate.
  destruct (endswith sep H); [discriminate | auto].
Qed.

(** X20.  When the project path is [H/n] for an ordinary name [n] and
    [H] names a regular file, the run fails with [NotADirectoryError] in
    [os.makedirs]: nothing is created, written or printed. *)
Theorem X20_parent_is_a_regular_file (argv : list string) (w : world) (H n c : string) :
  project_path_of argv w = posixpath.join H n ->
  simple_name n = true ->
  read_file w H = Some c ->
  main argv w = (Raise NotADirectoryError, w).
Proof.
  intros HP Hn Hr.
  assert (Hst : stat (w_fs w) (w_cwd w) H = Ok (File c)).
  { unfold read_file in Hr.
    destruct (stat (w_fs w) (w_cwd w) H) as [[s|]|e]; congruence. }
  destruct (stat_file_plain _ _ _ _ Hst) as [HH He].
  pose proof (stat_file_lookup _ _ _ _ Hst) as Hl.
  pose proof (simple_name_spec n Hn) as (Hne & _ & _ & Hdot & Hdd).
  rewrite main_stages_eq, HP. unfold main_stages. cbn [run_stages].
  apply bind_Raise_eq. unfold ensure_project_dir, bind. rewrite os_path_exists_eq.
  unfold exists_at. rewrite (stat_join _ _ _ _ Hn), Hl. cbn [negb].
  unfold os_makedirs. cbn [makedirs_fuel].
  rewrite (split_join H n Hn HH (or_introl He)).
  rewrite Hne, HH. cbn [negb andb]. rewrite Hne. cbn [negb]. rewrite bind_assoc.
  assert (Ex : os_path_exists H w = (Ok true, w)).
  { rewrite os_path_exists_eq. unfold exists_at. now rewrite Hst. }
  rewrite (bind_Ok_eq _ _ _ _ _ Ex). cbn [negb]. unfold bind, ret.
  unfold os_mkdir, mkdir. now rewrite (namei_join _ _ _ _ Hn), Hl.
Qed.

Lemma X20_parent_is_a_regular_file_witness :
  main ["main.py"; "myapp/src/app"] src_file_world
  = (Raise NotADirectoryError, src_file_world).
Proof.
  exact (X20_parent_is_a_regular_file ["main.py"; "myapp/src/app"] src_file_world
           "/home/u/myapp/src" "app" "notes" eq_refl eq_refl eq_refl).
Defined.

End FileOnTheWay.
